(** * resy-sniper: the monitoring engine of [server.py]

    A shallow embedding of the scan loop ([check_all_watches],
    [check_watch]), of the booking sequence ([try_snipe]) and of the
    helpers they call, followed by the properties of the specification
    that concern them.

    Conventions of the embedding.
    - Python values decoded from JSON are terms of [json]; operations that
      Python resolves at run time ([in], [.get], iteration, slicing,
      comparison) are total functions into [exn + _] that raise where
      Python raises.  JSON numbers are integers here (no floats).
    - A Python [str] is a [string]; a character is a code point below 256.
    - The SQLite file is the record [db]; a table is the list of its rows
      in insertion (rowid) order.  Every statement the code runs goes
      through one connection and is committed before the next read, so a
      statement acts on the record at once.
    - The remote service is an oracle [remote] from the history of client
      calls and the present request to a response; every call of a client
      function is appended to the history, which the theorems use to say
      which calls were made.
    - [datetime.date.fromisoformat], [date.isoformat] and [int] applied to
      a [str] are parameters of the development; dates are proleptic
      Gregorian ordinals.
    - Wall-clock time is a counter that [time.sleep] advances. *)

From Stdlib Require Import ZArith String Ascii List Lia Bool.
From stdpp Require Import base tactics option list list_numbers strings gmap pretty.

Local Open Scope string_scope.
Local Open Scope Z_scope.
Local Open Scope list_scope.

(** ** Python values and exceptions *)

#[warnings="-register-all"]
Inductive json :=
| JNull
| JBool (b : bool)
| JNum (n : Z)
| JStr (s : string)
| JArr (xs : list json)
| JObj (kvs : list (string * json)).

Inductive exn :=
| TypeError
| AttributeError
| ValueError
| KeyError
| OverflowError
| BindError.

(** Values held by a column of INTEGER affinity. *)
Inductive sqlval :=
| SNull
| SInt (n : Z)
| SText (s : string).

#[global] Instance sqlval_eq_dec : EqDecision sqlval.
Proof. solve_decision. Defined.

Definition res (A : Type) : Type := exn + A.

Definition rbind {A B} (r : res A) (k : A -> res B) : res B :=
  match r with
  | inl e => inl e
  | inr a => k a
  end.

Declare Scope res_scope.
Delimit Scope res_scope with res.
Notation "x <~ r ;; k" := (rbind r (fun x => k))
  (at level 100, r at next level, right associativity) : res_scope.

(** Truth value of a decoded JSON value ([if v:]). *)
Definition py_truthy (v : json) : bool :=
  match v with
  | JNull => false
  | JBool b => b
  | JNum n => negb (n =? 0)
  | JStr s => negb (String.eqb s "")
  | JArr xs => match xs with [] => false | _ => true end
  | JObj kvs => match kvs with [] => false | _ => true end
  end.

Definition str_truthy (o : option string) : bool :=
  match o with
  | Some s => negb (String.eqb s "")
  | None => false
  end.

Definition sql_truthy (v : sqlval) : bool :=
  match v with
  | SNull => false
  | SInt n => negb (n =? 0)
  | SText s => negb (String.eqb s "")
  end.

(** [needle in s] on two strings: [needle] occurs in [s]. *)
Fixpoint str_contains (needle s : string) : bool :=
  String.prefix needle s ||
  match s with
  | EmptyString => false
  | String _ s' => str_contains needle s'
  end.

Definition json_is_str (s : string) (v : json) : bool :=
  match v with
  | JStr s' => String.eqb s' s
  | _ => false
  end.

Fixpoint assoc (k : string) (kvs : list (string * json)) : option json :=
  match kvs with
  | [] => None
  | (k', v) :: rest => if String.eqb k' k then Some v else assoc k rest
  end.

(** [key in c]: key of a dict, element of a list, substring of a str;
    TypeError on None, bool and int. *)
Definition py_in (key : string) (c : json) : res bool :=
  match c with
  | JObj kvs => inr (bool_decide (is_Some (assoc key kvs)))
  | JArr xs => inr (existsb (json_is_str key) xs)
  | JStr s => inr (str_contains key s)
  | JNull | JBool _ | JNum _ => inl TypeError
  end.

(** [d.get(key, default)]: only a dict has the method. *)
Definition py_get (key : string) (default : json) (d : json) : res json :=
  match d with
  | JObj kvs => inr (match assoc key kvs with Some v => v | None => default end)
  | _ => inl AttributeError
  end.

(** [d[key]] with a str key. *)
Definition py_subscript (d : json) (key : string) : res json :=
  match d with
  | JObj kvs => match assoc key kvs with Some v => inr v | None => inl KeyError end
  | _ => inl TypeError
  end.

Fixpoint str_chars (s : string) : list json :=
  match s with
  | EmptyString => []
  | String c s' => JStr (String c EmptyString) :: str_chars s'
  end.

(** The items a [for] loop visits. *)
Definition py_iter (c : json) : res (list json) :=
  match c with
  | JArr xs => inr xs
  | JObj kvs => inr (map (fun kv => JStr (fst kv)) kvs)
  | JStr s => inr (str_chars s)
  | JNull | JBool _ | JNum _ => inl TypeError
  end.

(** [s.split(sep)] for a one-character separator. *)
Fixpoint str_split (sep : ascii) (s : string) : list string :=
  match s with
  | EmptyString => [EmptyString]
  | String c s' =>
      if Ascii.eqb c sep then EmptyString :: str_split sep s'
      else match str_split sep s' with
           | [] => [String c EmptyString]
           | x :: rest => String c x :: rest
           end
  end.

(** [s[:n]]. *)
Fixpoint str_take (n : nat) (s : string) : string :=
  match n, s with
  | O, _ => EmptyString
  | S _, EmptyString => EmptyString
  | S n', String c s' => String c (str_take n' s')
  end.

(** [start_time.split(" ")[-1]] *)
Definition py_split_last (v : json) : res json :=
  match v with
  | JStr s => inr (JStr (List.last (str_split " "%char s) EmptyString))
  | _ => inl AttributeError
  end.

(** [time_part[:5]]; a dict raises (TypeError, KeyError from Python 3.12
    on). *)
Definition py_slice5 (v : json) : res json :=
  match v with
  | JStr s => inr (JStr (str_take 5 s))
  | JArr xs => inr (JArr (take 5 xs))
  | _ => inl TypeError
  end.

(** [t < bound] and [t > bound] against a str: code-point order. *)
Definition py_lt (t : json) (bound : string) : res bool :=
  match t with
  | JStr s => inr (String.ltb s bound)
  | _ => inl TypeError
  end.

Definition py_gt (t : json) (bound : string) : res bool :=
  match t with
  | JStr s => inr (String.ltb bound s)
  | _ => inl TypeError
  end.

(** ** SQLite values *)

(** Binding a Python value to a [?] of a statement. *)
Definition sql_bind (v : json) : res sqlval :=
  match v with
  | JNull => inr SNull
  | JBool b => inr (SInt (if b then 1 else 0))
  | JNum n =>
      if (- 2 ^ 63 <=? n) && (n <? 2 ^ 63) then inr (SInt n)
      else inl OverflowError
  | JStr s => inr (SText s)
  | JArr _ | JObj _ => inl BindError
  end.

(** TEXT affinity, applied to a value stored in a TEXT column and to a
    bound value compared with one. *)
Definition text_affinity (v : sqlval) : option string :=
  match v with
  | SNull => None
  | SInt n => Some (pretty n)
  | SText s => Some s
  end.

(** [column = ?] in a WHERE clause of a TEXT column: NULL equals nothing. *)
Definition sql_text_eq (column param : option string) : bool :=
  match column, param with
  | Some a, Some b => String.eqb a b
  | _, _ => false
  end.

(** ** Tables *)

Record watch := {
  w_id : Z;
  w_venue_id : string;
  w_venue_name : option string;
  w_party_size : sqlval;
  w_date_start : string;
  w_date_end : option string;
  w_time_earliest : option string;
  w_time_latest : option string;
  w_snipe_mode : sqlval;
  w_active : sqlval;
  w_last_checked : option Z
}.

Record found_slot := {
  fs_watch_id : Z;
  fs_venue_name : option string;
  fs_date : string;
  fs_time : option string;
  fs_party_size : sqlval;
  fs_config_token : option string;
  fs_seen_at : Z;
  fs_booked : Z
}.

(** The text of an activity message, kept as its format and arguments. *)
Inductive message :=
| MsgSlotFound (venue_name : option string) (day : string) (start_time : json)
    (party_size : sqlval)
| MsgSnipeAttempt (venue_name : option string) (day : string) (time_str : json)
| MsgDetailsFailed (reason : json)
| MsgNoBookToken
| MsgBookingFailed (reason : json)
| MsgBooked (venue_name : option string) (day : string) (time_str : json)
| MsgCheckError (venue_name : option string) (e : exn).

Record activity := {
  a_watch_id : option Z;
  a_type : string;
  a_message : message;
  a_created_at : Z
}.

Record db := {
  settings_tbl : gmap string (option string);
  watches : list watch;
  activity_log : list activity;
  found_slots : list found_slot
}.

(** ** Requests to the remote service *)

Record headers := {
  h_api_key : option string;
  h_auth_token : option string
}.

(** What goes over the wire. *)
Inductive request :=
| ReqFind (venue_id : string) (day : string) (party_size : sqlval)
| ReqDetails (config_id : json) (day : string) (party_size : sqlval)
| ReqBook (book_token : json) (payment_method_id : Z).

(** A call of one of the client functions [resy_find], [resy_get_details],
    [resy_book], with its arguments. *)
Inductive api_call :=
| CallFind (venue_id : string) (day : string) (party_size : sqlval)
| CallDetails (config_id : json) (day : string) (party_size : sqlval)
| CallBook (book_token : json).


(** ** The world and the monad of the engine *)

Record world := {
  store : db;
  calls : list api_call;
  clock : Z
}.

Inductive outcome (A : Type) :=
| Ok (a : A) (w : world)
| Raise (e : exn) (w : world).
Arguments Ok {A} a w.
Arguments Raise {A} e w.

Definition M (A : Type) : Type := world -> outcome A.

Definition ret {A} (a : A) : M A := fun w => Ok a w.

Definition bind {A B} (m : M A) (k : A -> M B) : M B :=
  fun w =>
    match m w with
    | Ok a w' => k a w'
    | Raise e w' => Raise e w'
    end.

Definition lift {A} (r : res A) : M A :=
  fun w =>
    match r with
    | inl e => Raise e w
    | inr a => Ok a w
    end.

(** [try: m  except Exception as e: h e] *)
Definition try_except {A} (m : M A) (h : exn -> M A) : M A :=
  fun w =>
    match m w with
    | Ok a w' => Ok a w'
    | Raise e w' => h e w'
    end.

Declare Scope eng_scope.
Delimit Scope eng_scope with eng.
Notation "x <- m ;; k" := (bind m (fun x => k))
  (at level 100, m at next level, right associativity) : eng_scope.
Notation "m ;;; k" := (bind m (fun _ => k))
  (at level 100, right associativity) : eng_scope.
Local Open Scope eng_scope.

Definition world_of {A} (o : outcome A) : world :=
  match o with
  | Ok _ w => w
  | Raise _ w => w
  end.

(** [for x in xs: body x] *)
Fixpoint for_each {A} (xs : list A) (body : A -> M unit) : M unit :=
  match xs with
  | [] => ret tt
  | x :: rest => body x ;;; for_each rest body
  end.

Definition with_store (f : db -> db) (w : world) : world :=
  {| store := f (store w); calls := calls w; clock := clock w |}.

(** [time.sleep(n)] *)
Definition sleep (n : Z) : M unit :=
  fun w => Ok tt {| store := store w; calls := calls w; clock := clock w + n |}.

(** ** Statements on the tables *)

Abbreviation settings := (gmap string (option string)).

(** [settings.get(key)]: None when the key is absent or its value NULL. *)
Definition setting (s : settings) (key : string) : option string :=
  match s !! key with
  | Some v => v
  | None => None
  end.

(** [settings.get(key, '')] *)
Definition setting_or_empty (s : settings) (key : string) : option string :=
  match s !! key with
  | Some v => v
  | None => Some EmptyString
  end.

(** [get_settings()] *)
Definition get_settings : M settings :=
  fun w => Ok (settings_tbl (store w)) w.

(** [log_activity(watch_id, type_, message, conn=conn)] *)
Definition log_activity (watch_id : option Z) (type_ : string) (msg : message)
  : M unit :=
  fun w =>
    let row := {| a_watch_id := watch_id; a_type := type_; a_message := msg;
                  a_created_at := clock w |} in
    Ok tt (with_store (fun d =>
      {| settings_tbl := settings_tbl d; watches := watches d;
         activity_log := activity_log d ++ [row];
         found_slots := found_slots d |}) w).

(** The WHERE clause [watch_id=? AND date=? AND time=?]. *)
Definition slot_key_matches (id : Z) (day : string) (time : option string)
    (r : found_slot) : bool :=
  (fs_watch_id r =? id) && String.eqb (fs_date r) day
  && sql_text_eq (fs_time r) time.

(** [SELECT id FROM found_slots WHERE watch_id=? AND date=? AND time=? AND
    booked=0], then [fetchone()]: is there such a row. *)
Definition select_unbooked (id : Z) (day : string) (start_time : json)
  : M bool :=
  fun w =>
    match sql_bind start_time with
    | inl e => Raise e w
    | inr t =>
        Ok (existsb (fun r => slot_key_matches id day (text_affinity t) r
                              && (fs_booked r =? 0))
                    (found_slots (store w))) w
    end.

(** [INSERT INTO found_slots (watch_id, venue_name, date, time, party_size,
    config_token) VALUES (?,?,?,?,?,?)]; [seen_at] and [booked] take their
    defaults. *)
Definition insert_found_slot (wt : watch) (day : string)
    (start_time config_token : json) : M unit :=
  fun w =>
    match sql_bind start_time, sql_bind config_token with
    | inl e, _ => Raise e w
    | inr _, inl e => Raise e w
    | inr t, inr c =>
        let row := {| fs_watch_id := w_id wt;
                      fs_venue_name := w_venue_name wt;
                      fs_date := day;
                      fs_time := text_affinity t;
                      fs_party_size := w_party_size wt;
                      fs_config_token := text_affinity c;
                      fs_seen_at := clock w;
                      fs_booked := 0 |} in
        Ok tt (with_store (fun d =>
          {| settings_tbl := settings_tbl d; watches := watches d;
             activity_log := activity_log d;
             found_slots := found_slots d ++ [row] |}) w)
    end.

Definition set_booked (r : found_slot) : found_slot :=
  {| fs_watch_id := fs_watch_id r; fs_venue_name := fs_venue_name r;
     fs_date := fs_date r; fs_time := fs_time r;
     fs_party_size := fs_party_size r;
     fs_config_token := fs_config_token r; fs_seen_at := fs_seen_at r;
     fs_booked := 1 |}.

Definition mark_rows (id : Z) (day : string) (time : option string)
    (rows : list found_slot) : list found_slot :=
  map (fun r => if slot_key_matches id day time r then set_booked r else r)
    rows.

(** [UPDATE found_slots SET booked=1 WHERE watch_id=? AND date=? AND time=?] *)
Definition mark_booked (id : Z) (day : string) (time_str : json) : M unit :=
  fun w =>
    match sql_bind time_str with
    | inl e => Raise e w
    | inr t =>
        Ok tt (with_store (fun d =>
          {| settings_tbl := settings_tbl d; watches := watches d;
             activity_log := activity_log d;
             found_slots :=
               mark_rows id day (text_affinity t) (found_slots d) |}) w)
    end.

Definition set_last_checked (now : Z) (wt : watch) : watch :=
  {| w_id := w_id wt; w_venue_id := w_venue_id wt;
     w_venue_name := w_venue_name wt; w_party_size := w_party_size wt;
     w_date_start := w_date_start wt; w_date_end := w_date_end wt;
     w_time_earliest := w_time_earliest wt;
     w_time_latest := w_time_latest wt; w_snipe_mode := w_snipe_mode wt;
     w_active := w_active wt; w_last_checked := Some now |}.

(** [UPDATE watches SET last_checked=datetime('now') WHERE id=?] *)
Definition touch_last_checked (id : Z) : M unit :=
  fun w =>
    Ok tt (with_store (fun d =>
      {| settings_tbl := settings_tbl d;
         watches := map (fun wt => if w_id wt =? id
                                   then set_last_checked (clock w) wt
                                   else wt) (watches d);
         activity_log := activity_log d;
         found_slots := found_slots d |}) w).

(** [SELECT * FROM watches WHERE active=1] *)
Definition select_active_watches : M (list watch) :=
  fun w =>
    Ok (filter (fun wt => w_active wt = SInt 1) (watches (store w))) w.

(** ** The engine *)

(** What the engine stands on.
    - [remote]: the remote service, that is what [urlopen] followed by
      [json.loads] yields for a request, given the client calls made so far:
      the decoded body, or the text of the exception.
    - [date_fromisoformat] (None: ValueError) and [date_isoformat]: the two
      methods of [datetime.date], on ordinals.
    - [int_of_str]: [int(s)] on a str (None: ValueError). *)
Class Environment := {
  remote : list api_call -> headers -> request -> string + json;
  date_fromisoformat : string -> option Z;
  date_isoformat : Z -> string;
  int_of_str : string -> option Z
}.

Section Engine.

Context {env : Environment}.

(** [date.max.toordinal()] *)
Definition max_ordinal : Z := 3652059.

(** [date.fromordinal(n)] *)
Definition date_fromordinal (n : Z) : res Z :=
  if (1 <=? n) && (n <=? max_ordinal) then inr n else inl ValueError.

Definition fromisoformat (s : string) : res Z :=
  match date_fromisoformat s with
  | Some d => inr d
  | None => inl ValueError
  end.

(** [resy_headers(settings)] *)
Definition resy_headers (s : settings) : headers :=
  let token := setting_or_empty s "auth_token" in
  {| h_api_key := setting_or_empty s "api_key";
     h_auth_token := if str_truthy token then token else None |}.

(** Entering one of the client functions. *)
Definition invoke (c : api_call) : M unit :=
  fun w => Ok tt {| store := store w; calls := calls w ++ [c];
                    clock := clock w |}.

(** The [try: urlopen ... json.loads ... except: return {"error": str(e)}]
    that ends each client function: what it returns after the calls
    [history]. *)
Definition reply (history : list api_call) (h : headers) (r : request) : json :=
  match remote history h r with
  | inr body => body
  | inl msg => JObj [("error", JStr msg)]
  end.

Definition urlopen (h : headers) (r : request) : M json :=
  fun w => Ok (reply (calls w) h r) w.

Definition resy_find (venue_id day : string) (party_size : sqlval)
    (s : settings) : M json :=
  invoke (CallFind venue_id day party_size) ;;;
  urlopen (resy_headers s) (ReqFind venue_id day party_size).

Definition resy_get_details (config_id : json) (day : string)
    (party_size : sqlval) (s : settings) : M json :=
  invoke (CallDetails config_id day party_size) ;;;
  urlopen (resy_headers s) (ReqDetails config_id day party_size).

(** [int(s.get("payment_method_id", 0))] *)
Definition payment_method_id (s : settings) : res Z :=
  match s !! "payment_method_id" with
  | None => inr 0
  | Some None => inl TypeError
  | Some (Some v) =>
      match int_of_str v with
      | Some n => inr n
      | None => inl ValueError
      end
  end.

Definition resy_book (book_token : json) (s0 : settings) : M json :=
  invoke (CallBook book_token) ;;;
  s <- (if decide (s0 = ∅) then get_settings else ret s0) ;;
  pm <- lift (payment_method_id s) ;;
  urlopen (resy_headers s) (ReqBook book_token pm).

(** *** [try_snipe] *)

Definition try_snipe (wt : watch) (config_token : json) (day : string)
    (time_str : json) (s : settings) : M unit :=
  log_activity (Some (w_id wt)) "snipe"
    (MsgSnipeAttempt (w_venue_name wt) day time_str) ;;;
  (* Step 1: Get booking details *)
  details <- resy_get_details config_token day (w_party_size wt) s ;;
  failed <- lift (py_in "error" details) ;;
  if failed : bool then
    reason <- lift (py_subscript details "error") ;;
    log_activity (Some (w_id wt)) "error" (MsgDetailsFailed reason)
  else
    bt <- lift (py_get "book_token" (JObj []) details) ;;
    book_token <- lift (py_get "value" (JStr "") bt) ;;
    if negb (py_truthy book_token) then
      log_activity (Some (w_id wt)) "error" MsgNoBookToken
    else
      (* Step 2: Book it *)
      result <- resy_book book_token s ;;
      failed <- lift (py_in "error" result) ;;
      if failed : bool then
        reason <- lift (py_subscript result "error") ;;
        log_activity (Some (w_id wt)) "error" (MsgBookingFailed reason)
      else
        log_activity (Some (w_id wt)) "booked"
          (MsgBooked (w_venue_name wt) day time_str) ;;;
        mark_booked (w_id wt) day time_str.

(** *** [check_watch] *)

(** Lines 246-252, the time check of one slot: [true] when the slot goes on
    to the lookup, [false] at [continue]. *)
Definition time_in_range (wt : watch) (start_time : json) : res bool :=
  (if py_truthy start_time then
     has_space <~ py_in " " start_time ;;
     time_part <~ (if has_space : bool then py_split_last start_time
                   else inr start_time) ;;
     (* Simple time check *)
     if str_truthy (w_time_earliest wt) && str_truthy (w_time_latest wt) then
       t <~ py_slice5 time_part ;;
       below <~ py_lt t (default "" (w_time_earliest wt)) ;;
       if below : bool then inr false
       else above <~ py_gt t (default "" (w_time_latest wt)) ;;
            inr (negb above)
     else inr true
   else inr true)%res.

(** [watch['snipe_mode'] and config_token and settings.get('auth_token')] *)
Definition snipe_wanted (wt : watch) (config_token : json) (s : settings)
  : bool :=
  sql_truthy (w_snipe_mode wt) && py_truthy config_token
  && str_truthy (setting s "auth_token").

(** Lines 254-273: the lookup, the insertion and the auto-booking of a slot
    that passed the time check. *)
Definition record_slot (wt : watch) (s : settings) (day_str : string)
    (slot start_time : json) : M unit :=
  config <- lift (py_get "config" (JObj []) slot) ;;
  config_token <- lift (py_get "token" (JStr "") config) ;;
  (* Check if we already found this slot *)
  existing <- select_unbooked (w_id wt) day_str start_time ;;
  if existing : bool then ret tt
  else
    insert_found_slot wt day_str start_time config_token ;;;
    log_activity (Some (w_id wt)) "found"
      (MsgSlotFound (w_venue_name wt) day_str start_time (w_party_size wt)) ;;;
    (* Auto-book if snipe mode *)
    if snipe_wanted wt config_token s then
      try_snipe wt config_token day_str start_time s
    else ret tt.

(** The body of [for slot in slots]. *)
Definition check_slot (wt : watch) (s : settings) (day_str : string)
    (slot : json) : M unit :=
  slot_date <- lift (py_get "date" (JObj []) slot) ;;
  start_time <- lift (py_get "start" (JStr "") slot_date) ;;
  keep <- lift (time_in_range wt start_time) ;;
  if keep : bool then record_slot wt s day_str slot start_time
  else ret tt.

(** The body of [for venue in venues]. *)
Definition check_venue (wt : watch) (s : settings) (day_str : string)
    (venue : json) : M unit :=
  slots <- lift (py_get "slots" (JArr []) venue) ;;
  items <- lift (py_iter slots) ;;
  for_each items (check_slot wt s day_str).

(** The body of [while current <= end]. *)
Definition check_day (wt : watch) (s : settings) (current : Z) : M unit :=
  let day_str := date_isoformat current in
  result <- resy_find (w_venue_id wt) day_str (w_party_size wt) s ;;
  failed <- lift (py_in "error" result) ;;
  if failed : bool then
    lift (date_fromordinal (current + 1)) ;;; ret tt
  else
    results <- lift (py_get "results" (JObj []) result) ;;
    venues <- lift (py_get "venues" (JArr []) results) ;;
    items <- lift (py_iter venues) ;;
    for_each items (check_venue wt s day_str) ;;;
    lift (date_fromordinal (current + 1)) ;;;
    sleep 1.

(** [watch.get('date_end') or date_start] *)
Definition effective_date_end (wt : watch) : string :=
  if str_truthy (w_date_end wt) then default (w_date_start wt) (w_date_end wt)
  else w_date_start wt.

(** [current] runs from [start] by steps of one day while [current <= end]:
    the days visited are [start], ..., [end], none when [end < start]. *)
Definition check_watch (wt : watch) (s : settings) : M unit :=
  start <- lift (fromisoformat (w_date_start wt)) ;;
  end_ <- lift (fromisoformat (effective_date_end wt)) ;;
  for_each (seqZ start (end_ - start + 1)) (check_day wt s) ;;;
  touch_last_checked (w_id wt).

(** *** [check_all_watches] *)

(** The body of [for w in watches]: the [try] statement. *)
Definition guarded_check_watch (s : settings) (wt : watch) : M unit :=
  try_except (check_watch wt s)
    (fun e => log_activity (Some (w_id wt)) "error"
                (MsgCheckError (w_venue_name wt) e)).

Definition check_all_watches : M unit :=
  active <- select_active_watches ;;
  s <- get_settings ;;
  if negb (str_truthy (setting s "api_key")) then ret tt
  else for_each active (guarded_check_watch s).

End Engine.

(** ** A calendar and an integer reader to run the engine on

    The proleptic Gregorian calendar of [datetime] for the format
    [YYYY-MM-DD] alone (the one [fromisoformat] reads up to Python 3.10;
    later versions read the other ISO 8601 formats as well), and decimal
    integers written in ASCII digits with an optional sign (Python's [int]
    also reads surrounding white space and underscores between digits).
    They instantiate the parameters for the scenarios, which use dates and
    numbers in these forms only; the theorems hold for every instance. *)

Definition is_leap (y : Z) : bool :=
  (y mod 4 =? 0) && (negb (y mod 100 =? 0) || (y mod 400 =? 0)).

Definition days_before_year (y : Z) : Z :=
  let p := y - 1 in p * 365 + p / 4 - p / 100 + p / 400.

Definition days_in_month (y m : Z) : Z :=
  if m =? 2 then (if is_leap y then 29 else 28)
  else if (m =? 4) || (m =? 6) || (m =? 9) || (m =? 11) then 30
  else 31.

Fixpoint days_before_month_nat (y : Z) (m : nat) : Z :=
  match m with
  | O => 0
  | S m' => days_before_month_nat y m' + days_in_month y (Z.of_nat m)
  end.

(** Days of year [y] before the first of month [m]. *)
Definition days_before_month (y m : Z) : Z :=
  days_before_month_nat y (Z.to_nat (m - 1)).

Definition ymd_to_ordinal (y m d : Z) : Z :=
  days_before_year y + days_before_month y m + d.

Definition ordinal_to_ymd (n0 : Z) : Z * Z * Z :=
  let n := n0 - 1 in
  let n400 := n / 146097 in
  let n := n mod 146097 in
  let n100 := n / 36524 in
  let n := n mod 36524 in
  let n4 := n / 1461 in
  let n := n mod 1461 in
  let n1 := n / 365 in
  let n := n mod 365 in
  let year := n400 * 400 + 1 + n100 * 100 + n4 * 4 + n1 in
  if (n1 =? 4) || (n100 =? 4) then (year - 1, 12, 31)
  else
    let month := (n + 50) / 32 in
    let preceding := days_before_month year month in
    if preceding >? n then
      (year, month - 1, n - (preceding - days_in_month year (month - 1)) + 1)
    else (year, month, n - preceding + 1).

Definition digit_of_ascii (c : ascii) : option Z :=
  let n := Z.of_N (N_of_ascii c) in
  if (48 <=? n) && (n <=? 57) then Some (n - 48) else None.

Fixpoint digits_value (acc : Z) (s : string) : option Z :=
  match s with
  | EmptyString => Some acc
  | String c s' =>
      match digit_of_ascii c with
      | Some d => digits_value (acc * 10 + d) s'
      | None => None
      end
  end.

Definition number_of_digits (s : string) : option Z :=
  match s with
  | EmptyString => None
  | _ => digits_value 0 s
  end.

Definition iso_fromisoformat (s : string) : option Z :=
  if (String.length s =? 10)%nat
     && String.eqb (substring 4 1 s) "-" && String.eqb (substring 7 1 s) "-"
  then
    match number_of_digits (substring 0 4 s),
          number_of_digits (substring 5 2 s),
          number_of_digits (substring 8 2 s) with
    | Some y, Some m, Some d =>
        if (1 <=? y) && (1 <=? m) && (m <=? 12) && (1 <=? d)
           && (d <=? days_in_month y m)
        then Some (ymd_to_ordinal y m d) else None
    | _, _, _ => None
    end
  else None.

Definition ascii_of_digit (d : Z) : ascii := ascii_of_N (Z.to_N (48 + d)).

Fixpoint zero_padded (width : nat) (n : Z) : string :=
  match width with
  | O => EmptyString
  | S w' => zero_padded w' (n / 10) +:+ String (ascii_of_digit (n mod 10)) EmptyString
  end.

Definition iso_isoformat (n : Z) : string :=
  let '(y, m, d) := ordinal_to_ymd n in
  zero_padded 4 y +:+ "-" +:+ zero_padded 2 m +:+ "-" +:+ zero_padded 2 d.

Definition dec_int_of_str (s : string) : option Z :=
  match s with
  | String "-" s' => Z.opp <$> number_of_digits s'
  | String "+" s' => number_of_digits s'
  | _ => number_of_digits s
  end.

Definition calendar_env
    (r : list api_call -> headers -> request -> string + json)
  : Environment :=
  {| remote := r;
     date_fromisoformat := iso_fromisoformat;
     date_isoformat := iso_isoformat;
     int_of_str := dec_int_of_str |}.

(** ** Vocabulary of the statements *)

(** The time of day the check compares: the first five characters of what
    follows the last space of the start timestamp. *)
Definition time_of_day (start_time : string) : string :=
  str_take 5 (if str_contains " " start_time
              then List.last (str_split " "%char start_time) EmptyString
              else start_time).

(** The start timestamp and the config token [check_slot] reads off a slot. *)
Definition slot_fields (slot : json) : res (json * json) :=
  (slot_date <~ py_get "date" (JObj []) slot ;;
   start_time <~ py_get "start" (JStr "") slot_date ;;
   config <~ py_get "config" (JObj []) slot ;;
   config_token <~ py_get "token" (JStr "") config ;;
   inr (start_time, config_token))%res.

(** A row of [found_slots] is a record of (watch id, date, time). *)
Definition same_slot (id : Z) (day : string) (time : option string)
    (r : found_slot) : Prop :=
  fs_watch_id r = id /\ fs_date r = day /\
  exists t, fs_time r = Some t /\ time = Some t.

(** The ledger holds an unbooked record of (watch id, date, time). *)
Definition has_unbooked (id : Z) (day : string) (time : option string)
    (rows : list found_slot) : Prop :=
  exists r, In r rows /\ same_slot id day time r /\ fs_booked r = 0.

(** The world [w] after [events] were appended to the activity log, the calls
    [new_calls] were made and the ledger became [rows]; nothing else moved. *)
Definition evolve (w : world) (events : list activity)
    (new_calls : list api_call) (rows : list found_slot) : world :=
  {| store := {| settings_tbl := settings_tbl (store w);
                 watches := watches (store w);
                 activity_log := activity_log (store w) ++ events;
                 found_slots := rows |};
     calls := calls w ++ new_calls;
     clock := clock w |}.

(** The activity row [log_activity] writes for a watch in world [w]. *)
Definition event (w : world) (id : Z) (type_ : string) (msg : message)
  : activity :=
  {| a_watch_id := Some id; a_type := type_; a_message := msg;
     a_created_at := clock w |}.

(** The row [check_watch] inserts for a slot. *)
Definition found_row (wt : watch) (day : string) (time token : option string)
    (seen_at : Z) : found_slot :=
  {| fs_watch_id := w_id wt; fs_venue_name := w_venue_name wt;
     fs_date := day; fs_time := time; fs_party_size := w_party_size wt;
     fs_config_token := token; fs_seen_at := seen_at; fs_booked := 0 |}.

(** The booking token [try_snipe] reads off the details. *)
Definition extracted_book_token (details : json) : res json :=
  (bt <~ py_get "book_token" (JObj []) details ;;
   py_get "value" (JStr "") bt)%res.

(** The settings [resy_book] works with: [settings or get_settings()]. *)
Definition book_settings (s : settings) (w : world) : settings :=
  if decide (s = ∅) then settings_tbl (store w) else s.

(** [b] is [a] after insertions and bookings: every row of [a] is still in
    its place, as it was or with [booked] set. *)
Definition grows (a b : list found_slot) : Prop :=
  forall i r, a !! i = Some r ->
              b !! i = Some r \/ b !! i = Some (set_booked r).

(** A computation that returns has only inserted and booked. *)
Definition mono {A} (m : M A) : Prop :=
  forall w a w', m w = Ok a w' ->
                 grows (found_slots (store w)) (found_slots (store w')).

(** The records of the watch that the ledger holds are unbooked. *)
Definition none_booked_of (id : Z) (rows : list found_slot) : Prop :=
  forall r, In r rows -> fs_watch_id r = id -> fs_booked r = 0.

(** No two rows of the ledger are records of the same (watch id, date,
    time) for this watch. *)
Definition one_record_per_slot (id : Z) (rows : list found_slot) : Prop :=
  forall i j r r',
    rows !! i = Some r -> rows !! j = Some r' ->
    fs_watch_id r = id -> fs_watch_id r' = id ->
    fs_date r = fs_date r' -> fs_time r = fs_time r' ->
    i = j.

(** A run of [m] that took place between the ledger [rows0] and the world
    [w1] can be run again on the store of [w1], and leaves it as it is. *)
Definition replays (rows0 : list found_slot) (w1 : world) (m : M unit)
  : Prop :=
  forall x y z,
    grows rows0 (found_slots (store x)) ->
    grows (found_slots (store y)) (found_slots (store w1)) ->
    m x = Ok tt y ->
    store z = store w1 ->
    exists z', m z = Ok tt z' /\ store z' = store w1.

(** A run of [m] that took place between the ledger [rows0] and the world
    [w1] has not recorded a slot of the watch twice. *)
Definition keeps_one_record (rows0 : list found_slot) (w1 : world) (id : Z)
    (m : M unit) : Prop :=
  forall x y,
    grows rows0 (found_slots (store x)) ->
    grows (found_slots (store y)) (found_slots (store w1)) ->
    m x = Ok tt y ->
    one_record_per_slot id (found_slots (store x)) ->
    one_record_per_slot id (found_slots (store y)).

(** The slots of a [find] answer that [check_watch] goes through: the
    answer carries no ["error"], and [slot] is one of the ["slots"] of one of
    the ["venues"] of its ["results"]. *)
Definition offers (result slot : json) : Prop :=
  py_in "error" result = inr false /\
  exists results venues vitems venue slots sitems,
    py_get "results" (JObj []) result = inr results /\
    py_get "venues" (JArr []) results = inr venues /\
    py_iter venues = inr vitems /\ In venue vitems /\
    py_get "slots" (JArr []) venue = inr slots /\
    py_iter slots = inr sitems /\ In slot sitems.

(** The time check of the watch keeps the slot, whose start timestamp is
    [st]. *)
Definition kept (wt : watch) (slot st : json) : Prop :=
  exists slot_date,
    py_get "date" (JObj []) slot = inr slot_date /\
    py_get "start" (JStr "") slot_date = inr st /\
    time_in_range wt st = inr true.

(** ** Scenarios

    The watch, the settings and the remote service of the end-to-end
    scenarios of the specification: venue [v1], party of 2, the single day
    2024-06-01, one slot offered at 19:00. *)

Definition window_watch (earliest latest : option string) (snipe : Z) : watch :=
  {| w_id := 1; w_venue_id := "v1"; w_venue_name := Some "Venue";
     w_party_size := SInt 2; w_date_start := "2024-06-01";
     w_date_end := Some "2024-06-01"; w_time_earliest := earliest;
     w_time_latest := latest; w_snipe_mode := SInt snipe; w_active := SInt 1;
     w_last_checked := None |}.

Definition demo_watch (snipe : Z) : watch :=
  window_watch (Some "17:00") (Some "22:00") snipe.

Definition demo_settings : settings :=
  <["api_key" := Some "key"]>
    (<["auth_token" := Some "auth"]>
       (<["payment_method_id" := Some "42"]> ∅)).

Definition slot_at (start : string) (token : string) : json :=
  JObj [("date", JObj [("start", JStr start)]);
        ("config", JObj [("token", JStr token)])].

Definition slot_19 : json := slot_at "2024-06-01 19:00:00" "tok1".

(** The same slot offered without a config token. *)
Definition slot_19_bare : json :=
  JObj [("date", JObj [("start", JStr "2024-06-01 19:00:00")])].

Definition find_body (slots : list json) : json :=
  JObj [("results",
         JObj [("venues", JArr [JObj [("slots", JArr slots)]])])].

Definition details_body : json :=
  JObj [("book_token", JObj [("value", JStr "bt1")])].

Definition book_body : json := JObj [("reservation_id", JNum 1)].

(** A service that offers [slots] on 2024-06-01, hands out the booking token
    [bt1] and accepts every booking, whatever was asked before. *)
Definition demo_remote (slots : list json)
  : list api_call -> headers -> request -> string + json :=
  fun _ _ r =>
    match r with
    | ReqFind _ day _ =>
        if String.eqb day "2024-06-01" then inr (find_body slots)
        else inl "HTTP Error 404: Not Found"
    | ReqDetails _ _ _ => inr details_body
    | ReqBook _ _ => inr book_body
    end.

Definition demo_env (slots : list json) : Environment :=
  calendar_env (demo_remote slots).

Definition demo_world (cfg : settings) (wt : watch) (rows : list found_slot)
  : world :=
  {| store := {| settings_tbl := cfg; watches := [wt]; activity_log := [];
                 found_slots := rows |};
     calls := [];
     clock := 1000 |}.

(** A record of the 19:00 slot left by an earlier scan. *)
Definition seen_row (booked : Z) : found_slot :=
  {| fs_watch_id := 1; fs_venue_name := Some "Venue";
     fs_date := "2024-06-01"; fs_time := Some "2024-06-01 19:00:00";
     fs_party_size := SInt 2; fs_config_token := Some "tok1";
     fs_seen_at := 900; fs_booked := booked |}.

(** A record of a 20:00 slot of the same watch and day. *)
Definition later_row : found_slot :=
  {| fs_watch_id := 1; fs_venue_name := Some "Venue";
     fs_date := "2024-06-01"; fs_time := Some "2024-06-01 20:00:00";
     fs_party_size := SInt 2; fs_config_token := Some "tok2";
     fs_seen_at := 900; fs_booked := 0 |}.

(** A slot offered with a null start timestamp. *)
Definition slot_null : json :=
  JObj [("date", JObj [("start", JNull)]);
        ("config", JObj [("token", JStr "tok1")])].

(** An active watch whose start date is not a date. *)
Definition broken_watch : watch :=
  {| w_id := 7; w_venue_id := "v7"; w_venue_name := Some "Broken";
     w_party_size := SInt 2; w_date_start := "June 1st"; w_date_end := None;
     w_time_earliest := Some "17:00"; w_time_latest := Some "22:00";
     w_snipe_mode := SInt 0; w_active := SInt 1; w_last_checked := None |}.

(** The settings with a payment method id that is not a number. *)
Definition bad_payment_settings : settings :=
  <["payment_method_id" := Some "abc"]> demo_settings.

(** ** Vocabulary of the further statements *)

(** Whatever its outcome, [m] takes a world to one that [R] relates to it. *)
Definition respects (R : world -> world -> Prop) {A} (m : M A) : Prop :=
  forall w, R w (world_of (m w)).

Definition is_find (c : api_call) : bool :=
  match c with CallFind _ _ _ => true | _ => false end.
Definition is_details (c : api_call) : bool :=
  match c with CallDetails _ _ _ => true | _ => false end.
Definition is_book (c : api_call) : bool :=
  match c with CallBook _ => true | _ => false end.

(** The world after a slot was recorded: the row inserted, the [found]
    event logged. *)
Definition recorded (wt : watch) (day : string) (st : json) (tv cv : sqlval)
    (w : world) : world :=
  evolve w
    [event w (w_id wt) "found"
       (MsgSlotFound (w_venue_name wt) day st (w_party_size wt))]
    []
    (found_slots (store w) ++
     [found_row wt day (text_affinity tv) (text_affinity cv) (clock w)]).

(** A watch row is as it was, or differs in [last_checked] alone, which is
    open to the watches whose id satisfies [P] only. *)
Definition stamped_or_same (P : Z -> Prop) (a b : watch) : Prop :=
  b = a \/ (P (w_id a) /\ exists now, b = set_last_checked now a).

(** A [find] call is for the venue and the party size of one of the
    watches [active]. *)
Definition allowed_call (active : list watch) (c : api_call) : Prop :=
  match c with
  | CallFind venue _ party =>
      exists wt, In wt active /\ venue = w_venue_id wt /\
                 party = w_party_size wt
  | _ => True
  end.

(** What a scan on behalf of the watches [active] may do to a world: leave
    the settings alone, stamp rows of [watches] that carry the id of one of
    them, append to the activity log, insert into the ledger and book rows of
    it, call the client for them, and let time pass. *)
Definition engine_step (active : list watch) (w w' : world) : Prop :=
  settings_tbl (store w') = settings_tbl (store w) /\
  Forall2 (stamped_or_same (fun id => exists wt, In wt active /\ w_id wt = id))
    (watches (store w)) (watches (store w')) /\
  (exists events,
     activity_log (store w') = activity_log (store w) ++ events) /\
  grows (found_slots (store w)) (found_slots (store w')) /\
  (exists cs, calls w' = calls w ++ cs /\ Forall (allowed_call active) cs) /\
  clock w <= clock w'.

(** The rows of the ledger that are records of other watches, in order. *)
Definition other_rows (id : Z) (rows : list found_slot) : list found_slot :=
  List.filter (fun r => negb (fs_watch_id r =? id)) rows.

Definition other_rows_kept (id : Z) (w w' : world) : Prop :=
  other_rows id (found_slots (store w')) =
  other_rows id (found_slots (store w)).

(** The table [watches] is as it was, and time has not gone back. *)
Definition watches_kept (w w' : world) : Prop :=
  watches (store w') = watches (store w) /\ clock w <= clock w'.

(** The [find] calls made so far, in order. *)
Definition find_calls (w : world) : list api_call :=
  List.filter is_find (calls w).

Definition finds_kept (w w' : world) : Prop :=
  find_calls w' = find_calls w.

(** The [find] call [check_watch] makes for a day. *)
Definition find_call_of (date_text : Z -> string) (wt : watch) (d : Z)
  : api_call :=
  CallFind (w_venue_id wt) (date_text d) (w_party_size wt).

(** How many events of a type the activity log holds, and how many calls of
    a kind were made. *)
Definition n_events (type_ : string) (log : list activity) : Z :=
  Z.of_nat (length (List.filter (fun a => String.eqb (a_type a) type_) log)).

Definition n_calls (kind : api_call -> bool) (cs : list api_call) : Z :=
  Z.of_nat (length (List.filter kind cs)).

(** Between two worlds: as many rows inserted as [found] events, as many
    [snipe] events as details calls, no more [booked] events than book calls,
    no more book calls than details calls, no more details calls than rows
    inserted. *)
Definition tally_step (w w' : world) : Prop :=
  let rows x := Z.of_nat (length (found_slots (store x))) in
  let events t x := n_events t (activity_log (store x)) in
  let made k x := n_calls k (calls x) in
  rows w' - rows w = events "found" w' - events "found" w /\
  events "snipe" w' - events "snipe" w =
    made is_details w' - made is_details w /\
  0 <= events "booked" w' - events "booked" w /\
  events "booked" w' - events "booked" w <= made is_book w' - made is_book w /\
  made is_book w' - made is_book w <= made is_details w' - made is_details w /\
  made is_details w' - made is_details w <= rows w' - rows w.

(** Between two worlds, on behalf of the watches [active]: the ledger has
    only grown, and of the client calls made in between, every details call
    carries the day and the config token of a row inserted in between for one
    of the watches, with its party size, and every book call comes right
    after a details call. *)
Definition attempts_step (active : list watch) (w w' : world) : Prop :=
  grows (found_slots (store w)) (found_slots (store w')) /\
  exists cs,
    calls w' = calls w ++ cs /\
    (forall j tok day party,
       cs !! j = Some (CallDetails tok day party) ->
       exists i r wt cv,
         (length (found_slots (store w)) <= i)%nat /\
         found_slots (store w') !! i = Some r /\
         In wt active /\ fs_watch_id r = w_id wt /\
         party = w_party_size wt /\ fs_party_size r = party /\
         fs_date r = day /\
         sql_bind tok = inr cv /\ fs_config_token r = text_affinity cv) /\
    (forall j bt,
       cs !! j = Some (CallBook bt) ->
       exists j' tok day party,
         j = S j' /\ cs !! j' = Some (CallDetails tok day party)).

(** A service that offers [slots] on 2024-06-01 and fails every details
    call. *)
Definition no_details_remote (slots : list json)
  : list api_call -> headers -> request -> string + json :=
  fun _ _ r =>
    match r with
    | ReqFind _ day _ =>
        if String.eqb day "2024-06-01" then inr (find_body slots)
        else inl "HTTP Error 404: Not Found"
    | ReqDetails _ _ _ => inl "HTTP Error 500: Internal Server Error"
    | ReqBook _ _ => inr book_body
    end.

(** A service that fails every call. *)
Definition down_remote : list api_call -> headers -> request -> string + json :=
  fun _ _ _ => inl "<urlopen error timed out>".

(** A time of day as the watches and the service write it: [HH:MM]. *)
Definition hhmm (h m : Z) : string :=
  zero_padded 2 h +:+ ":" +:+ zero_padded 2 m.

(** ** The settings as the API shows them ([do_GET], [/api/settings]) *)

(** [s[n:]] *)
Fixpoint str_drop (n : nat) (s : string) : string :=
  match n, s with
  | O, _ => s
  | S _, EmptyString => EmptyString
  | S n', String _ s' => str_drop n' s'
  end.

(** [s[-n:]] for a positive [n] *)
Definition str_last (n : nat) (s : string) : string :=
  str_drop (String.length s - n) s.

(** [k in ('api_key', 'auth_token')] *)
Definition is_secret_key (k : string) : bool :=
  String.eqb k "api_key" || String.eqb k "auth_token".

(** The value shown for the key [k]:
    [v[:8] + "..." + v[-4:] if len(v) > 12 else "***"] for a secret that is
    set, the value itself otherwise. *)
Definition mask_value (k : string) (v : option string) : option string :=
  if is_secret_key k && str_truthy v then
    match v with
    | Some text =>
        Some (if (12 <? String.length text)%nat
              then str_take 8 text +:+ "..." +:+ str_last 4 text
              else "***")
    | None => None
    end
  else v.

(** The dict [masked] built from [get_settings()]. *)
Definition masked_settings (s : settings) : settings :=
  map_imap (fun k v => Some (mask_value k v)) s.

Definition get_masked_settings : M settings :=
  s <- get_settings ;; ret (masked_settings s).

(** A watch for the last two days of the calendar. *)
Definition final_watch : watch :=
  {| w_id := 2; w_venue_id := "v1"; w_venue_name := Some "Venue";
     w_party_size := SInt 2; w_date_start := "9999-12-30";
     w_date_end := Some "9999-12-31"; w_time_earliest := Some "17:00";
     w_time_latest := Some "22:00"; w_snipe_mode := SInt 0;
     w_active := SInt 1; w_last_checked := None |}.

(** ** Properties *)

Lemma ltb_false_leb (a b : string) : String.ltb a b = false <-> String.leb b a = true.
Proof.
  unfold String.ltb, String.leb. rewrite (String.compare_antisym a b).
  destruct (String.compare b a); simpl; split; congruence.
Qed.

Lemma time_in_range_str (wt : watch) (start earliest latest : string) :
  start <> "" ->
  w_time_earliest wt = Some earliest -> earliest <> "" ->
  w_time_latest wt = Some latest -> latest <> "" ->
  time_in_range wt (JStr start) =
    inr (String.leb earliest (time_of_day start)
         && String.leb (time_of_day start) latest).
Proof.
  intros Hs He Hne Hl Hnl. unfold time_in_range, time_of_day. simpl.
  rewrite He, Hl. simpl.
  apply String.eqb_neq in Hs, Hne, Hnl. rewrite Hs, Hne, Hnl. simpl.
  destruct (str_contains " " start); simpl.
  - destruct (String.ltb _ earliest) eqn:Hlt; simpl.
    + destruct (String.leb earliest _) eqn:Hle; [|reflexivity].
      apply ltb_false_leb in Hle. congruence.
    + apply ltb_false_leb in Hlt. rewrite Hlt. simpl.
      destruct (String.ltb latest _) eqn:Hgt; simpl.
      * destruct (String.leb _ latest) eqn:Hle; [|reflexivity].
        apply ltb_false_leb in Hle. congruence.
      * apply ltb_false_leb in Hgt. now rewrite Hgt.
  - destruct (String.ltb _ earliest) eqn:Hlt; simpl.
    + destruct (String.leb earliest _) eqn:Hle; [|reflexivity].
      apply ltb_false_leb in Hle. congruence.
    + apply ltb_false_leb in Hlt. rewrite Hlt. simpl.
      destruct (String.ltb latest _) eqn:Hgt; simpl.
      * destruct (String.leb _ latest) eqn:Hle; [|reflexivity].
        apply ltb_false_leb in Hle. congruence.
      * apply ltb_false_leb in Hgt. now rewrite Hgt.
Qed.

Lemma leb_refl (a : string) : String.leb a a = true.
Proof. destruct (String.leb_total a a); assumption. Qed.

Lemma time_in_range_no_window (wt : watch) (start : string) :
  str_truthy (w_time_earliest wt) && str_truthy (w_time_latest wt) = false
  \/ start = "" ->
  time_in_range wt (JStr start) = inr true.
Proof.
  intros H. unfold time_in_range. simpl.
  destruct (String.eqb_spec start "") as [->|Hne]; simpl; [reflexivity|].
  destruct H as [H|H]; [|contradiction].
  rewrite H. destruct (str_contains " " start); reflexivity.
Qed.

Section Properties.

Context {env : Environment}.

Lemma check_slot_unfold (wt : watch) (s : settings) (day : string)
    (slot slot_date start_time : json) (keep : bool) (w : world) :
  py_get "date" (JObj []) slot = inr slot_date ->
  py_get "start" (JStr "") slot_date = inr start_time ->
  time_in_range wt start_time = inr keep ->
  check_slot wt s day slot w =
    if keep then record_slot wt s day slot start_time w else Ok tt w.
Proof.
  intros Hd Hs Hk. unfold check_slot, bind, lift.
  rewrite Hd, Hs, Hk. destruct keep; reflexivity.
Qed.

(** C4. A slot with a start timestamp, under a watch whose two bounds are
    set, is kept exactly when [earliest <= t <= latest] in the order of
    strings, [t] being its time of day; it is discarded exactly when [t] is
    below [earliest] or above [latest].  A kept slot goes on to the lookup,
    a discarded one ends the iteration with nothing done. *)
Theorem time_window_is_inclusive (wt : watch) (start earliest latest : string) :
  start <> "" ->
  w_time_earliest wt = Some earliest -> earliest <> "" ->
  w_time_latest wt = Some latest -> latest <> "" ->
  let t := time_of_day start in
  let inside := String.leb earliest t && String.leb t latest in
  (time_in_range wt (JStr start) = inr true <->
     String.leb earliest t = true /\ String.leb t latest = true) /\
  (time_in_range wt (JStr start) = inr false <->
     String.ltb t earliest = true \/ String.ltb latest t = true) /\
  (forall s day slot slot_date w,
     py_get "date" (JObj []) slot = inr slot_date ->
     py_get "start" (JStr "") slot_date = inr (JStr start) ->
     check_slot wt s day slot w =
       if inside then record_slot wt s day slot (JStr start) w else Ok tt w).
Proof.
  intros Hs He Hne Hl Hnl t inside.
  pose proof (time_in_range_str wt start earliest latest Hs He Hne Hl Hnl) as Hr.
  fold t in Hr. fold inside in Hr. rewrite Hr.
  split; [|split].
  - subst inside. rewrite <- andb_true_iff. split; congruence.
  - subst inside. split.
    + intros [= H]. apply andb_false_iff in H as [H|H].
      * left. destruct (String.ltb t earliest) eqn:E; [reflexivity|].
        apply ltb_false_leb in E. congruence.
      * right. destruct (String.ltb latest t) eqn:E; [reflexivity|].
        apply ltb_false_leb in E. congruence.
    + intros [H|H]; f_equal; apply andb_false_iff.
      * left. destruct (String.leb earliest t) eqn:E; [|reflexivity].
        apply ltb_false_leb in E. congruence.
      * right. destruct (String.leb t latest) eqn:E; [|reflexivity].
        apply ltb_false_leb in E. congruence.
  - intros s day slot slot_date w Hd Hst.
    apply (check_slot_unfold _ _ _ _ _ _ _ _ Hd Hst Hr).
Qed.

(** C5, as the code has it. The window is closed above: a slot whose time
    of day equals [latest] is kept whenever [earliest <= latest], and goes on
    to the lookup. *)
Theorem upper_bound_is_inclusive (wt : watch) (start earliest latest : string) :
  start <> "" ->
  w_time_earliest wt = Some earliest -> earliest <> "" ->
  w_time_latest wt = Some latest -> latest <> "" ->
  time_of_day start = latest ->
  String.leb earliest latest = true ->
  time_in_range wt (JStr start) = inr true /\
  (forall s day slot slot_date w,
     py_get "date" (JObj []) slot = inr slot_date ->
     py_get "start" (JStr "") slot_date = inr (JStr start) ->
     check_slot wt s day slot w = record_slot wt s day slot (JStr start) w).
Proof.
  intros Hs He Hne Hl Hnl Ht Hle.
  pose proof (time_in_range_str wt start earliest latest Hs He Hne Hl Hnl) as Hr.
  rewrite Ht, Hle, leb_refl in Hr. split; [exact Hr|].
  intros s day slot slot_date w Hd Hst.
  apply (check_slot_unfold _ _ _ _ _ _ _ _ Hd Hst Hr).
Qed.

(** C10. When a bound of the window is NULL or empty, or the start timestamp
    is empty, the time check keeps the slot whatever its time of day, and the
    slot goes on to the lookup. *)
Theorem no_window_no_time_check (wt : watch) (start : string) :
  w_time_earliest wt = None \/ w_time_earliest wt = Some "" \/
  w_time_latest wt = None \/ w_time_latest wt = Some "" \/ start = "" ->
  time_in_range wt (JStr start) = inr true /\
  (forall s day slot slot_date w,
     py_get "date" (JObj []) slot = inr slot_date ->
     py_get "start" (JStr "") slot_date = inr (JStr start) ->
     check_slot wt s day slot w = record_slot wt s day slot (JStr start) w).
Proof.
  intros H.
  assert (Hr : time_in_range wt (JStr start) = inr true).
  { apply time_in_range_no_window.
    destruct H as [H|[H|[H|[H|H]]]]; [left; rewrite H..|right; exact H];
      simpl; try reflexivity; apply andb_false_r. }
  split; [exact Hr|].
  intros s day slot slot_date w Hd Hst.
  apply (check_slot_unfold _ _ _ _ _ _ _ _ Hd Hst Hr).
Qed.

(** *** The guard and the isolation of [check_all_watches] *)

Lemma for_each_total {A} (body : A -> M unit) :
  (forall x w, exists w', body x w = Ok tt w') ->
  forall xs w, exists w', for_each xs body w = Ok tt w'.
Proof.
  intros Hbody xs. induction xs as [|x xs IH]; intros w; simpl.
  - exists w. reflexivity.
  - unfold bind. destruct (Hbody x w) as [w1 ->]. apply IH.
Qed.

Lemma log_activity_evolve (id : Z) (type_ : string) (msg : message) (w : world) :
  log_activity (Some id) type_ msg w =
    Ok tt (evolve w [event w id type_ msg] [] (found_slots (store w))).
Proof.
  unfold log_activity, evolve, with_store, event.
  rewrite app_nil_r. reflexivity.
Qed.

Lemma guarded_check_watch_total (s : settings) (wt : watch) (w : world) :
  exists w', guarded_check_watch s wt w = Ok tt w'.
Proof.
  unfold guarded_check_watch, try_except.
  destruct (check_watch wt s w) as [[] w1|e w1]; [eauto|].
  rewrite log_activity_evolve. eauto.
Qed.

(** C6. With no [api_key] in the settings (absent, NULL or empty), the scan of
    all active watches returns at once in the world it started in: the list
    of client calls has not grown (no [resy_find], nor any other call), and
    no watch, [last_checked] included, nor any other table has changed. *)
Theorem no_api_key_no_scan (w : world) :
  settings_tbl (store w) !! "api_key" = None \/
  settings_tbl (store w) !! "api_key" = Some None \/
  settings_tbl (store w) !! "api_key" = Some (Some "") ->
  check_all_watches w = Ok tt w /\
  calls (world_of (check_all_watches w)) = calls w /\
  watches (store (world_of (check_all_watches w))) = watches (store w).
Proof.
  intros H.
  assert (E : check_all_watches w = Ok tt w).
  { unfold check_all_watches, bind, select_active_watches, get_settings, setting.
    destruct H as [H|[H|H]]; rewrite H; reflexivity. }
  rewrite E. auto.
Qed.

Lemma for_each_app {A} (body : A -> M unit) (xs ys : list A) (w : world) :
  for_each (xs ++ ys) body w =
    match for_each xs body w with
    | Ok _ w1 => for_each ys body w1
    | Raise e w1 => Raise e w1
    end.
Proof.
  revert w. induction xs as [|x xs IH]; intros w; simpl; [reflexivity|].
  unfold bind. destruct (body x w) as [[] w1|e w1]; [apply IH|reflexivity].
Qed.

Lemma check_all_watches_loop (w : world) :
  str_truthy (setting (settings_tbl (store w)) "api_key") = true ->
  check_all_watches w =
    for_each (filter (fun wt => w_active wt = SInt 1) (watches (store w)))
      (guarded_check_watch (settings_tbl (store w))) w.
Proof.
  intros H. unfold check_all_watches, bind, select_active_watches, get_settings.
  rewrite H. reflexivity.
Qed.

(** C8. The scan of all active watches never raises.  With an [api_key] set it
    is the loop over the active watches, in the order of the table, each
    scanned under the handler with the settings read at the start; so for
    every active watch, wherever it stands in that order: the watches before
    it leave a world, and when the scan of the watch raises there, the
    exception is turned into one [error] row of the activity log carrying the
    id of that watch and the whole scan goes on with the watches after it;
    when it returns, the scan goes on likewise.  The same is stated of the
    loop on any list of watches.  A start or end date that does not parse
    makes the scan of the watch raise ValueError (so it falls under the first
    case); a reversed range raises nothing: no day is visited and
    [last_checked] is set. *)
Theorem watch_failure_is_contained (s : settings) :
  (forall w, exists w', check_all_watches w = Ok tt w') /\
  (forall active w,
     exists w', for_each active (guarded_check_watch s) w = Ok tt w') /\
  (forall wt rest w e w1,
     check_watch wt s w = Raise e w1 ->
     for_each (wt :: rest) (guarded_check_watch s) w =
       for_each rest (guarded_check_watch s)
         (evolve w1 [event w1 (w_id wt) "error"
                       (MsgCheckError (w_venue_name wt) e)]
                 [] (found_slots (store w1)))) /\
  (forall wt rest w w1,
     check_watch wt s w = Ok tt w1 ->
     for_each (wt :: rest) (guarded_check_watch s) w =
       for_each rest (guarded_check_watch s) w1) /\
  (forall wt w,
     date_fromisoformat (w_date_start wt) = None \/
     date_fromisoformat (effective_date_end wt) = None ->
     check_watch wt s w = Raise ValueError w) /\
  (forall wt w start end_,
     date_fromisoformat (w_date_start wt) = Some start ->
     date_fromisoformat (effective_date_end wt) = Some end_ ->
     end_ < start ->
     check_watch wt s w = touch_last_checked (w_id wt) w) /\
  (forall w,
     str_truthy (setting (settings_tbl (store w)) "api_key") = true ->
     check_all_watches w =
       for_each (filter (fun wt => w_active wt = SInt 1) (watches (store w)))
         (guarded_check_watch (settings_tbl (store w))) w) /\
  (forall w before wt after,
     str_truthy (setting (settings_tbl (store w)) "api_key") = true ->
     filter (fun wt => w_active wt = SInt 1) (watches (store w)) =
       before ++ wt :: after ->
     exists w0,
       for_each before (guarded_check_watch (settings_tbl (store w))) w =
         Ok tt w0 /\
       (forall e w1,
          check_watch wt (settings_tbl (store w)) w0 = Raise e w1 ->
          check_all_watches w =
            for_each after (guarded_check_watch (settings_tbl (store w)))
              (evolve w1 [event w1 (w_id wt) "error"
                            (MsgCheckError (w_venue_name wt) e)]
                      [] (found_slots (store w1)))) /\
       (forall w1,
          check_watch wt (settings_tbl (store w)) w0 = Ok tt w1 ->
          check_all_watches w =
            for_each after (guarded_check_watch (settings_tbl (store w))) w1)).
Proof.
  assert (Hraise : forall s0 wt rest w e w1,
     check_watch wt s0 w = Raise e w1 ->
     for_each (wt :: rest) (guarded_check_watch s0) w =
       for_each rest (guarded_check_watch s0)
         (evolve w1 [event w1 (w_id wt) "error"
                       (MsgCheckError (w_venue_name wt) e)]
                 [] (found_slots (store w1)))).
  { intros s0 wt rest w e w1 H. simpl. unfold bind at 1.
    unfold guarded_check_watch at 1. unfold try_except. rewrite H.
    rewrite log_activity_evolve. reflexivity. }
  assert (Hreturn : forall s0 wt rest w w1,
     check_watch wt s0 w = Ok tt w1 ->
     for_each (wt :: rest) (guarded_check_watch s0) w =
       for_each rest (guarded_check_watch s0) w1).
  { intros s0 wt rest w w1 H. simpl. unfold bind at 1.
    unfold guarded_check_watch at 1. unfold try_except. rewrite H.
    reflexivity. }
  split; [|split; [|split; [|split; [|split; [|split; [|split]]]]]].
  - intros w. unfold check_all_watches, bind, select_active_watches, get_settings.
    destruct (negb _); [eexists; reflexivity|].
    apply for_each_total. intros; apply guarded_check_watch_total.
  - intros active w. apply for_each_total.
    intros; apply guarded_check_watch_total.
  - apply Hraise.
  - apply Hreturn.
  - intros wt w [H|H]; unfold check_watch, bind, lift, fromisoformat.
    + rewrite H. reflexivity.
    + rewrite H. destruct (date_fromisoformat (w_date_start wt)); reflexivity.
  - intros wt w start end_ Hs He Hlt.
    unfold check_watch, bind, lift, fromisoformat. rewrite Hs, He.
    rewrite seqZ_nil by lia. reflexivity.
  - apply check_all_watches_loop.
  - intros w before wt after Hkey Hactive.
    destruct (for_each_total (guarded_check_watch (settings_tbl (store w)))
                (fun x v => guarded_check_watch_total _ x v) before w)
      as [w0 Hbefore].
    exists w0. split; [exact Hbefore|].
    split.
    + intros e w1 H.
      rewrite (check_all_watches_loop w Hkey), Hactive, for_each_app, Hbefore.
      apply Hraise. exact H.
    + intros w1 H.
      rewrite (check_all_watches_loop w Hkey), Hactive, for_each_app, Hbefore.
      apply Hreturn. exact H.
Qed.

(** *** [try_snipe], run symbolically *)

Ltac same_world :=
  cbn [store calls clock settings_tbl watches activity_log found_slots];
  rewrite <- ?app_assoc; cbn [app]; reflexivity.

Lemma try_snipe_run (wt : watch) (tok : json) (day : string) (time : json)
    (s : settings) (w : world) :
  let id := w_id wt in
  let fs := found_slots (store w) in
  let c1 := CallDetails tok day (w_party_size wt) in
  let details :=
    reply (calls w ++ [c1]) (resy_headers s)
      (ReqDetails tok day (w_party_size wt)) in
  let ev_snipe :=
    event w id "snipe" (MsgSnipeAttempt (w_venue_name wt) day time) in
  let ev_booked :=
    event w id "booked" (MsgBooked (w_venue_name wt) day time) in
  let w1 := evolve w [ev_snipe] [c1] fs in
  try_snipe wt tok day time s w =
    match py_in "error" details with
    | inl e => Raise e w1
    | inr true =>
        match py_subscript details "error" with
        | inl e => Raise e w1
        | inr reason =>
            Ok tt (evolve w [ev_snipe;
                             event w id "error" (MsgDetailsFailed reason)]
                     [c1] fs)
        end
    | inr false =>
        match extracted_book_token details with
        | inl e => Raise e w1
        | inr bt =>
            if negb (py_truthy bt) then
              Ok tt (evolve w [ev_snipe; event w id "error" MsgNoBookToken]
                       [c1] fs)
            else
              let w2 := evolve w [ev_snipe] [c1; CallBook bt] fs in
              match payment_method_id (book_settings s w) with
              | inl e => Raise e w2
              | inr pm =>
                  let result :=
                    reply (calls w ++ [c1; CallBook bt])
                      (resy_headers (book_settings s w)) (ReqBook bt pm) in
                  match py_in "error" result with
                  | inl e => Raise e w2
                  | inr true =>
                      match py_subscript result "error" with
                      | inl e => Raise e w2
                      | inr reason =>
                          Ok tt (evolve w
                                   [ev_snipe;
                                    event w id "error" (MsgBookingFailed reason)]
                                   [c1; CallBook bt] fs)
                      end
                  | inr false =>
                      match sql_bind time with
                      | inl e =>
                          Raise e (evolve w [ev_snipe; ev_booked]
                                     [c1; CallBook bt] fs)
                      | inr t =>
                          Ok tt (evolve w [ev_snipe; ev_booked]
                                   [c1; CallBook bt]
                                   (mark_rows id day (text_affinity t) fs))
                      end
                  end
              end
        end
    end.
Proof.
  destruct w as [[stbl wts acts rows] cs clk].
  unfold try_snipe, resy_get_details, resy_book, extracted_book_token,
    book_settings, bind, rbind, log_activity, invoke, urlopen, lift,
    get_settings, ret, mark_booked, evolve, event, with_store.
  cbn [store calls clock settings_tbl watches activity_log found_slots].
  destruct (py_in "error" _) as [e|[|]]; [reflexivity| |].
  - destruct (py_subscript _ _); [reflexivity|]. same_world.
  - destruct (py_get "book_token" _ _) as [e|bt]; [reflexivity|].
    destruct (py_get "value" _ bt) as [e|v]; [reflexivity|].
    destruct (py_truthy v); cbn [negb]; [|same_world].
    destruct (decide (s = ∅));
      cbn [store calls clock settings_tbl watches activity_log found_slots];
      rewrite <- ?app_assoc; cbn [app].
    + destruct (payment_method_id stbl); [same_world|].
      cbn [calls]. destruct (py_in "error" _) as [?|[|]]; [same_world| |].
      * destruct (py_subscript _ _); same_world.
      * destruct (sql_bind time); same_world.
    + destruct (payment_method_id s); [same_world|].
      cbn [calls]. destruct (py_in "error" _) as [?|[|]]; [same_world| |].
      * destruct (py_subscript _ _); same_world.
      * destruct (sql_bind time); same_world.
Qed.

Lemma py_subscript_in (d : json) (key : string) (v : json) :
  py_subscript d key = inr v -> py_in key d = inr true.
Proof.
  destruct d; simpl; try discriminate.
  destruct (assoc key kvs) eqn:E; [|discriminate].
  intros _. reflexivity.
Qed.

Lemma slot_key_matches_spec (id : Z) (day : string) (time : option string)
    (r : found_slot) :
  slot_key_matches id day time r = true <-> same_slot id day time r.
Proof.
  unfold slot_key_matches, same_slot, sql_text_eq.
  rewrite !andb_true_iff, Z.eqb_eq, String.eqb_eq.
  split.
  - intros [[H1 H2] H3]. split; [|split]; try assumption.
    destruct (fs_time r) as [a|], time as [b|]; try discriminate.
    apply String.eqb_eq in H3. subst. eauto.
  - intros (H1 & H2 & t & H3 & H4). rewrite H3, H4.
    repeat split; try assumption. apply String.eqb_refl.
Qed.

(** C2. [resy_book] is called exactly when the details carry no ["error"]
    and yield a booking token that is not empty: then the calls made are the
    details call followed by the book call, and otherwise the details call
    alone.  When the details call failed, when the token is missing, and when
    the book call failed, [try_snipe] returns after one [error] row was
    added to the activity log after the [snipe] row, and the ledger, the
    watches and the settings are as before.  When [try_snipe] raises
    instead, the ledger and the watches are as before as well. *)
Theorem book_needs_details_and_token (wt : watch) (tok : json) (day : string)
    (time : json) (s : settings) (w : world) :
  let id := w_id wt in
  let c1 := CallDetails tok day (w_party_size wt) in
  let details :=
    reply (calls w ++ [c1]) (resy_headers s)
      (ReqDetails tok day (w_party_size wt)) in
  let r := try_snipe wt tok day time s w in
  let fs := found_slots (store w) in
  let ev_snipe :=
    event w id "snipe" (MsgSnipeAttempt (w_venue_name wt) day time) in
  let token_ok :=
    py_in "error" details = inr false /\
    exists bt, extracted_book_token details = inr bt /\ py_truthy bt = true in
  (token_ok <->
     exists bt, calls (world_of r) = calls w ++ [c1; CallBook bt]) /\
  (token_ok ->
     exists bt, extracted_book_token details = inr bt /\
                calls (world_of r) = calls w ++ [c1; CallBook bt]) /\
  (~ token_ok -> calls (world_of r) = calls w ++ [c1]) /\
  (forall reason,
     py_subscript details "error" = inr reason ->
     r = Ok tt (evolve w [ev_snipe;
                          event w id "error" (MsgDetailsFailed reason)]
                  [c1] fs)) /\
  (forall bt,
     py_in "error" details = inr false ->
     extracted_book_token details = inr bt -> py_truthy bt = false ->
     r = Ok tt (evolve w [ev_snipe; event w id "error" MsgNoBookToken]
                  [c1] fs)) /\
  (forall bt pm reason,
     py_in "error" details = inr false ->
     extracted_book_token details = inr bt -> py_truthy bt = true ->
     payment_method_id (book_settings s w) = inr pm ->
     py_subscript
       (reply (calls w ++ [c1; CallBook bt])
          (resy_headers (book_settings s w)) (ReqBook bt pm)) "error"
       = inr reason ->
     r = Ok tt (evolve w [ev_snipe;
                          event w id "error" (MsgBookingFailed reason)]
                  [c1; CallBook bt] fs)) /\
  (forall e w',
     r = Raise e w' ->
     found_slots (store w') = fs /\ watches (store w') = watches (store w)).
Proof.
  intros id c1 details r fs ev_snipe token_ok.
  pose proof (try_snipe_run wt tok day time s w) as Hrun.
  subst token_ok r ev_snipe fs details c1 id. cbv zeta in Hrun.
  set (details := reply _ _ (ReqDetails _ _ _)) in *.
  assert (Hyes : py_in "error" details = inr false /\
            (exists bt, extracted_book_token details = inr bt /\
                        py_truthy bt = true) ->
            exists bt, extracted_book_token details = inr bt /\
                       calls (world_of (try_snipe wt tok day time s w)) =
                       calls w ++ [CallDetails tok day (w_party_size wt);
                                   CallBook bt]).
  { intros (Herr & bt & Hbt & Htruthy). exists bt. split; [exact Hbt|].
    rewrite Hrun, Herr, Hbt, Htruthy. clear Hrun. cbn [negb].
    destruct (payment_method_id _); [reflexivity|].
    destruct (py_in "error" (reply _ _ (ReqBook _ _))) as [?|[|]];
      [reflexivity| |].
    - destruct (py_subscript _ _); reflexivity.
    - destruct (sql_bind time); reflexivity. }
  assert (Hno : ~ (py_in "error" details = inr false /\
                   exists bt, extracted_book_token details = inr bt /\
                              py_truthy bt = true) ->
            calls (world_of (try_snipe wt tok day time s w)) =
            calls w ++ [CallDetails tok day (w_party_size wt)]).
  { intros Hn. rewrite Hrun. clear Hrun Hyes.
    destruct (py_in "error" details) as [?|[|]] eqn:Herr; [reflexivity| |].
    - destruct (py_subscript _ _); reflexivity.
    - destruct (extracted_book_token details) as [?|bt] eqn:Hbt; [reflexivity|].
      destruct (py_truthy bt) eqn:Htruthy; [|reflexivity].
      exfalso. apply Hn. split; [reflexivity|]. eauto. }
  split; [|split; [exact Hyes|split; [exact Hno|split; [|split; [|split]]]]].
  - split.
    + intros H. destruct (Hyes H) as (bt & _ & Hc). eauto.
    + intros (bt & Hc). clear Hrun Hyes.
      destruct (py_in "error" details) as [?|[|]] eqn:Herr.
      1,2: exfalso; rewrite Hno in Hc
             by (intros [Hx _]; discriminate);
           apply app_inv_head in Hc; discriminate.
      destruct (extracted_book_token details) as [?|bt'] eqn:Hbt.
      { exfalso. rewrite Hno in Hc by (intros (_ & ? & Hx & _); discriminate).
        apply app_inv_head in Hc. discriminate. }
      destruct (py_truthy bt') eqn:Htruthy.
      { split; [reflexivity|]. eauto. }
      exfalso. rewrite Hno in Hc.
      * apply app_inv_head in Hc. discriminate.
      * intros (_ & ? & Hx & Hy). congruence.
  - intros reason Hsub. rewrite Hrun.
    rewrite (py_subscript_in _ _ _ Hsub), Hsub. reflexivity.
  - intros bt Herr Hbt Htruthy. rewrite Hrun, Herr, Hbt, Htruthy. reflexivity.
  - intros bt pm reason Herr Hbt Htruthy Hpm Hsub.
    rewrite Hrun, Herr, Hbt, Htruthy, Hpm. cbn [negb].
    rewrite (py_subscript_in _ _ _ Hsub), Hsub. reflexivity.
  - intros e w'. rewrite Hrun. clear Hrun Hyes Hno.
    destruct (py_in "error" details) as [?|[|]].
    + intros [= _ <-]. split; reflexivity.
    + destruct (py_subscript _ _); [|discriminate].
      intros [= _ <-]. split; reflexivity.
    + destruct (extracted_book_token details) as [?|bt].
      { intros [= _ <-]. split; reflexivity. }
      destruct (py_truthy bt); cbn [negb]; [|discriminate].
      destruct (payment_method_id _).
      { intros [= _ <-]. split; reflexivity. }
      destruct (py_in "error" (reply _ _ (ReqBook _ _))) as [?|[|]].
      * intros [= _ <-]. split; reflexivity.
      * destruct (py_subscript _ _); [|discriminate].
        intros [= _ <-]. split; reflexivity.
      * destruct (sql_bind time); [|discriminate].
        intros [= _ <-]. split; reflexivity.
Qed.

(** C7. When the book call succeeded, [try_snipe] has added a [snipe] and a
    [booked] row to the activity log and set [booked] to 1 on the rows of the
    ledger that are records of (watch id, date, time): a record of another
    watch, date or time is the row it was, and a marked row differs from what
    it was in [booked] alone.  No row was added or removed, and the watches
    and the settings are as before. *)
Theorem booking_marks_matching_rows (wt : watch) (tok : json) (day : string)
    (time : json) (s : settings) (w : world) (bt : json) (pm : Z)
    (t : sqlval) :
  let id := w_id wt in
  let c1 := CallDetails tok day (w_party_size wt) in
  let details :=
    reply (calls w ++ [c1]) (resy_headers s)
      (ReqDetails tok day (w_party_size wt)) in
  let result :=
    reply (calls w ++ [c1; CallBook bt]) (resy_headers (book_settings s w))
      (ReqBook bt pm) in
  let ev_snipe :=
    event w id "snipe" (MsgSnipeAttempt (w_venue_name wt) day time) in
  let ev_booked :=
    event w id "booked" (MsgBooked (w_venue_name wt) day time) in
  py_in "error" details = inr false ->
  extracted_book_token details = inr bt -> py_truthy bt = true ->
  payment_method_id (book_settings s w) = inr pm ->
  py_in "error" result = inr false ->
  sql_bind time = inr t ->
  exists rows',
    try_snipe wt tok day time s w =
      Ok tt (evolve w [ev_snipe; ev_booked] [c1; CallBook bt] rows') /\
    Forall2 (fun r r' =>
               (same_slot id day (text_affinity t) r ->
                r' = set_booked r /\ fs_booked r' = 1) /\
               (~ same_slot id day (text_affinity t) r -> r' = r))
            (found_slots (store w)) rows'.
Proof.
  intros id c1 details result ev_snipe ev_booked Herr Hbt Htruthy Hpm Hres Hbind.
  exists (mark_rows id day (text_affinity t) (found_slots (store w))).
  split.
  - rewrite try_snipe_run. cbv zeta. fold id c1 details.
    rewrite Herr, Hbt, Htruthy, Hpm. cbn [negb]. fold result.
    rewrite Hres, Hbind. reflexivity.
  - unfold mark_rows. induction (found_slots (store w)) as [|r rows IH];
      simpl; constructor; [|exact IH].
    destruct (slot_key_matches id day (text_affinity t) r) eqn:E.
    + split; [auto|]. intros Hn. exfalso. apply Hn.
      apply slot_key_matches_spec. exact E.
    + split; [|reflexivity]. intros Hs.
      apply slot_key_matches_spec in Hs. congruence.
Qed.

(** *** One slot of [check_watch], run symbolically *)

Lemma select_unbooked_spec (id : Z) (day : string) (time : option string)
    (rows : list found_slot) :
  existsb (fun r => slot_key_matches id day time r && (fs_booked r =? 0)) rows
    = true <-> has_unbooked id day time rows.
Proof.
  unfold has_unbooked. rewrite existsb_exists. split.
  - intros (r & Hin & H). apply andb_true_iff in H as [H1 H2].
    exists r. repeat split; [exact Hin|..].
    + apply slot_key_matches_spec in H1. apply H1.
    + apply slot_key_matches_spec in H1. apply H1.
    + apply slot_key_matches_spec in H1. apply H1.
    + lia.
  - intros (r & Hin & Hs & Hb). exists r. split; [exact Hin|].
    apply andb_true_iff. split; [apply slot_key_matches_spec; exact Hs|lia].
Qed.

Lemma check_slot_run (wt : watch) (s : settings) (day : string)
    (slot st tok : json) (w : world) :
  slot_fields slot = inr (st, tok) ->
  let id := w_id wt in
  let fs := found_slots (store w) in
  check_slot wt s day slot w =
    match time_in_range wt st with
    | inl e => Raise e w
    | inr false => Ok tt w
    | inr true =>
        match sql_bind st with
        | inl e => Raise e w
        | inr tv =>
            if existsb (fun r => slot_key_matches id day (text_affinity tv) r
                                 && (fs_booked r =? 0)) fs
            then Ok tt w
            else
              match sql_bind tok with
              | inl e => Raise e w
              | inr cv =>
                  let w1 :=
                    evolve w
                      [event w id "found"
                         (MsgSlotFound (w_venue_name wt) day st
                            (w_party_size wt))]
                      []
                      (fs ++ [found_row wt day (text_affinity tv)
                                (text_affinity cv) (clock w)]) in
                  if snipe_wanted wt tok s then try_snipe wt tok day st s w1
                  else Ok tt w1
              end
        end
    end.
Proof.
  unfold slot_fields, rbind. intros H.
  destruct (py_get "date" _ slot) as [?|slot_date] eqn:Hd; [discriminate|].
  destruct (py_get "start" _ slot_date) as [?|st'] eqn:Hs; [discriminate|].
  destruct (py_get "config" _ slot) as [?|config] eqn:Hc; [discriminate|].
  destruct (py_get "token" _ config) as [?|tok'] eqn:Ht; [discriminate|].
  injection H as -> ->. cbv zeta.
  destruct w as [[stbl wts acts rows] cs clk].
  unfold check_slot, record_slot, bind, lift, select_unbooked,
    insert_found_slot, log_activity, ret, evolve, event, found_row, with_store.
  rewrite Hd, Hs.
  destruct (time_in_range wt st) as [?|[|]]; [reflexivity| |reflexivity].
  rewrite Hc, Ht.
  cbn [store calls clock settings_tbl watches activity_log found_slots].
  destruct (sql_bind st) as [?|tv]; [reflexivity|].
  destruct (existsb _ rows); [reflexivity|].
  destruct (sql_bind tok) as [?|cv]; [reflexivity|].
  cbn [store calls clock settings_tbl watches activity_log found_slots].
  rewrite app_nil_r. destruct (snipe_wanted wt tok s); reflexivity.
Qed.

Lemma evolve_evolve (w : world) (ev ev' : list activity)
    (cs cs' : list api_call) (rows rows' : list found_slot) :
  evolve (evolve w ev cs rows) ev' cs' rows' =
    evolve w (ev ++ ev') (cs ++ cs') rows'.
Proof. unfold evolve. simpl. rewrite !app_assoc. reflexivity. Qed.

Lemma try_snipe_attempts (wt : watch) (tok : json) (day : string)
    (time : json) (s : settings) (w : world) :
  exists events more rows,
    world_of (try_snipe wt tok day time s w) =
      evolve w
        (event w (w_id wt) "snipe"
           (MsgSnipeAttempt (w_venue_name wt) day time) :: events)
        (CallDetails tok day (w_party_size wt) :: more) rows.
Proof.
  rewrite try_snipe_run. cbv zeta.
  destruct (py_in "error" _) as [?|[|]]; [eexists _, _, _; reflexivity| |].
  - destruct (py_subscript _ _); eexists _, _, _; reflexivity.
  - destruct (extracted_book_token _) as [?|bt]; [eexists _, _, _; reflexivity|].
    destruct (py_truthy bt); cbn [negb]; [|eexists _, _, _; reflexivity].
    destruct (payment_method_id _); [eexists _, _, _; reflexivity|].
    destruct (py_in "error" _) as [?|[|]]; [eexists _, _, _; reflexivity| |].
    + destruct (py_subscript _ _); eexists _, _, _; reflexivity.
    + destruct (sql_bind time); eexists _, _, _; reflexivity.
Qed.

(** C1, as the code has it. A slot that already has an unbooked record of
    (watch id, date, time) in the ledger is passed over: its iteration ends in
    the world it started in, so [try_snipe] is not entered for it (no [snipe]
    row, no details call), whatever [snipe_mode] and [auth_token] are.  Only
    a slot the lookup does not find is sniped. *)
Theorem seen_slot_is_not_sniped (wt : watch) (s : settings) (day : string)
    (slot st tok : json) (tv : sqlval) (keep : bool) (w : world) :
  slot_fields slot = inr (st, tok) ->
  time_in_range wt st = inr keep ->
  sql_bind st = inr tv ->
  has_unbooked (w_id wt) day (text_affinity tv) (found_slots (store w)) ->
  check_slot wt s day slot w = Ok tt w.
Proof.
  intros Hf Hk Hb Hu. rewrite (check_slot_run _ _ _ _ _ _ _ Hf). cbv zeta.
  rewrite Hk, Hb. destruct keep; [|reflexivity].
  apply select_unbooked_spec in Hu. rewrite Hu. reflexivity.
Qed.

(** C9, as the code has it. When every record of (watch id, date, time) in
    the ledger is booked, a slot that passes the time check is new again:
    one more row is inserted for it, unbooked, and one more [found] row goes
    to the activity log; then, if [snipe_mode] is set, the slot carries a
    config token that is not empty and [auth_token] is set, [try_snipe] is
    entered (a [snipe] row follows the [found] row and the details call is
    made), and otherwise nothing more happens. *)
Theorem booked_slot_is_new_again (wt : watch) (s : settings) (day : string)
    (slot st tok : json) (tv cv : sqlval) (w : world) :
  slot_fields slot = inr (st, tok) ->
  time_in_range wt st = inr true ->
  sql_bind st = inr tv ->
  sql_bind tok = inr cv ->
  (forall r, In r (found_slots (store w)) ->
             same_slot (w_id wt) day (text_affinity tv) r ->
             fs_booked r <> 0) ->
  let id := w_id wt in
  let ev_found :=
    event w id "found"
      (MsgSlotFound (w_venue_name wt) day st (w_party_size wt)) in
  let row :=
    found_row wt day (text_affinity tv) (text_affinity cv) (clock w) in
  let w1 := evolve w [ev_found] [] (found_slots (store w) ++ [row]) in
  check_slot wt s day slot w =
    (if snipe_wanted wt tok s then try_snipe wt tok day st s w1
     else Ok tt w1) /\
  (snipe_wanted wt tok s = true ->
   exists events more rows,
     world_of (check_slot wt s day slot w) =
       evolve w
         (ev_found ::
          event w id "snipe" (MsgSnipeAttempt (w_venue_name wt) day st) ::
          events)
         (CallDetails tok day (w_party_size wt) :: more) rows) /\
  (snipe_wanted wt tok s = false ->
   check_slot wt s day slot w = Ok tt w1).
Proof.
  intros Hf Hk Hb Hc Hall id ev_found row w1.
  assert (E : check_slot wt s day slot w =
              if snipe_wanted wt tok s then try_snipe wt tok day st s w1
              else Ok tt w1).
  { rewrite (check_slot_run _ _ _ _ _ _ _ Hf). cbv zeta.
    rewrite Hk, Hb, Hc.
    destruct (existsb _ _) eqn:Hex; [|reflexivity].
    apply select_unbooked_spec in Hex as (r & Hin & Hs & Hz).
    exfalso. exact (Hall r Hin Hs Hz). }
  split; [exact E|split].
  - intros Hw. rewrite E, Hw.
    destruct (try_snipe_attempts wt tok day st s w1)
      as (events & more & rows & Hev).
    exists events, more, rows. rewrite Hev. unfold w1.
    rewrite evolve_evolve. reflexivity.
  - intros Hw. rewrite E, Hw. reflexivity.
Qed.

(** *** Two scans in a row *)

Lemma grows_refl (a : list found_slot) : grows a a.
Proof. intros i r H. left. exact H. Qed.

Lemma grows_trans (a b c : list found_slot) :
  grows a b -> grows b c -> grows a c.
Proof.
  intros Hab Hbc i r H.
  destruct (Hab i r H) as [H1|H1]; destruct (Hbc i _ H1) as [H2|H2]; auto.
Qed.

Lemma grows_app (a more : list found_slot) : grows a (a ++ more).
Proof. intros i r H. left. apply lookup_app_l_Some. exact H. Qed.

Lemma grows_mark (id : Z) (day : string) (t : option string)
    (a : list found_slot) :
  grows a (mark_rows id day t a).
Proof.
  intros i r H. unfold mark_rows. rewrite list_lookup_fmap, H. simpl.
  destruct (slot_key_matches id day t r); auto.
Qed.

Lemma grows_length (a b : list found_slot) :
  grows a b -> (length a <= length b)%nat.
Proof.
  intros H. destruct (Nat.le_gt_cases (length a) (length b)) as [|Hlt]; [assumption|].
  destruct (lookup_lt_is_Some_2 a (length b) Hlt) as [r Hr].
  destruct (H _ _ Hr) as [H1|H1]; apply lookup_lt_Some in H1; lia.
Qed.

Lemma mono_ret {A} (a : A) : mono (ret a).
Proof. intros w a' w' [= _ <-]. apply grows_refl. Qed.

Lemma mono_lift {A} (r : res A) : mono (lift r).
Proof.
  intros w a w'. unfold lift. destruct r; [discriminate|].
  intros [= _ <-]. apply grows_refl.
Qed.

Lemma mono_bind {A B} (m : M A) (k : A -> M B) :
  mono m -> (forall a, mono (k a)) -> mono (bind m k).
Proof.
  intros Hm Hk w b w'. unfold bind.
  destruct (m w) as [a w1|] eqn:E; [|discriminate].
  intros H. eapply grows_trans; [exact (Hm _ _ _ E)|exact (Hk _ _ _ _ H)].
Qed.

Lemma mono_for_each {A} (xs : list A) (body : A -> M unit) :
  (forall x, mono (body x)) -> mono (for_each xs body).
Proof.
  intros Hb. induction xs as [|x xs IH]; simpl.
  - apply mono_ret.
  - apply mono_bind; [apply Hb|intros _; exact IH].
Qed.

Lemma mono_same {A} (m : M A) :
  (forall w a w', m w = Ok a w' ->
                  found_slots (store w') = found_slots (store w)) ->
  mono m.
Proof. intros H w a w' E. rewrite (H _ _ _ E). apply grows_refl. Qed.

Lemma mono_log_activity (id : option Z) (type_ : string) (msg : message) :
  mono (log_activity id type_ msg).
Proof. apply mono_same. intros w a w' [= _ <-]. reflexivity. Qed.

Lemma mono_invoke (c : api_call) : mono (invoke c).
Proof. apply mono_same. intros w a w' [= _ <-]. reflexivity. Qed.

Lemma mono_urlopen (h : headers) (r : request) : mono (urlopen h r).
Proof. apply mono_same. intros w a w' [= _ <-]. reflexivity. Qed.

Lemma mono_sleep (n : Z) : mono (sleep n).
Proof. apply mono_same. intros w a w' [= _ <-]. reflexivity. Qed.

Lemma mono_get_settings : mono get_settings.
Proof. apply mono_same. intros w a w' [= _ <-]. reflexivity. Qed.

Lemma mono_touch_last_checked (id : Z) : mono (touch_last_checked id).
Proof. apply mono_same. intros w a w' [= _ <-]. reflexivity. Qed.

Lemma mono_select_unbooked (id : Z) (day : string) (st : json) :
  mono (select_unbooked id day st).
Proof.
  apply mono_same. intros w a w'. unfold select_unbooked.
  destruct (sql_bind st); [discriminate|]. intros [= _ <-]. reflexivity.
Qed.

Lemma mono_insert_found_slot (wt : watch) (day : string) (st tok : json) :
  mono (insert_found_slot wt day st tok).
Proof.
  intros w a w'. unfold insert_found_slot.
  destruct (sql_bind st); [discriminate|].
  destruct (sql_bind tok); [discriminate|].
  intros [= _ <-]. apply grows_app.
Qed.

Lemma mono_mark_booked (id : Z) (day : string) (time : json) :
  mono (mark_booked id day time).
Proof.
  intros w a w'. unfold mark_booked.
  destruct (sql_bind time); [discriminate|].
  intros [= _ <-]. apply grows_mark.
Qed.

Ltac mono_step :=
  first
    [ apply mono_ret | apply mono_lift | apply mono_log_activity
    | apply mono_invoke | apply mono_urlopen | apply mono_sleep
    | apply mono_get_settings | apply mono_touch_last_checked
    | apply mono_select_unbooked | apply mono_insert_found_slot
    | apply mono_mark_booked
    | apply mono_bind; [|intros ?]
    | apply mono_for_each; intros ?
    | match goal with
      | |- mono (if ?b then _ else _) => destruct b
      end ].

Lemma mono_resy_find (v d : string) (p : sqlval) (s : settings) :
  mono (resy_find v d p s).
Proof. unfold resy_find. repeat mono_step. Qed.

Lemma mono_try_snipe (wt : watch) (tok : json) (day : string) (time : json)
    (s : settings) :
  mono (try_snipe wt tok day time s).
Proof.
  unfold try_snipe, resy_get_details, resy_book. repeat mono_step.
Qed.

Lemma mono_check_slot (wt : watch) (s : settings) (day : string) (slot : json) :
  mono (check_slot wt s day slot).
Proof.
  unfold check_slot, record_slot. repeat mono_step.
Qed.

Lemma mono_check_venue (wt : watch) (s : settings) (day : string)
    (venue : json) :
  mono (check_venue wt s day venue).
Proof. unfold check_venue. repeat mono_step. Qed.

Lemma mono_check_day (wt : watch) (s : settings) (current : Z) :
  mono (check_day wt s current).
Proof.
  unfold check_day. cbv zeta. apply mono_bind; [apply mono_resy_find|intros ?].
  repeat mono_step.
Qed.

Lemma replays_for_each {A} (rows0 : list found_slot) (w1 : world)
    (xs : list A) (body : A -> M unit) :
  (forall a, mono (body a)) ->
  (forall a, replays rows0 w1 (body a)) ->
  replays rows0 w1 (for_each xs body).
Proof.
  intros Hmono Hbody. induction xs as [|a xs IH]; intros x y z Hx Hy Hrun Hz.
  - exists z. split; [reflexivity|exact Hz].
  - simpl in *. unfold bind in *.
    destruct (body a x) as [[] x1|] eqn:E; [|discriminate].
    pose proof (Hmono a _ _ _ E) as Hstep.
    pose proof (mono_for_each xs body Hmono _ _ _ Hrun) as Hrest.
    destruct (Hbody a x x1 z Hx (grows_trans _ _ _ Hrest Hy) E Hz)
      as (z1 & -> & Hz1).
    exact (IH x1 y z1 (grows_trans _ _ _ Hx Hstep) Hy Hrun Hz1).
Qed.

Lemma keeps_one_record_for_each {A} (rows0 : list found_slot) (w1 : world)
    (id : Z) (xs : list A) (body : A -> M unit) :
  (forall a, mono (body a)) ->
  (forall a, keeps_one_record rows0 w1 id (body a)) ->
  keeps_one_record rows0 w1 id (for_each xs body).
Proof.
  intros Hmono Hbody. induction xs as [|a xs IH]; intros x y Hx Hy Hrun Hone.
  - injection Hrun as <-. exact Hone.
  - simpl in *. unfold bind in *.
    destruct (body a x) as [[] x1|] eqn:E; [|discriminate].
    pose proof (Hmono a _ _ _ E) as Hstep.
    pose proof (mono_for_each xs body Hmono _ _ _ Hrun) as Hrest.
    apply (IH x1 y (grows_trans _ _ _ Hx Hstep) Hy Hrun).
    exact (Hbody a x x1 Hx (grows_trans _ _ _ Hrest Hy) E Hone).
Qed.

Lemma one_record_mark (id id' : Z) (day : string) (t : option string)
    (rows : list found_slot) :
  one_record_per_slot id rows ->
  one_record_per_slot id (mark_rows id' day t rows).
Proof.
  intros H i j r r'. unfold mark_rows. rewrite !list_lookup_fmap.
  destruct (rows !! i) as [a|] eqn:Ea; [|discriminate].
  destruct (rows !! j) as [b|] eqn:Eb; [|discriminate].
  simpl. intros [= <-] [= <-] H1 H2 H3 H4.
  apply (H i j a b Ea Eb).
  - destruct (slot_key_matches _ _ _ a); exact H1.
  - destruct (slot_key_matches _ _ _ b); exact H2.
  - destruct (slot_key_matches _ _ _ a), (slot_key_matches _ _ _ b); exact H3.
  - destruct (slot_key_matches _ _ _ a), (slot_key_matches _ _ _ b); exact H4.
Qed.

Lemma try_snipe_rows (wt : watch) (tok : json) (day : string) (time : json)
    (s : settings) (w y : world) :
  try_snipe wt tok day time s w = Ok tt y ->
  found_slots (store y) = found_slots (store w) \/
  exists t, found_slots (store y) =
            mark_rows (w_id wt) day t (found_slots (store w)).
Proof.
  rewrite try_snipe_run. cbv zeta.
  destruct (py_in "error" _) as [?|[|]]; [discriminate| |].
  - destruct (py_subscript _ _); [discriminate|]. intros [= <-]. left. reflexivity.
  - destruct (extracted_book_token _) as [?|bt]; [discriminate|].
    destruct (py_truthy bt); cbn [negb]; [|intros [= <-]; left; reflexivity].
    destruct (payment_method_id _); [discriminate|].
    destruct (py_in "error" _) as [?|[|]]; [discriminate| |].
    + destruct (py_subscript _ _); [discriminate|].
      intros [= <-]. left. reflexivity.
    + destruct (sql_bind time); [discriminate|].
      intros [= <-]. right. eexists. reflexivity.
Qed.

(** A returning loop has run its body on each item, between the world it
    started in and the world it left. *)
Lemma for_each_visits {A} (xs : list A) (body : A -> M unit) (a : A)
    (x y : world) :
  (forall b, mono (body b)) ->
  for_each xs body x = Ok tt y -> In a xs ->
  exists xa ya,
    body a xa = Ok tt ya /\
    grows (found_slots (store x)) (found_slots (store xa)) /\
    grows (found_slots (store ya)) (found_slots (store y)).
Proof.
  intros Hmono. revert x.
  induction xs as [|b xs IH]; intros x Hrun Hin; [destruct Hin|].
  simpl in Hrun. unfold bind in Hrun.
  destruct (body b x) as [[] x1|] eqn:E; [|discriminate].
  destruct Hin as [->|Hin].
  - exists x, x1. split; [exact E|split; [apply grows_refl|]].
    exact (mono_for_each xs body Hmono _ _ _ Hrun).
  - destruct (IH x1 Hrun Hin) as (xa & ya & Hb & H1 & H2).
    exists xa, ya. split; [exact Hb|split; [|exact H2]].
    eapply grows_trans; [exact (Hmono b _ _ _ E)|exact H1].
Qed.

Lemma one_record_unique (id : Z) (day : string) (t : option string)
    (rows : list found_slot) (i j : nat) (r r' : found_slot) :
  one_record_per_slot id rows ->
  rows !! i = Some r -> same_slot id day t r ->
  rows !! j = Some r' -> same_slot id day t r' ->
  j = i.
Proof.
  intros Hone Hi (Hid & Hday & u & Hu & Ht) Hj (Hid' & Hday' & u' & Hu' & Ht').
  apply (Hone j i r' r Hj Hi Hid' Hid); congruence.
Qed.

Section TwoScans.

Variables (wt : watch) (s : settings) (w0 w1 : world) (more : list found_slot).

Hypothesis same_answers :
  forall h h' hd venue day party,
    remote h hd (ReqFind venue day party) = remote h' hd (ReqFind venue day party).
Hypothesis only_added :
  found_slots (store w1) = found_slots (store w0) ++ more.
Hypothesis none_booked :
  Forall (fun r => fs_booked r = 0 /\ fs_time r <> None) more.

Local Abbreviation rows0 := (found_slots (store w0)).
Local Abbreviation rows1 := (found_slots (store w1)).

Lemma survives (rows : list found_slot) (i : nat) (r : found_slot) :
  grows rows0 rows -> grows rows rows1 ->
  rows !! i = Some r -> fs_booked r = 0 ->
  rows1 !! i = Some r.
Proof.
  intros H0 H1 Hi Hb. destruct (H1 i r Hi) as [H|H]; [exact H|exfalso].
  rewrite only_added in H.
  destruct (Nat.lt_ge_cases i (length rows0)) as [Hlt|Hge].
  - rewrite lookup_app_l in H by exact Hlt.
    destruct (H0 _ _ H) as [H'|H']; rewrite Hi in H'; injection H' as H';
      rewrite H' in Hb; discriminate.
  - rewrite lookup_app_r in H by exact Hge.
    apply (Forall_lookup_1 _ _ _ _ none_booked) in H as [H _]. discriminate.
Qed.

Lemma appended (rows : list found_slot) (i : nat) (r : found_slot) :
  grows rows0 rows -> grows rows rows1 ->
  rows !! i = Some r -> (length rows0 <= i)%nat ->
  rows1 !! i = Some r /\ fs_booked r = 0 /\ fs_time r <> None.
Proof.
  intros H0 H1 Hi Hge. destruct (H1 i r Hi) as [H|H].
  - split; [exact H|]. rewrite only_added, lookup_app_r in H by exact Hge.
    exact (Forall_lookup_1 _ _ _ _ none_booked H).
  - exfalso. rewrite only_added, lookup_app_r in H by exact Hge.
    apply (Forall_lookup_1 _ _ _ _ none_booked) in H as [H _]. discriminate.
Qed.

Lemma own_rows_unbooked (rows : list found_slot) (i : nat) (r : found_slot) :
  none_booked_of (w_id wt) rows0 ->
  grows rows0 rows -> grows rows rows1 ->
  rows !! i = Some r -> fs_watch_id r = w_id wt ->
  fs_booked r = 0.
Proof.
  intros Hown H0 H1 Hi Hid.
  destruct (Nat.lt_ge_cases i (length rows0)) as [Hlt|Hge].
  - destruct (lookup_lt_is_Some_2 _ _ Hlt) as [r0 Hr0].
    assert (Hb0 : fs_watch_id r0 = w_id wt -> fs_booked r0 = 0).
    { apply Hown. apply list_elem_of_In.
      exact (list_elem_of_lookup_2 _ _ _ Hr0). }
    destruct (H0 _ _ Hr0) as [H|H]; rewrite Hi in H; injection H as ->.
    + exact (Hb0 Hid).
    + exfalso. specialize (Hb0 Hid).
      destruct (H1 _ _ Hi) as [H|H];
        rewrite only_added, lookup_app_l, Hr0 in H by exact Hlt;
        injection H as H; apply (f_equal fs_booked) in H;
        cbn in H; rewrite Hb0 in H; discriminate.
  - destruct (appended rows i r H0 H1 Hi Hge) as (_ & Hb & _). exact Hb.
Qed.

Lemma reply_find_same (h h' : list api_call) (hd : headers)
    (venue day : string) (party : sqlval) :
  reply h hd (ReqFind venue day party) = reply h' hd (ReqFind venue day party).
Proof. unfold reply. rewrite (same_answers h h'). reflexivity. Qed.

Lemma unbooked_survives (rows : list found_slot) (id : Z) (day : string)
    (t : option string) :
  grows rows0 rows -> grows rows rows1 ->
  has_unbooked id day t rows -> has_unbooked id day t rows1.
Proof.
  intros H0 H1 (r & Hin & Hs & Hb).
  apply list_elem_of_In, list_elem_of_lookup_1 in Hin as [i Hi].
  exists r. split; [|split; assumption].
  apply list_elem_of_In. eapply list_elem_of_lookup_2.
  exact (survives rows i r H0 H1 Hi Hb).
Qed.

(** What a returning iteration of the slot loop has done: nothing because
    of the time check, nothing because of the lookup, or an insertion. *)
Lemma check_slot_outcome (day : string) (slot : json) (x y : world) :
  check_slot wt s day slot x = Ok tt y ->
  (y = x /\ (forall z, check_slot wt s day slot z = Ok tt z) /\
   exists slot_date st,
     py_get "date" (JObj []) slot = inr slot_date /\
     py_get "start" (JStr "") slot_date = inr st /\
     time_in_range wt st = inr false) \/
  exists st tok tv,
    slot_fields slot = inr (st, tok) /\
    time_in_range wt st = inr true /\
    sql_bind st = inr tv /\
    ((y = x /\
      existsb (fun r => slot_key_matches (w_id wt) day (text_affinity tv) r
                        && (fs_booked r =? 0)) (found_slots (store x)) = true)
     \/
     exists cv,
       sql_bind tok = inr cv /\
       existsb (fun r => slot_key_matches (w_id wt) day (text_affinity tv) r
                         && (fs_booked r =? 0)) (found_slots (store x)) = false
       /\
       (if snipe_wanted wt tok s
        then try_snipe wt tok day st s
               (evolve x
                  [event x (w_id wt) "found"
                     (MsgSlotFound (w_venue_name wt) day st (w_party_size wt))]
                  []
                  (found_slots (store x) ++
                   [found_row wt day (text_affinity tv) (text_affinity cv)
                      (clock x)]))
        else Ok tt
               (evolve x
                  [event x (w_id wt) "found"
                     (MsgSlotFound (w_venue_name wt) day st (w_party_size wt))]
                  []
                  (found_slots (store x) ++
                   [found_row wt day (text_affinity tv) (text_affinity cv)
                      (clock x)]))) = Ok tt y).
Proof.
  intros Hrun.
  destruct (py_get "date" (JObj []) slot) as [?|slot_date] eqn:Hd.
  { unfold check_slot, bind, lift in Hrun. rewrite Hd in Hrun. discriminate. }
  destruct (py_get "start" (JStr "") slot_date) as [?|st] eqn:Hs.
  { unfold check_slot, bind, lift in Hrun. rewrite Hd, Hs in Hrun.
    discriminate. }
  destruct (time_in_range wt st) as [?|[|]] eqn:Hk.
  { unfold check_slot, bind, lift in Hrun. rewrite Hd, Hs, Hk in Hrun.
    discriminate. }
  2: { left. rewrite (check_slot_unfold _ _ _ _ _ _ _ _ Hd Hs Hk) in Hrun.
       injection Hrun as <-. split; [reflexivity|].
       split; [|exists slot_date, st; auto].
       intros z. apply (check_slot_unfold _ _ _ _ _ _ _ _ Hd Hs Hk). }
  destruct (py_get "config" (JObj []) slot) as [?|config] eqn:Hc.
  { rewrite (check_slot_unfold _ _ _ _ _ _ _ _ Hd Hs Hk) in Hrun.
    unfold record_slot, bind, lift in Hrun. rewrite Hc in Hrun. discriminate. }
  destruct (py_get "token" (JStr "") config) as [?|tok] eqn:Ht.
  { rewrite (check_slot_unfold _ _ _ _ _ _ _ _ Hd Hs Hk) in Hrun.
    unfold record_slot, bind, lift in Hrun. rewrite Hc, Ht in Hrun.
    discriminate. }
  assert (Hf : slot_fields slot = inr (st, tok)).
  { unfold slot_fields, rbind. rewrite Hd, Hs, Hc, Ht. reflexivity. }
  rewrite (check_slot_run wt s day slot st tok x Hf) in Hrun.
  cbv zeta in Hrun. rewrite Hk in Hrun.
  destruct (sql_bind st) as [?|tv] eqn:Hb; [discriminate|].
  right. exists st, tok, tv. repeat split; try assumption; try reflexivity.
  destruct (existsb _ (found_slots (store x))) eqn:Hex.
  - left. injection Hrun as <-. split; reflexivity.
  - right. destruct (sql_bind tok) as [?|cv] eqn:Hcv; [discriminate|].
    exists cv. repeat split; assumption.
Qed.

(** A returning iteration of the slot loop that took place between the
    ledger [rows0] and the world [w1] either dropped the slot at the time
    check, or the ledger of [w1] holds an unbooked record of the slot. *)
Lemma check_slot_leaves_record (day : string) (slot : json) (x y : world) :
  grows rows0 (found_slots (store x)) ->
  grows (found_slots (store y)) rows1 ->
  check_slot wt s day slot x = Ok tt y ->
  ((forall z, check_slot wt s day slot z = Ok tt z) /\
   exists slot_date st,
     py_get "date" (JObj []) slot = inr slot_date /\
     py_get "start" (JStr "") slot_date = inr st /\
     time_in_range wt st = inr false) \/
  exists st tok tv,
    slot_fields slot = inr (st, tok) /\
    time_in_range wt st = inr true /\
    sql_bind st = inr tv /\
    has_unbooked (w_id wt) day (text_affinity tv) rows1.
Proof.
  intros Hx Hy Hrun.
  destruct (check_slot_outcome day slot x y Hrun)
    as [(_ & Hskip & Hwhy)|(st & tok & tv & Hf & Hk & Hb & Hcase)].
  { left. split; assumption. }
  right. exists st, tok, tv.
  split; [exact Hf|split; [exact Hk|split; [exact Hb|]]].
  destruct Hcase as [[-> Hex]|(cv & Hcv & Hex & Hrest)].
    - apply (unbooked_survives (found_slots (store x))); [exact Hx|exact Hy|].
      apply select_unbooked_spec. exact Hex.
    - set (row := found_row wt day (text_affinity tv) (text_affinity cv)
                    (clock x)) in *.
      set (x1 := evolve x _ [] _) in *.
      assert (H1 : grows (found_slots (store x1)) (found_slots (store y))).
      { destruct (snipe_wanted wt tok s).
        - exact (mono_try_snipe _ _ _ _ _ _ _ _ Hrest).
        - injection Hrest as <-. apply grows_refl. }
      assert (Hrow : found_slots (store x1) !! length (found_slots (store x))
                     = Some row).
      { unfold x1, evolve. cbn [store found_slots].
        apply list_lookup_middle. reflexivity. }
      assert (Hx1 : grows rows0 (found_slots (store x1))).
      { eapply grows_trans; [exact Hx|]. apply grows_app. }
      destruct (appended _ _ _ Hx1 (grows_trans _ _ _ H1 Hy) Hrow
                  (grows_length _ _ Hx)) as (Hin & _ & Htime).
      exists row. split; [|split].
      + apply list_elem_of_In. exact (list_elem_of_lookup_2 _ _ _ Hin).
      + unfold same_slot, row, found_row. cbn.
        repeat split; [reflexivity..|].
        destruct (text_affinity tv) as [t|] eqn:Et; [eauto|].
        exfalso. apply Htime. reflexivity.
      + reflexivity.
Qed.

Lemma replays_check_slot (day : string) (slot : json) :
  replays rows0 w1 (check_slot wt s day slot).
Proof.
  intros x y z Hx Hy Hrun Hz.
  destruct (check_slot_leaves_record day slot x y Hx Hy Hrun)
    as [[Hskip _]|(st & tok & tv & Hf & Hk & Hb & Hseen)].
  { exists z. split; [apply Hskip|exact Hz]. }
  exists z. split; [|exact Hz].
  rewrite (check_slot_run wt s day slot st tok z Hf). cbv zeta.
  rewrite Hk, Hb, Hz.
  apply select_unbooked_spec in Hseen. rewrite Hseen. reflexivity.
Qed.

Lemma kept_slot_recorded (day : string) (slot st : json) (x y : world) :
  grows rows0 (found_slots (store x)) ->
  grows (found_slots (store y)) rows1 ->
  check_slot wt s day slot x = Ok tt y ->
  kept wt slot st ->
  exists tv,
    sql_bind st = inr tv /\
    has_unbooked (w_id wt) day (text_affinity tv) rows1.
Proof.
  intros Hx Hy Hrun (slot_date & Hd & Hs & Hk).
  destruct (check_slot_leaves_record day slot x y Hx Hy Hrun)
    as [(_ & sd & st' & Hd' & Hs' & Hk')
       |(st' & tok & tv & Hf & _ & Hb & Hseen)].
  - rewrite Hd in Hd'. injection Hd' as <-.
    rewrite Hs in Hs'. injection Hs' as <-.
    rewrite Hk in Hk'. discriminate.
  - unfold slot_fields, rbind in Hf. rewrite Hd, Hs in Hf.
    destruct (py_get "config" _ slot) as [?|config]; [discriminate|].
    destruct (py_get "token" _ config) as [?|t]; [discriminate|].
    injection Hf as <- <-. exists tv. split; assumption.
Qed.

Lemma one_record_insert (day : string) (tv cv : sqlval) (now : Z)
    (rows : list found_slot) :
  none_booked_of (w_id wt) rows0 ->
  grows rows0 rows ->
  grows (rows ++ [found_row wt day (text_affinity tv) (text_affinity cv) now])
    rows1 ->
  existsb (fun r => slot_key_matches (w_id wt) day (text_affinity tv) r
                    && (fs_booked r =? 0)) rows = false ->
  one_record_per_slot (w_id wt) rows ->
  one_record_per_slot (w_id wt)
    (rows ++ [found_row wt day (text_affinity tv) (text_affinity cv) now]).
Proof.
  intros Hno H0 H1 Hex Hone.
  set (row := found_row wt day (text_affinity tv) (text_affinity cv) now) in *.
  assert (Hfresh : forall k r, rows !! k = Some r -> fs_watch_id r = w_id wt ->
                     fs_date r = day -> fs_time r = text_affinity tv -> False).
  { intros k r Hk Hid Hday Htime.
    pose proof (grows_trans _ _ _ H0 (grows_app rows [row])) as H0'.
    assert (Hk' : (rows ++ [row]) !! k = Some r)
      by (apply lookup_app_l_Some; exact Hk).
    pose proof (own_rows_unbooked _ k r Hno H0' H1 Hk' Hid) as Hb.
    assert (Hnew : (rows ++ [row]) !! length rows = Some row)
      by (apply list_lookup_middle; reflexivity).
    destruct (appended _ _ _ H0' H1 Hnew (grows_length _ _ H0))
      as (_ & _ & Ht).
    assert (Htv : exists t, text_affinity tv = Some t).
    { clear -Ht. unfold row, found_row in Ht. cbn in Ht.
      destruct (text_affinity tv) as [t|]; [eauto|contradiction]. }
    destruct Htv as [t Et].
    assert (Hmatch : has_unbooked (w_id wt) day (text_affinity tv) rows).
    { exists r. split; [|split].
      - apply list_elem_of_In. exact (list_elem_of_lookup_2 _ _ _ Hk).
      - repeat split; [exact Hid|exact Hday|].
        exists t. split; [rewrite Htime; exact Et|exact Et].
      - exact Hb. }
    apply select_unbooked_spec in Hmatch. congruence. }
  intros i j r r' Hi Hj Hid Hid' Hday Htime.
  apply lookup_snoc_Some in Hi, Hj.
  destruct Hi as [[Hi Hli]|[Hi <-]], Hj as [[Hj Hlj]|[Hj <-]].
  - exact (Hone i j r r' Hli Hlj Hid Hid' Hday Htime).
  - exfalso. apply (Hfresh i r Hli Hid); [exact Hday|exact Htime].
  - exfalso. apply (Hfresh j r' Hlj Hid'); [symmetry; exact Hday|].
    symmetry. exact Htime.
  - congruence.
Qed.

Lemma keeps_one_record_check_slot (day : string) (slot : json) :
  none_booked_of (w_id wt) rows0 ->
  keeps_one_record rows0 w1 (w_id wt) (check_slot wt s day slot).
Proof.
  intros Hno x y Hx Hy Hrun Hone.
  destruct (check_slot_outcome day slot x y Hrun)
    as [[-> _]|(st & tok & tv & Hf & Hk & Hb & Hcase)]; [exact Hone|].
  destruct Hcase as [[-> _]|(cv & Hcv & Hex & Hrest)]; [exact Hone|].
  set (row := found_row wt day (text_affinity tv) (text_affinity cv)
                (clock x)) in *.
  set (x1 := evolve x _ [] _) in *.
  assert (H1 : grows (found_slots (store x1)) (found_slots (store y))).
  { destruct (snipe_wanted wt tok s).
    - exact (mono_try_snipe _ _ _ _ _ _ _ _ Hrest).
    - injection Hrest as <-. apply grows_refl. }
  assert (Hins : one_record_per_slot (w_id wt) (found_slots (store x1))).
  { unfold x1, evolve. cbn [store found_slots].
    apply one_record_insert; try assumption.
    exact (grows_trans _ _ _ H1 Hy). }
  destruct (snipe_wanted wt tok s).
  - destruct (try_snipe_rows _ _ _ _ _ _ _ Hrest) as [->|[t ->]];
      [exact Hins|apply one_record_mark; exact Hins].
  - injection Hrest as <-. exact Hins.
Qed.

Lemma replays_check_venue (day : string) (venue : json) :
  replays rows0 w1 (check_venue wt s day venue).
Proof.
  intros x y z Hx Hy Hrun Hz. unfold check_venue, bind, lift in Hrun |- *.
  destruct (py_get "slots" (JArr []) venue) as [?|slots]; [discriminate|].
  destruct (py_iter slots) as [?|items]; [discriminate|].
  exact (replays_for_each rows0 w1 items _ (mono_check_slot wt s day)
           (replays_check_slot day) x y z Hx Hy Hrun Hz).
Qed.

Lemma keeps_one_record_check_venue (day : string) (venue : json) :
  none_booked_of (w_id wt) rows0 ->
  keeps_one_record rows0 w1 (w_id wt) (check_venue wt s day venue).
Proof.
  intros Hno x y Hx Hy Hrun Hone. unfold check_venue, bind, lift in Hrun.
  destruct (py_get "slots" (JArr []) venue) as [?|slots]; [discriminate|].
  destruct (py_iter slots) as [?|items]; [discriminate|].
  exact (keeps_one_record_for_each rows0 w1 (w_id wt) items _
           (mono_check_slot wt s day)
           (fun slot => keeps_one_record_check_slot day slot Hno)
           x y Hx Hy Hrun Hone).
Qed.

Lemma resy_find_run (venue day : string) (party : sqlval) (x : world) :
  resy_find venue day party s x =
    Ok (reply (calls x ++ [CallFind venue day party]) (resy_headers s)
          (ReqFind venue day party))
       {| store := store x; calls := calls x ++ [CallFind venue day party];
          clock := clock x |}.
Proof. reflexivity. Qed.

Lemma replays_check_day (current : Z) : replays rows0 w1 (check_day wt s current).
Proof.
  intros x y z Hx Hy Hrun Hz. unfold check_day in Hrun |- *.
  cbv zeta in Hrun |- *. unfold bind at 1 in Hrun. unfold bind at 1.
  rewrite resy_find_run in Hrun |- *.
  set (c := CallFind _ _ _) in *.
  rewrite (reply_find_same (calls z ++ [c]) (calls x ++ [c])).
  set (result := reply (calls x ++ _) _ _) in *.
  set (x' := {| store := store x; calls := _; clock := clock x |}) in *.
  set (z' := {| store := store z; calls := _; clock := clock z |}).
  unfold bind, lift in Hrun |- *.
  destruct (py_in "error" result) as [?|[|]]; [discriminate| |].
  - destruct (date_fromordinal (current + 1)); [discriminate|].
    exists z'. split; [reflexivity|exact Hz].
  - destruct (py_get "results" (JObj []) result) as [?|results]; [discriminate|].
    destruct (py_get "venues" (JArr []) results) as [?|venues]; [discriminate|].
    destruct (py_iter venues) as [?|items]; [discriminate|].
    destruct (for_each items _ x') as [[] y1|] eqn:Eloop; [|discriminate].
    destruct (date_fromordinal (current + 1)); [discriminate|].
    injection Hrun as <-.
    destruct (replays_for_each rows0 w1 items _
                (mono_check_venue wt s (date_isoformat current))
                (replays_check_venue (date_isoformat current))
                x' y1 z' Hx Hy Eloop Hz) as (z1 & -> & Hz1).
    eexists. split; [reflexivity|exact Hz1].
Qed.

Lemma keeps_one_record_check_day (current : Z) :
  none_booked_of (w_id wt) rows0 ->
  keeps_one_record rows0 w1 (w_id wt) (check_day wt s current).
Proof.
  intros Hno x y Hx Hy Hrun Hone. unfold check_day in Hrun.
  cbv zeta in Hrun. unfold bind at 1 in Hrun.
  rewrite resy_find_run in Hrun.
  set (result := reply (calls x ++ _) _ _) in *.
  set (x' := {| store := store x; calls := _; clock := clock x |}) in *.
  unfold bind, lift in Hrun.
  destruct (py_in "error" result) as [?|[|]]; [discriminate| |].
  - destruct (date_fromordinal (current + 1)); [discriminate|].
    injection Hrun as <-. exact Hone.
  - destruct (py_get "results" (JObj []) result) as [?|results]; [discriminate|].
    destruct (py_get "venues" (JArr []) results) as [?|venues]; [discriminate|].
    destruct (py_iter venues) as [?|items]; [discriminate|].
    destruct (for_each items _ x') as [[] y1|] eqn:Eloop; [|discriminate].
    destruct (date_fromordinal (current + 1)); [discriminate|].
    injection Hrun as <-.
    exact (keeps_one_record_for_each rows0 w1 (w_id wt) items _
             (mono_check_venue wt s (date_isoformat current))
             (fun v => keeps_one_record_check_venue (date_isoformat current)
                         v Hno)
             x' y1 Hx Hy Eloop Hone).
Qed.

Lemma kept_in_venue (day : string) (venue slots : json)
    (sitems : list json) (slot st : json) (x y : world) :
  grows rows0 (found_slots (store x)) ->
  grows (found_slots (store y)) rows1 ->
  check_venue wt s day venue x = Ok tt y ->
  py_get "slots" (JArr []) venue = inr slots ->
  py_iter slots = inr sitems -> In slot sitems ->
  kept wt slot st ->
  exists tv,
    sql_bind st = inr tv /\
    has_unbooked (w_id wt) day (text_affinity tv) rows1.
Proof.
  intros Hx Hy Hrun Hslots Hiter Hin Hkept.
  unfold check_venue, bind, lift in Hrun. rewrite Hslots, Hiter in Hrun.
  destruct (for_each_visits sitems _ slot x y (mono_check_slot wt s day)
              Hrun Hin) as (xa & ya & Hbody & H1 & H2).
  exact (kept_slot_recorded day slot st xa ya (grows_trans _ _ _ Hx H1)
           (grows_trans _ _ _ H2 Hy) Hbody Hkept).
Qed.

Lemma kept_in_day (d : Z) (h : list api_call) (slot st : json)
    (x y : world) :
  grows rows0 (found_slots (store x)) ->
  grows (found_slots (store y)) rows1 ->
  check_day wt s d x = Ok tt y ->
  offers (reply h (resy_headers s)
            (ReqFind (w_venue_id wt) (date_isoformat d) (w_party_size wt)))
    slot ->
  kept wt slot st ->
  exists tv,
    sql_bind st = inr tv /\
    has_unbooked (w_id wt) (date_isoformat d) (text_affinity tv) rows1.
Proof.
  intros Hx Hy Hrun Hoffers Hkept. unfold check_day in Hrun.
  cbv zeta in Hrun. unfold bind at 1 in Hrun.
  rewrite resy_find_run in Hrun.
  set (c := CallFind _ _ _) in *.
  rewrite (reply_find_same h (calls x ++ [c])) in Hoffers.
  set (result := reply (calls x ++ _) _ _) in *.
  set (x' := {| store := store x; calls := _; clock := clock x |}) in *.
  destruct Hoffers as (Herr & results & venues & vitems & venue & slots &
                       sitems & Hres & Hven & Hvit & Hvin & Hslots & Hsit &
                       Hsin).
  unfold bind, lift in Hrun. rewrite Herr, Hres, Hven, Hvit in Hrun.
  destruct (for_each vitems _ x') as [[] y1|] eqn:Eloop; [|discriminate].
  destruct (date_fromordinal (d + 1)); [discriminate|].
  injection Hrun as <-.
  destruct (for_each_visits vitems _ venue x' y1
              (mono_check_venue wt s (date_isoformat d)) Eloop Hvin)
    as (xa & ya & Hbody & H1 & H2).
  exact (kept_in_venue (date_isoformat d) venue slots sitems slot st xa ya
           (grows_trans _ _ _ Hx H1) (grows_trans _ _ _ H2 Hy) Hbody
           Hslots Hsit Hsin Hkept).
Qed.

(** Every slot the first scan was offered on a day of the range, and that
    the time check keeps, has an unbooked record in the ledger it left. *)
Lemma offered_slot_recorded (start end_ d : Z) (h : list api_call)
    (slot st : json) :
  check_watch wt s w0 = Ok tt w1 ->
  date_fromisoformat (w_date_start wt) = Some start ->
  date_fromisoformat (effective_date_end wt) = Some end_ ->
  start <= d <= end_ ->
  offers (reply h (resy_headers s)
            (ReqFind (w_venue_id wt) (date_isoformat d) (w_party_size wt)))
    slot ->
  kept wt slot st ->
  exists tv,
    sql_bind st = inr tv /\
    has_unbooked (w_id wt) (date_isoformat d) (text_affinity tv) rows1.
Proof.
  intros Hrun Hstart Hend Hd Hoffers Hkept.
  unfold check_watch, bind, lift, fromisoformat in Hrun.
  rewrite Hstart, Hend in Hrun.
  destruct (for_each _ _ w0) as [[] yf|] eqn:Eloop; [|discriminate].
  injection Hrun as Hw1.
  assert (Hrows : found_slots (store yf) = rows1)
    by (rewrite <- Hw1; reflexivity).
  assert (Hin : In d (seqZ start (end_ - start + 1))).
  { apply list_elem_of_In, elem_of_seqZ. lia. }
  destruct (for_each_visits _ _ d w0 yf (mono_check_day wt s) Eloop Hin)
    as (xa & ya & Hbody & H1 & H2).
  rewrite Hrows in H2.
  exact (kept_in_day d h slot st xa ya H1 H2 Hbody Hoffers Hkept).
Qed.

Lemma rescan :
  check_watch wt s w0 = Ok tt w1 ->
  exists w2,
    check_watch wt s w1 = Ok tt w2 /\
    found_slots (store w2) = found_slots (store w1) /\
    activity_log (store w2) = activity_log (store w1) /\
    (forall now, check_watch (set_last_checked now wt) s w1 =
                 check_watch wt s w1) /\
    (none_booked_of (w_id wt) rows0 ->
     one_record_per_slot (w_id wt) rows0 ->
     one_record_per_slot (w_id wt) (found_slots (store w2))).
Proof.
  intros Hrun.
  assert (Hmain : exists w2,
            check_watch wt s w1 = Ok tt w2 /\
            found_slots (store w2) = found_slots (store w1) /\
            activity_log (store w2) = activity_log (store w1) /\
            (none_booked_of (w_id wt) rows0 ->
             one_record_per_slot (w_id wt) rows0 ->
             one_record_per_slot (w_id wt) (found_slots (store w2)))).
  { unfold check_watch, bind, lift in Hrun |- *.
    destruct (fromisoformat (w_date_start wt)) as [?|start]; [discriminate|].
    destruct (fromisoformat (effective_date_end wt)) as [?|end_];
      [discriminate|].
    destruct (for_each _ _ w0) as [[] yf|] eqn:Eloop; [|discriminate].
    injection Hrun as Hw1.
    assert (Hrows : found_slots (store yf) = rows1)
      by (rewrite <- Hw1; reflexivity).
    assert (Hy : grows (found_slots (store yf)) rows1)
      by (rewrite Hrows; apply grows_refl).
    destruct (replays_for_each rows0 w1 _ _ (mono_check_day wt s)
                replays_check_day w0 yf w1 (grows_refl _) Hy Eloop eq_refl)
      as (z & -> & Hz).
    eexists. split; [reflexivity|].
    unfold touch_last_checked, with_store.
    cbn [store found_slots activity_log]. rewrite Hz.
    split; [reflexivity|split; [reflexivity|]].
    intros Hno Hone. rewrite <- Hrows.
    exact (keeps_one_record_for_each rows0 w1 (w_id wt) _ _
             (mono_check_day wt s)
             (fun d => keeps_one_record_check_day d Hno)
             w0 yf (grows_refl _) Hy Eloop Hone). }
  destruct Hmain as (w2 & H1 & H2 & H3 & H4). exists w2.
  split; [exact H1|split; [exact H2|split; [exact H3|split; [|exact H4]]]].
  intros now. reflexivity.
Qed.

End TwoScans.

(** C3, as the code has it. Let the scan of a watch return, having left the
    rows that were in the ledger as they were and every row it added
    unbooked and with a time (so no booking took effect during it), and let
    the remote service answer [find] requests the same way whenever asked.
    Then a second scan right after it returns as well, and inserts no row:
    the ledger and the activity log are those the first scan left (the watch
    row re-read with its new [last_checked] scans the same).  If moreover
    the records of the watch that the ledger held before the first scan were
    unbooked, and no two of them of the same (watch id, date, time), as when
    it held none, then no two rows of the ledger are records of the same
    (watch id, date, time) of the watch.  And every slot the service offers
    for a day of the range, and that the time check keeps, has a record in
    that ledger, unbooked, of the watch, the day and the start timestamp of
    the slot: exactly one, under the same condition on the ledger before
    the first scan. *)
Theorem second_scan_inserts_nothing (wt : watch) (s : settings)
    (w0 w1 : world) (more : list found_slot) :
  (forall h h' hd venue day party,
     remote h hd (ReqFind venue day party) =
     remote h' hd (ReqFind venue day party)) ->
  check_watch wt s w0 = Ok tt w1 ->
  found_slots (store w1) = found_slots (store w0) ++ more ->
  Forall (fun r => fs_booked r = 0 /\ fs_time r <> None) more ->
  exists w2,
    check_watch wt s w1 = Ok tt w2 /\
    found_slots (store w2) = found_slots (store w1) /\
    activity_log (store w2) = activity_log (store w1) /\
    (forall now, check_watch (set_last_checked now wt) s w1 =
                 check_watch wt s w1) /\
    (none_booked_of (w_id wt) (found_slots (store w0)) ->
     one_record_per_slot (w_id wt) (found_slots (store w0)) ->
     one_record_per_slot (w_id wt) (found_slots (store w2))) /\
    (forall start end_ d h slot st,
       date_fromisoformat (w_date_start wt) = Some start ->
       date_fromisoformat (effective_date_end wt) = Some end_ ->
       start <= d <= end_ ->
       offers (reply h (resy_headers s)
                 (ReqFind (w_venue_id wt) (date_isoformat d)
                    (w_party_size wt)))
         slot ->
       kept wt slot st ->
       exists tv i r,
         sql_bind st = inr tv /\
         found_slots (store w2) !! i = Some r /\
         same_slot (w_id wt) (date_isoformat d) (text_affinity tv) r /\
         fs_booked r = 0 /\
         (none_booked_of (w_id wt) (found_slots (store w0)) ->
          one_record_per_slot (w_id wt) (found_slots (store w0)) ->
          forall j r',
            found_slots (store w2) !! j = Some r' ->
            same_slot (w_id wt) (date_isoformat d) (text_affinity tv) r' ->
            j = i)).
Proof.
  intros Hsame Hrun Hadded Hnone.
  destruct (rescan wt s w0 w1 more Hsame Hadded Hnone Hrun)
    as (w2 & H1 & H2 & H3 & H4 & H5).
  exists w2.
  split; [exact H1|split; [exact H2|split; [exact H3|split; [exact H4|]]]].
  split; [exact H5|].
  intros start end_ d h slot st Hstart Hend Hd Hoffers Hkept.
  destruct (offered_slot_recorded wt s w0 w1 more Hsame Hadded Hnone
              start end_ d h slot st Hrun Hstart Hend Hd Hoffers Hkept)
    as (tv & Hb & r & Hin & Hslot & Hunbooked).
  apply list_elem_of_In, list_elem_of_lookup_1 in Hin as [i Hi].
  exists tv, i, r. rewrite H2.
  split; [exact Hb|split; [exact Hi|split; [exact Hslot|]]].
  split; [exact Hunbooked|].
  intros Hno Hone j r' Hj Hslot'. rewrite <- H2 in Hi, Hj.
  exact (one_record_unique _ _ _ _ i j r r' (H5 Hno Hone) Hi Hslot Hj Hslot').
Qed.

End Properties.

(** ** The scenarios, run *)

(** The time window of the specification: 19:30 is kept, 16:59 and 22:01 are
    discarded, 17:00 and 22:00 are kept. *)
Example window_examples :
  time_in_range (demo_watch 0) (JStr "2024-06-01 19:30:00") = inr true /\
  time_in_range (demo_watch 0) (JStr "2024-06-01 16:59:00") = inr false /\
  time_in_range (demo_watch 0) (JStr "2024-06-01 22:01:00") = inr false /\
  time_in_range (demo_watch 0) (JStr "2024-06-01 17:00:00") = inr true /\
  time_in_range (demo_watch 0) (JStr "2024-06-01 22:00:00") = inr true.
Proof. repeat split; reflexivity. Qed.

Lemma time_window_is_inclusive_witness :
  time_in_range (demo_watch 0) (JStr "2024-06-01 19:30:00") = inr true <->
  String.leb "17:00" (time_of_day "2024-06-01 19:30:00") = true /\
  String.leb (time_of_day "2024-06-01 19:30:00") "22:00" = true.
Proof.
  destruct (time_window_is_inclusive (env := demo_env [])
              (demo_watch 0) "2024-06-01 19:30:00" "17:00" "22:00"
              ltac:(discriminate) eq_refl ltac:(discriminate) eq_refl
              ltac:(discriminate)) as [H _].
  exact H.
Defined.

(** C5 fails on the code: a slot at 22:00 under the window 17:00-22:00 has a
    time of day equal to [latest] and is kept, not discarded. *)
Lemma latest_slot_is_kept :
  w_time_latest (demo_watch 0) = Some "22:00" /\
  time_of_day "2024-06-01 22:00:00" = "22:00" /\
  time_in_range (demo_watch 0) (JStr "2024-06-01 22:00:00") = inr true /\
  time_in_range (demo_watch 0) (JStr "2024-06-01 22:00:00") <> inr false.
Proof. repeat split; try reflexivity. discriminate. Qed.

Lemma upper_bound_is_inclusive_witness :
  time_in_range (demo_watch 0) (JStr "2024-06-01 22:00:00") = inr true.
Proof.
  destruct (upper_bound_is_inclusive (env := demo_env [])
              (demo_watch 0) "2024-06-01 22:00:00" "17:00" "22:00"
              ltac:(discriminate) eq_refl ltac:(discriminate) eq_refl
              ltac:(discriminate) eq_refl eq_refl) as [H _].
  exact H.
Defined.

Lemma no_window_no_time_check_witness :
  time_in_range (window_watch None (Some "22:00") 0)
    (JStr "2024-06-01 23:59:00") = inr true.
Proof.
  destruct (no_window_no_time_check (env := demo_env [])
              (window_watch None (Some "22:00") 0) "2024-06-01 23:59:00"
              (or_introl eq_refl)) as [H _].
  exact H.
Defined.

Lemma no_api_key_no_scan_witness :
  check_all_watches (env := demo_env [slot_19])
    (demo_world ∅ (demo_watch 1) []) =
  Ok tt (demo_world ∅ (demo_watch 1) []).
Proof.
  destruct (no_api_key_no_scan (env := demo_env [slot_19])
              (demo_world ∅ (demo_watch 1) [])
              ltac:(left; reflexivity))
    as [H _].
  exact H.
Defined.

Lemma booking_marks_matching_rows_witness :
  exists rows',
    try_snipe (env := demo_env [slot_19]) (demo_watch 1) (JStr "tok1")
      "2024-06-01" (JStr "2024-06-01 19:00:00") demo_settings
      (demo_world demo_settings (demo_watch 1) [seen_row 0; later_row]) =
    Ok tt
      (evolve (demo_world demo_settings (demo_watch 1) [seen_row 0; later_row])
         [event (demo_world demo_settings (demo_watch 1) []) 1 "snipe"
            (MsgSnipeAttempt (Some "Venue") "2024-06-01"
               (JStr "2024-06-01 19:00:00"));
          event (demo_world demo_settings (demo_watch 1) []) 1 "booked"
            (MsgBooked (Some "Venue") "2024-06-01"
               (JStr "2024-06-01 19:00:00"))]
         [CallDetails (JStr "tok1") "2024-06-01" (SInt 2);
          CallBook (JStr "bt1")]
         rows') /\
    Forall2 (fun r r' =>
               (same_slot 1 "2024-06-01" (Some "2024-06-01 19:00:00") r ->
                r' = set_booked r /\ fs_booked r' = 1) /\
               (~ same_slot 1 "2024-06-01" (Some "2024-06-01 19:00:00") r ->
                r' = r))
            [seen_row 0; later_row] rows'.
Proof.
  exact (booking_marks_matching_rows (env := demo_env [slot_19])
           (demo_watch 1) (JStr "tok1") "2024-06-01"
           (JStr "2024-06-01 19:00:00") demo_settings
           (demo_world demo_settings (demo_watch 1) [seen_row 0; later_row])
           (JStr "bt1") 42 (SText "2024-06-01 19:00:00")
           eq_refl eq_refl eq_refl eq_refl eq_refl eq_refl).
Defined.

(** C1 fails on the code: with snipe mode on and an auth token set, the
    19:00 slot that already has an unbooked record is offered again, and the
    scan makes the find call and nothing else: no [snipe] row, no details
    call. *)
Lemma seen_slot_is_not_sniped_again :
  let w := demo_world demo_settings (demo_watch 1) [seen_row 0] in
  sql_truthy (w_snipe_mode (demo_watch 1)) = true /\
  str_truthy (setting demo_settings "auth_token") = true /\
  has_unbooked 1 "2024-06-01" (Some "2024-06-01 19:00:00")
    (found_slots (store w)) /\
  exists w',
    check_watch (env := demo_env [slot_19]) (demo_watch 1) demo_settings w
      = Ok tt w' /\
    calls w' = [CallFind "v1" "2024-06-01" (SInt 2)] /\
    activity_log (store w') = [] /\
    found_slots (store w') = [seen_row 0].
Proof.
  cbv zeta. split; [reflexivity|split; [reflexivity|split]].
  - exists (seen_row 0). split; [left; reflexivity|].
    split; [|reflexivity]. repeat split. eauto.
  - eexists. split; [vm_compute; reflexivity|]. repeat split.
Qed.

Lemma seen_slot_is_not_sniped_witness :
  check_slot (env := demo_env [slot_19]) (demo_watch 1) demo_settings
    "2024-06-01" slot_19
    (demo_world demo_settings (demo_watch 1) [seen_row 0]) =
  Ok tt (demo_world demo_settings (demo_watch 1) [seen_row 0]).
Proof.
  apply (seen_slot_is_not_sniped (env := demo_env [slot_19]) (demo_watch 1)
           demo_settings "2024-06-01" slot_19 (JStr "2024-06-01 19:00:00")
           (JStr "tok1") (SText "2024-06-01 19:00:00") true).
  - reflexivity.
  - reflexivity.
  - reflexivity.
  - exists (seen_row 0). split; [left; reflexivity|].
    split; [|reflexivity]. repeat split. eauto.
Defined.

(** C9 fails on the code: the only record of the 19:00 slot is booked, snipe
    mode is on and an auth token is set, and the slot is offered without a
    config token: it is recorded and announced again, and not sniped. *)
Lemma bare_slot_is_not_sniped :
  let w := demo_world demo_settings (demo_watch 1) [seen_row 1] in
  sql_truthy (w_snipe_mode (demo_watch 1)) = true /\
  str_truthy (setting demo_settings "auth_token") = true /\
  exists w' row,
    check_watch (env := demo_env [slot_19_bare]) (demo_watch 1)
      demo_settings w = Ok tt w' /\
    found_slots (store w') = [seen_row 1; row] /\
    fs_time row = Some "2024-06-01 19:00:00" /\ fs_booked row = 0 /\
    map a_type (activity_log (store w')) = ["found"] /\
    calls w' = [CallFind "v1" "2024-06-01" (SInt 2)].
Proof.
  cbv zeta. split; [reflexivity|split; [reflexivity|]].
  eexists _, _. split; [vm_compute; reflexivity|]. repeat split.
Qed.

Lemma booked_slot_is_new_again_witness :
  exists events more rows,
    world_of (check_slot (env := demo_env [slot_19]) (demo_watch 1)
                demo_settings "2024-06-01" slot_19
                (demo_world demo_settings (demo_watch 1) [seen_row 1])) =
    evolve (demo_world demo_settings (demo_watch 1) [seen_row 1])
      (event (demo_world demo_settings (demo_watch 1) []) 1 "found"
         (MsgSlotFound (Some "Venue") "2024-06-01"
            (JStr "2024-06-01 19:00:00") (SInt 2)) ::
       event (demo_world demo_settings (demo_watch 1) []) 1 "snipe"
         (MsgSnipeAttempt (Some "Venue") "2024-06-01"
            (JStr "2024-06-01 19:00:00")) :: events)
      (CallDetails (JStr "tok1") "2024-06-01" (SInt 2) :: more) rows.
Proof.
  destruct (booked_slot_is_new_again (env := demo_env [slot_19])
              (demo_watch 1) demo_settings "2024-06-01" slot_19
              (JStr "2024-06-01 19:00:00") (JStr "tok1")
              (SText "2024-06-01 19:00:00") (SText "tok1")
              (demo_world demo_settings (demo_watch 1) [seen_row 1])
              eq_refl eq_refl eq_refl eq_refl) as (_ & H & _).
  - intros r [<-|[]] _. discriminate.
  - exact (H eq_refl).
Defined.

(** C3 fails on the code, in four ways.  With snipe mode on, the first
    scan records the 19:00 slot and books it, and the second scan, given the
    same answer, records it once more: the ledger holds two records of the
    same (watch id, date, time).  With a slot offered with a null start
    timestamp, which no lookup matches, each scan records it: again two
    records of the same (watch id, date, time).  With a payment method id
    that is not a number, the first scan records the 19:00 slot and raises
    in [resy_book]; the second scan, given the same answer, records the
    20:00 slot and raises in turn, so it has inserted a row, and the 21:00
    slot, offered and kept by the time check, has no record.  With a booked
    record of the 19:00 slot in the ledger and snipe mode off, the first scan
    records the slot beside it: two records of the same (watch id, date,
    time), though neither scan has booked. *)
Lemma second_scan_inserts_again :
  (let w0 := demo_world demo_settings (demo_watch 1) [] in
   exists w1 w2 r1 r2,
     check_watch (env := demo_env [slot_19]) (demo_watch 1) demo_settings w0
       = Ok tt w1 /\
     check_watch (env := demo_env [slot_19]) (demo_watch 1) demo_settings w1
       = Ok tt w2 /\
     found_slots (store w1) = [r1] /\
     found_slots (store w2) = [set_booked r1; r2] /\
     fs_watch_id r1 = fs_watch_id r2 /\ fs_date r1 = fs_date r2 /\
     fs_time r1 = fs_time r2 /\
     ~ one_record_per_slot 1 (found_slots (store w2))) /\
  (let w0 := demo_world demo_settings (demo_watch 0) [] in
   exists w1 w2 r1 r2,
     check_watch (env := demo_env [slot_null]) (demo_watch 0) demo_settings w0
       = Ok tt w1 /\
     check_watch (env := demo_env [slot_null]) (demo_watch 0) demo_settings w1
       = Ok tt w2 /\
     found_slots (store w1) = [r1] /\
     found_slots (store w2) = [r1; r2] /\
     fs_booked r1 = 0 /\ fs_time r1 = None /\
     fs_watch_id r1 = fs_watch_id r2 /\ fs_date r1 = fs_date r2 /\
     fs_time r1 = fs_time r2 /\
     ~ one_record_per_slot 1 (found_slots (store w2))) /\
  (let w0 := demo_world bad_payment_settings (demo_watch 1) [] in
   let slots := [slot_19; slot_at "2024-06-01 20:00:00" "tok2";
                 slot_at "2024-06-01 21:00:00" "tok3"] in
   exists w1 w2 r1 r2,
     check_watch (env := demo_env slots) (demo_watch 1) bad_payment_settings
       w0 = Raise ValueError w1 /\
     check_watch (env := demo_env slots) (demo_watch 1) bad_payment_settings
       w1 = Raise ValueError w2 /\
     found_slots (store w1) = [r1] /\
     found_slots (store w2) = [r1; r2] /\
     fs_booked r1 = 0 /\ fs_booked r2 = 0 /\
     fs_time r1 = Some "2024-06-01 19:00:00" /\
     fs_time r2 = Some "2024-06-01 20:00:00" /\
     kept (demo_watch 1) (slot_at "2024-06-01 21:00:00" "tok3")
       (JStr "2024-06-01 21:00:00") /\
     Forall (fun r => fs_time r <> Some "2024-06-01 21:00:00")
       (found_slots (store w2))) /\
  (let w0 := demo_world demo_settings (demo_watch 0) [seen_row 1] in
   exists w1 w2 r1,
     check_watch (env := demo_env [slot_19]) (demo_watch 0) demo_settings w0
       = Ok tt w1 /\
     check_watch (env := demo_env [slot_19]) (demo_watch 0) demo_settings w1
       = Ok tt w2 /\
     found_slots (store w1) = [seen_row 1; r1] /\
     found_slots (store w2) = [seen_row 1; r1] /\
     fs_booked r1 = 0 /\
     fs_watch_id r1 = fs_watch_id (seen_row 1) /\
     fs_date r1 = fs_date (seen_row 1) /\
     fs_time r1 = fs_time (seen_row 1) /\
     ~ one_record_per_slot 1 (found_slots (store w2))).
Proof.
  split; [|split; [|split]]; cbv zeta.
  - eexists _, _, _, _.
    split; [vm_compute; reflexivity|].
    split; [vm_compute; reflexivity|].
    split; [reflexivity|]. split; [reflexivity|].
    repeat split.
    intros H. specialize (H 0%nat 1%nat _ _ eq_refl eq_refl eq_refl eq_refl
                            eq_refl eq_refl).
    discriminate.
  - eexists _, _, _, _.
    split; [vm_compute; reflexivity|].
    split; [vm_compute; reflexivity|].
    split; [reflexivity|]. split; [reflexivity|].
    repeat split.
    intros H. specialize (H 0%nat 1%nat _ _ eq_refl eq_refl eq_refl eq_refl
                            eq_refl eq_refl).
    discriminate.
  - eexists _, _, _, _.
    split; [vm_compute; reflexivity|].
    split; [vm_compute; reflexivity|].
    split; [reflexivity|]. split; [reflexivity|].
    split; [reflexivity|]. split; [reflexivity|].
    split; [reflexivity|]. split; [reflexivity|].
    split.
    + eexists. split; [reflexivity|]. split; [reflexivity|].
      vm_compute. reflexivity.
    + repeat constructor; discriminate.
  - eexists _, _, _.
    split; [vm_compute; reflexivity|].
    split; [vm_compute; reflexivity|].
    split; [reflexivity|]. split; [reflexivity|].
    repeat split.
    intros H. specialize (H 0%nat 1%nat _ _ eq_refl eq_refl eq_refl eq_refl
                            eq_refl eq_refl).
    discriminate.
Qed.

Lemma second_scan_inserts_nothing_witness :
  exists w2 i r,
    check_watch (env := demo_env [slot_19]) (demo_watch 0) demo_settings
      (world_of (check_watch (env := demo_env [slot_19]) (demo_watch 0)
                   demo_settings
                   (demo_world demo_settings (demo_watch 0) [later_row])))
      = Ok tt w2 /\
    found_slots (store w2) =
      [later_row;
       found_row (demo_watch 0) "2024-06-01" (Some "2024-06-01 19:00:00")
         (Some "tok1") 1000] /\
    found_slots (store w2) !! i = Some r /\
    same_slot 1 "2024-06-01" (Some "2024-06-01 19:00:00") r /\
    fs_booked r = 0 /\
    forall j r',
      found_slots (store w2) !! j = Some r' ->
      same_slot 1 "2024-06-01" (Some "2024-06-01 19:00:00") r' ->
      j = i.
Proof.
  destruct (second_scan_inserts_nothing (env := demo_env [slot_19])
              (demo_watch 0) demo_settings
              (demo_world demo_settings (demo_watch 0) [later_row])
              (world_of (check_watch (env := demo_env [slot_19]) (demo_watch 0)
                           demo_settings
                           (demo_world demo_settings (demo_watch 0)
                              [later_row])))
              [found_row (demo_watch 0) "2024-06-01"
                 (Some "2024-06-01 19:00:00") (Some "tok1") 1000])
    as (w2 & H1 & H2 & _ & _ & _ & H6).
  - intros h h' hd venue day party. reflexivity.
  - vm_compute. reflexivity.
  - vm_compute. reflexivity.
  - repeat constructor. discriminate.
  - destruct (H6 (default 0 (iso_fromisoformat "2024-06-01"))
                 (default 0 (iso_fromisoformat "2024-06-01"))
                 (default 0 (iso_fromisoformat "2024-06-01"))
                 [] slot_19 (JStr "2024-06-01 19:00:00"))
      as (tv & i & r & Hb & Hi & Hs & Hu & Huniq).
    + vm_compute. reflexivity.
    + vm_compute. reflexivity.
    + vm_compute. split; discriminate.
    + split; [reflexivity|].
      exists (JObj [("venues", JArr [JObj [("slots", JArr [slot_19])]])]),
        (JArr [JObj [("slots", JArr [slot_19])]]),
        [JObj [("slots", JArr [slot_19])]],
        (JObj [("slots", JArr [slot_19])]),
        (JArr [slot_19]), [slot_19].
      repeat split; try reflexivity; left; reflexivity.
    + exists (JObj [("start", JStr "2024-06-01 19:00:00")]).
      split; [reflexivity|]. split; [reflexivity|]. vm_compute. reflexivity.
    + injection Hb as <-.
      exists w2, i, r. split; [exact H1|].
      split; [rewrite H2; vm_compute; reflexivity|].
      split; [exact Hi|]. split; [exact Hs|]. split; [exact Hu|].
      apply Huniq.
      * intros x [<-|[]] _. reflexivity.
      * intros a b x y Ha Hb' _ _ _ _.
        apply lookup_lt_Some in Ha, Hb'. cbn in Ha, Hb'. lia.
Defined.

(** The end-to-end scenario of the specification: snipe mode off, one slot
    at 19:00 with config token [tok1]: one row, unbooked, and one [found]
    event; a second identical scan adds nothing. *)
Example end_to_end_found :
  let w0 := demo_world demo_settings (demo_watch 0) [] in
  let row := found_row (demo_watch 0) "2024-06-01"
               (Some "2024-06-01 19:00:00") (Some "tok1") 1000 in
  exists w1 w2,
    check_watch (env := demo_env [slot_19]) (demo_watch 0) demo_settings w0
      = Ok tt w1 /\
    found_slots (store w1) = [row] /\
    map a_type (activity_log (store w1)) = ["found"] /\
    check_watch (env := demo_env [slot_19]) (demo_watch 0) demo_settings w1
      = Ok tt w2 /\
    found_slots (store w2) = [row] /\
    map a_type (activity_log (store w2)) = ["found"].
Proof.
  cbv zeta. eexists _, _.
  split; [vm_compute; reflexivity|]. split; [reflexivity|].
  split; [reflexivity|]. split; [vm_compute; reflexivity|].
  split; reflexivity.
Qed.

(** The end-to-end snipe scenario: snipe mode on, an auth token set, the
    details yield [bt1] and the booking succeeds: the row is booked and a
    [booked] event is logged. *)
Example end_to_end_snipe :
  let w0 := demo_world demo_settings (demo_watch 1) [] in
  exists w1,
    check_watch (env := demo_env [slot_19]) (demo_watch 1) demo_settings w0
      = Ok tt w1 /\
    map fs_booked (found_slots (store w1)) = [1] /\
    map a_type (activity_log (store w1)) = ["found"; "snipe"; "booked"] /\
    calls w1 = [CallFind "v1" "2024-06-01" (SInt 2);
                CallDetails (JStr "tok1") "2024-06-01" (SInt 2);
                CallBook (JStr "bt1")].
Proof.
  cbv zeta. eexists. split; [vm_compute; reflexivity|]. repeat split.
Qed.

(** A scan of two active watches, the first with a start date that does not
    parse: its failure is logged under its id, no request is made for it,
    and the second watch is scanned all the same: its slot is recorded. *)
Example failure_then_scan :
  let w0 :=
    {| store := {| settings_tbl := demo_settings;
                   watches := [broken_watch; demo_watch 0];
                   activity_log := []; found_slots := [] |};
       calls := []; clock := 1000 |} in
  exists w1,
    check_all_watches (env := demo_env [slot_19]) w0 = Ok tt w1 /\
    map (fun a => (a_watch_id a, a_type a, a_message a))
      (activity_log (store w1)) =
      [(Some 7, "error", MsgCheckError (Some "Broken") ValueError);
       (Some 1, "found",
        MsgSlotFound (Some "Venue") "2024-06-01"
          (JStr "2024-06-01 19:00:00") (SInt 2))] /\
    map fs_watch_id (found_slots (store w1)) = [1] /\
    calls w1 = [CallFind "v1" "2024-06-01" (SInt 2)].
Proof.
  cbv zeta. eexists. split; [vm_compute; reflexivity|]. repeat split.
Qed.

(** ** Further properties of the engine *)

Section Further.

Context {env : Environment}.

(** *** Lifting a relation on worlds through the loops *)

Lemma respects_ret (R : world -> world -> Prop) {A} (a : A) :
  (forall w, R w w) -> respects R (ret a).
Proof. intros Hrefl w. apply Hrefl. Qed.

Lemma respects_lift (R : world -> world -> Prop) {A} (r : res A) :
  (forall w, R w w) -> respects R (lift r).
Proof. intros Hrefl w. unfold lift. destruct r; apply Hrefl. Qed.

Lemma respects_bind (R : world -> world -> Prop) {A B} (m : M A)
    (k : A -> M B) :
  (forall a b c, R a b -> R b c -> R a c) ->
  respects R m -> (forall a, respects R (k a)) -> respects R (bind m k).
Proof.
  intros Htrans Hm Hk w. unfold bind. specialize (Hm w).
  destruct (m w) as [a w1|e w1]; [|exact Hm].
  exact (Htrans _ _ _ Hm (Hk a w1)).
Qed.

Lemma respects_for_each (R : world -> world -> Prop) {A} (xs : list A)
    (body : A -> M unit) :
  (forall w, R w w) ->
  (forall a b c, R a b -> R b c -> R a c) ->
  (forall x, In x xs -> respects R (body x)) ->
  respects R (for_each xs body).
Proof.
  intros Hrefl Htrans. induction xs as [|x xs IH]; intros Hbody; simpl.
  - apply respects_ret. exact Hrefl.
  - apply respects_bind; [exact Htrans|apply Hbody; left; reflexivity|].
    intros _. apply IH. intros y Hy. apply Hbody. right. exact Hy.
Qed.

Lemma respects_try_except (R : world -> world -> Prop) {A} (m : M A)
    (h : exn -> M A) :
  (forall a b c, R a b -> R b c -> R a c) ->
  respects R m -> (forall e, respects R (h e)) ->
  respects R (try_except m h).
Proof.
  intros Htrans Hm Hh w. unfold try_except. specialize (Hm w).
  destruct (m w) as [a w1|e w1]; [exact Hm|].
  exact (Htrans _ _ _ Hm (Hh e w1)).
Qed.

(** Where an iteration of the slot loop leaves the world: where it was, or
    with the slot recorded, or there and after [try_snipe]. *)
Lemma check_slot_world (wt : watch) (s : settings) (day : string)
    (slot : json) (w : world) :
  world_of (check_slot wt s day slot w) = w \/
  exists st tok tv cv,
    sql_bind st = inr tv /\ sql_bind tok = inr cv /\
    (world_of (check_slot wt s day slot w) = recorded wt day st tv cv w \/
     world_of (check_slot wt s day slot w) =
       world_of (try_snipe wt tok day st s (recorded wt day st tv cv w))).
Proof.
  destruct (slot_fields slot) as [e|[st tok]] eqn:Hf.
  - left. unfold slot_fields, rbind in Hf.
    unfold check_slot, record_slot, bind, lift.
    destruct (py_get "date" _ slot) as [?|slot_date]; [reflexivity|].
    destruct (py_get "start" _ slot_date) as [?|st]; [reflexivity|].
    destruct (time_in_range wt st) as [?|[|]]; [reflexivity| |reflexivity].
    destruct (py_get "config" _ slot) as [?|config]; [reflexivity|].
    destruct (py_get "token" _ config) as [?|tok]; [reflexivity|].
    discriminate.
  - rewrite (check_slot_run wt s day slot st tok w Hf). cbv zeta.
    destruct (time_in_range wt st) as [?|[|]]; [left; reflexivity|
                                                |left; reflexivity].
    destruct (sql_bind st) as [?|tv] eqn:Hst; [left; reflexivity|].
    destruct (existsb _ _); [left; reflexivity|].
    destruct (sql_bind tok) as [?|cv] eqn:Htok; [left; reflexivity|].
    right. exists st, tok, tv, cv. fold (recorded wt day st tv cv w).
    split; [exact Hst|split; [exact Htok|]].
    destruct (snipe_wanted wt tok s); [right|left]; reflexivity.
Qed.

Lemma snipe_after_record (R : world -> world -> Prop) (wt : watch)
    (s : settings) :
  (forall a b c, R a b -> R b c -> R a c) ->
  (forall day st tv cv w, R w (recorded wt day st tv cv w)) ->
  (forall tok day time, respects R (try_snipe wt tok day time s)) ->
  forall tok day st tv cv w,
    sql_bind tok = inr cv ->
    R w (world_of (try_snipe wt tok day st s (recorded wt day st tv cv w))).
Proof.
  intros Htrans Hrec Hsnipe tok day st tv cv w _.
  exact (Htrans _ _ _ (Hrec day st tv cv w) (Hsnipe _ _ _ _)).
Qed.

Section Lifting.

Variable R : world -> world -> Prop.
Variables (wt : watch) (s : settings).

Hypothesis R_refl : forall w, R w w.
Hypothesis R_trans : forall a b c, R a b -> R b c -> R a c.
Hypothesis R_recorded :
  forall day st tv cv w, R w (recorded wt day st tv cv w).
Hypothesis R_snipe :
  forall tok day st tv cv w,
    sql_bind tok = inr cv ->
    R w (world_of (try_snipe wt tok day st s (recorded wt day st tv cv w))).

Lemma respects_check_slot (day : string) (slot : json) :
  respects R (check_slot wt s day slot).
Proof.
  intros w.
  destruct (check_slot_world wt s day slot w)
    as [->|(st & tok & tv & cv & _ & Htok & [->| ->])].
  - apply R_refl.
  - apply R_recorded.
  - apply R_snipe. exact Htok.
Qed.

Lemma respects_check_venue (day : string) (venue : json) :
  respects R (check_venue wt s day venue).
Proof.
  unfold check_venue.
  apply respects_bind; [exact R_trans|apply respects_lift; exact R_refl|].
  intros slots.
  apply respects_bind; [exact R_trans|apply respects_lift; exact R_refl|].
  intros items. apply respects_for_each; [exact R_refl|exact R_trans|].
  intros slot _. apply respects_check_slot.
Qed.

Lemma respects_venues (day : string) (items : list json) :
  respects R (for_each items (check_venue wt s day)).
Proof.
  apply respects_for_each; [exact R_refl|exact R_trans|].
  intros venue _. apply respects_check_venue.
Qed.

Hypothesis R_find :
  forall day,
    respects R (invoke (CallFind (w_venue_id wt) day (w_party_size wt))).
Hypothesis R_sleep : respects R (sleep 1).

Lemma respects_check_day (current : Z) : respects R (check_day wt s current).
Proof.
  unfold check_day, resy_find. cbv zeta.
  apply respects_bind; [exact R_trans| |intros result].
  { apply respects_bind; [exact R_trans|apply R_find|intros _].
    intros w. apply R_refl. }
  apply respects_bind; [exact R_trans|apply respects_lift; exact R_refl|].
  intros [|].
  - apply respects_bind; [exact R_trans|apply respects_lift; exact R_refl|].
    intros _. apply respects_ret. exact R_refl.
  - apply respects_bind; [exact R_trans|apply respects_lift; exact R_refl|].
    intros results.
    apply respects_bind; [exact R_trans|apply respects_lift; exact R_refl|].
    intros venues.
    apply respects_bind; [exact R_trans|apply respects_lift; exact R_refl|].
    intros items.
    apply respects_bind; [exact R_trans|apply respects_venues|intros _].
    apply respects_bind; [exact R_trans|apply respects_lift; exact R_refl|].
    intros _. exact R_sleep.
Qed.

Lemma respects_days (days : list Z) :
  respects R (for_each days (check_day wt s)).
Proof.
  apply respects_for_each; [exact R_refl|exact R_trans|].
  intros d _. apply respects_check_day.
Qed.

Hypothesis R_touch : respects R (touch_last_checked (w_id wt)).

Lemma respects_check_watch : respects R (check_watch wt s).
Proof.
  unfold check_watch.
  apply respects_bind; [exact R_trans|apply respects_lift; exact R_refl|].
  intros start.
  apply respects_bind; [exact R_trans|apply respects_lift; exact R_refl|].
  intros end_.
  apply respects_bind; [exact R_trans|apply respects_days|intros _].
  exact R_touch.
Qed.

Hypothesis R_error :
  forall e,
    respects R (log_activity (Some (w_id wt)) "error"
                  (MsgCheckError (w_venue_name wt) e)).

Lemma respects_guarded_check_watch : respects R (guarded_check_watch s wt).
Proof.
  unfold guarded_check_watch.
  apply respects_try_except;
    [exact R_trans|exact respects_check_watch|exact R_error].
Qed.

End Lifting.

(** *** What a scan may touch *)

Lemma stamped_or_same_refl (P : Z -> Prop) (l : list watch) :
  Forall2 (stamped_or_same P) l l.
Proof. induction l; constructor; [left; reflexivity|assumption]. Qed.

Lemma stamped_or_same_trans (P : Z -> Prop) (a b c : list watch) :
  Forall2 (stamped_or_same P) a b -> Forall2 (stamped_or_same P) b c ->
  Forall2 (stamped_or_same P) a c.
Proof.
  apply Forall2_trans. intros x y z [->|(Hp & now & ->)] Hyz;
    [exact Hyz|].
  destruct Hyz as [->|(_ & now' & ->)]; right; split; eauto.
Qed.

Lemma engine_step_refl (active : list watch) (w : world) :
  engine_step active w w.
Proof.
  repeat split.
  - apply stamped_or_same_refl.
  - exists []. symmetry. apply app_nil_r.
  - apply grows_refl.
  - exists []. split; [symmetry; apply app_nil_r|constructor].
  - lia.
Qed.

Lemma engine_step_trans (active : list watch) (a b c : world) :
  engine_step active a b -> engine_step active b c -> engine_step active a c.
Proof.
  intros (H1 & H2 & (e1 & H3) & H4 & (c1 & H5 & H5') & H6)
         (K1 & K2 & (e2 & K3) & K4 & (c2 & K5 & K5') & K6).
  repeat split.
  - congruence.
  - eapply stamped_or_same_trans; eassumption.
  - exists (e1 ++ e2). rewrite K3, H3, app_assoc. reflexivity.
  - eapply grows_trans; eassumption.
  - exists (c1 ++ c2). split; [rewrite K5, H5, app_assoc; reflexivity|].
    apply Forall_app. split; assumption.
  - lia.
Qed.

Lemma engine_step_evolve (active : list watch) (w : world)
    (events : list activity) (cs : list api_call) (rows : list found_slot) :
  grows (found_slots (store w)) rows ->
  Forall (allowed_call active) cs ->
  engine_step active w (evolve w events cs rows).
Proof.
  intros Hg Hc. unfold evolve. repeat split; cbn.
  - apply stamped_or_same_refl.
  - eexists. reflexivity.
  - exact Hg.
  - eexists. split; [reflexivity|exact Hc].
  - lia.
Qed.

(** Every way [try_snipe] can end, as a world [evolve w events cs rows]. *)
Lemma try_snipe_world (wt : watch) (tok : json) (day : string) (time : json)
    (s : settings) (w : world) :
  exists events cs rows,
    world_of (try_snipe wt tok day time s w) = evolve w events cs rows /\
    (rows = found_slots (store w) \/
     exists t, rows = mark_rows (w_id wt) day t (found_slots (store w))) /\
    Forall (fun c => is_find c = false) cs.
Proof.
  rewrite try_snipe_run. cbv zeta.
  destruct (py_in "error" _) as [?|[|]].
  1: eexists _, _, _; split; [reflexivity|split; [left; reflexivity|]];
     repeat constructor.
  - destruct (py_subscript _ _);
      (eexists _, _, _; split; [reflexivity|split; [left; reflexivity|]];
       repeat constructor).
  - destruct (extracted_book_token _) as [?|bt].
    1: eexists _, _, _; split; [reflexivity|split; [left; reflexivity|]];
       repeat constructor.
    destruct (py_truthy bt); cbn [negb].
    2: eexists _, _, _; split; [reflexivity|split; [left; reflexivity|]];
       repeat constructor.
    destruct (payment_method_id _).
    1: eexists _, _, _; split; [reflexivity|split; [left; reflexivity|]];
       repeat constructor.
    destruct (py_in "error" _) as [?|[|]].
    1: eexists _, _, _; split; [reflexivity|split; [left; reflexivity|]];
       repeat constructor.
    + destruct (py_subscript _ _);
        (eexists _, _, _; split; [reflexivity|split; [left; reflexivity|]];
         repeat constructor).
    + destruct (sql_bind time).
      * eexists _, _, _; split; [reflexivity|split; [left; reflexivity|]];
          repeat constructor.
      * eexists _, _, _; split; [reflexivity|split; [right; eauto|]];
          repeat constructor.
Qed.

Lemma allowed_not_find (active : list watch) (cs : list api_call) :
  Forall (fun c => is_find c = false) cs -> Forall (allowed_call active) cs.
Proof.
  intros H. eapply Forall_impl; [exact H|].
  intros [] Hc; try exact I. discriminate.
Qed.

Lemma other_rows_app (id : Z) (a b : list found_slot) :
  other_rows id (a ++ b) = other_rows id a ++ other_rows id b.
Proof. apply List.filter_app. Qed.

Lemma other_rows_mark (id : Z) (day : string) (t : option string)
    (rows : list found_slot) :
  other_rows id (mark_rows id day t rows) = other_rows id rows.
Proof.
  unfold other_rows, mark_rows. induction rows as [|r rows IH]; [reflexivity|].
  simpl. rewrite IH.
  destruct (slot_key_matches id day t r) eqn:E; [|reflexivity].
  apply slot_key_matches_spec in E as [E _]. simpl.
  rewrite E, Z.eqb_refl. reflexivity.
Qed.

Section OneWatch.

Variables (active : list watch) (wt : watch) (s : settings).
Hypothesis wt_active : In wt active.

Lemma engine_step_try_snipe (tok : json) (day : string) (time : json) :
  respects (engine_step active) (try_snipe wt tok day time s).
Proof.
  intros w.
  destruct (try_snipe_world wt tok day time s w)
    as (events & cs & rows & -> & Hrows & Hcs).
  apply engine_step_evolve.
  - destruct Hrows as [->|[t ->]]; [apply grows_refl|apply grows_mark].
  - apply allowed_not_find. exact Hcs.
Qed.

Lemma engine_step_check_watch :
  respects (engine_step active) (check_watch wt s).
Proof.
  apply respects_check_watch.
  - apply engine_step_refl.
  - apply engine_step_trans.
  - intros day st tv cv w. apply engine_step_evolve;
      [apply grows_app|constructor].
  - apply snipe_after_record;
      [apply engine_step_trans| |apply engine_step_try_snipe].
    intros day st tv cv w. apply engine_step_evolve;
      [apply grows_app|constructor].
  - intros day w. unfold invoke. repeat split; cbn.
    + apply stamped_or_same_refl.
    + exists []. symmetry. apply app_nil_r.
    + apply grows_refl.
    + eexists. split; [reflexivity|]. repeat constructor.
      exists wt. auto.
    + lia.
  - intros w. unfold sleep. repeat split; cbn.
    + apply stamped_or_same_refl.
    + exists []. symmetry. apply app_nil_r.
    + apply grows_refl.
    + exists []. split; [symmetry; apply app_nil_r|constructor].
    + lia.
  - intros w. unfold touch_last_checked, with_store. repeat split; cbn.
    + induction (watches (store w)) as [|a l IH]; constructor; [|exact IH].
      destruct (w_id a =? w_id wt) eqn:E; [right|left; reflexivity].
      apply Z.eqb_eq in E. split; [exists wt; auto|eauto].
    + exists []. symmetry. apply app_nil_r.
    + apply grows_refl.
    + exists []. split; [symmetry; apply app_nil_r|constructor].
    + lia.
Qed.

Lemma engine_step_guarded :
  respects (engine_step active) (guarded_check_watch s wt).
Proof.
  unfold guarded_check_watch. apply respects_try_except.
  - apply engine_step_trans.
  - apply engine_step_check_watch.
  - intros e w. rewrite log_activity_evolve. apply engine_step_evolve;
      [apply grows_refl|constructor].
Qed.

End OneWatch.

(** X1. Whatever it meets, the scan of all active watches only adds to what
    is stored: the settings are as before; every row of [watches] is as it
    was or differs in [last_checked] alone, and then it carries the id of an
    active watch; the activity log and the list of client calls are the
    former ones with something appended, and every [find] call is for the
    venue and party size of an active watch; every row of the ledger is in
    its place, as it was or with [booked] set; the clock has not gone
    back. *)
Theorem scan_only_adds (w : world) :
  let active := filter (fun wt => w_active wt = SInt 1) (watches (store w)) in
  let w' := world_of (check_all_watches w) in
  settings_tbl (store w') = settings_tbl (store w) /\
  Forall2 (fun a b =>
             b = a \/
             ((exists wt, In wt active /\ w_id wt = w_id a) /\
              exists now, b = set_last_checked now a))
          (watches (store w)) (watches (store w')) /\
  (exists events,
     activity_log (store w') = activity_log (store w) ++ events) /\
  (forall i r, found_slots (store w) !! i = Some r ->
               found_slots (store w') !! i = Some r \/
               found_slots (store w') !! i = Some (set_booked r)) /\
  (exists cs,
     calls w' = calls w ++ cs /\
     forall venue day party,
       In (CallFind venue day party) cs ->
       exists wt, In wt active /\ venue = w_venue_id wt /\
                  party = w_party_size wt) /\
  clock w <= clock w'.
Proof.
  intros active w'.
  assert (H : engine_step active w w').
  { subst w'. unfold check_all_watches, bind, select_active_watches,
      get_settings. fold active.
    destruct (negb _); [apply engine_step_refl|].
    apply respects_for_each;
      [apply engine_step_refl|apply engine_step_trans|].
    intros wt Hin. apply engine_step_guarded. exact Hin. }
  destruct H as (H1 & H2 & H3 & H4 & (cs & H5 & H5') & H6).
  split; [exact H1|split; [exact H2|split; [exact H3|split; [exact H4|]]]].
  split; [|exact H6].
  exists cs. split; [exact H5|]. intros venue day party Hin.
  rewrite Forall_forall in H5'.
  exact (H5' _ (proj2 (list_elem_of_In _ _) Hin)).
Qed.

Lemma other_rows_kept_try_snipe (wt : watch) (s : settings) (tok : json)
    (day : string) (time : json) :
  respects (other_rows_kept (w_id wt)) (try_snipe wt tok day time s).
Proof.
  intros w. unfold other_rows_kept.
  destruct (try_snipe_world wt tok day time s w)
    as (events & cs & rows & -> & [->|[t ->]] & _); cbn;
    [reflexivity|apply other_rows_mark].
Qed.

Lemma other_rows_kept_check_watch (wt : watch) (s : settings) :
  respects (other_rows_kept (w_id wt)) (check_watch wt s).
Proof.
  apply respects_check_watch; unfold other_rows_kept.
  - reflexivity.
  - intros a b c H1 H2. congruence.
  - intros day st tv cv w. unfold recorded, evolve.
    cbn [store found_slots]. rewrite other_rows_app.
    unfold other_rows at 2, found_row. cbn. rewrite Z.eqb_refl. cbn.
    apply app_nil_r.
  - apply (snipe_after_record (other_rows_kept (w_id wt)));
      [unfold other_rows_kept; intros; congruence|
      |apply other_rows_kept_try_snipe].
    intros day st tv cv w. unfold other_rows_kept, recorded, evolve.
    cbn [store found_slots]. rewrite other_rows_app.
    unfold other_rows at 2, found_row. cbn. rewrite Z.eqb_refl. cbn.
    apply app_nil_r.
  - intros day w. reflexivity.
  - intros w. reflexivity.
  - intros w. reflexivity.
Qed.

(** X2. The scan of one watch keeps to its own records, whatever its
    outcome: the rows of the ledger that are records of other watches are
    the same rows in the same order (none added, none booked), and a row of
    [watches] with another id is as it was, one with its id at most stamped
    with a new [last_checked]. *)
Theorem scan_keeps_to_its_watch (wt : watch) (s : settings) (w : world) :
  let w' := world_of (check_watch wt s w) in
  other_rows (w_id wt) (found_slots (store w')) =
    other_rows (w_id wt) (found_slots (store w)) /\
  Forall2 (fun a b =>
             b = a \/
             (w_id a = w_id wt /\ exists now, b = set_last_checked now a))
          (watches (store w)) (watches (store w')).
Proof.
  intros w'. split.
  - exact (other_rows_kept_check_watch wt s w).
  - destruct (engine_step_check_watch [wt] wt s (or_introl eq_refl) w)
      as (_ & H & _).
    eapply Forall2_impl; [exact H|].
    intros a b [->|((wt' & [<-|[]] & Hid) & Hnow)]; [left; reflexivity|].
    right. split; [symmetry; exact Hid|exact Hnow].
Qed.

Lemma watches_kept_try_snipe (wt : watch) (s : settings) (tok : json)
    (day : string) (time : json) :
  respects watches_kept (try_snipe wt tok day time s).
Proof.
  intros w. unfold watches_kept.
  destruct (try_snipe_world wt tok day time s w)
    as (events & cs & rows & -> & _). cbn. split; [reflexivity|lia].
Qed.

Lemma watches_kept_days (wt : watch) (s : settings) (days : list Z) :
  respects watches_kept (for_each days (check_day wt s)).
Proof.
  apply respects_days; unfold watches_kept.
  - intros w. split; [reflexivity|lia].
  - intros a b c [H1 H2] [H3 H4]. split; [congruence|lia].
  - intros day st tv cv w. cbn. split; [reflexivity|lia].
  - apply (snipe_after_record watches_kept);
      [unfold watches_kept; intros a b c [H1 H2] [H3 H4];
       split; [congruence|lia]
      |unfold watches_kept; intros; cbn; split; [reflexivity|lia]
      |apply watches_kept_try_snipe].
  - intros day w. cbn. split; [reflexivity|lia].
  - intros w. cbn. split; [reflexivity|lia].
Qed.

(** X3. A scan of a watch that returns has stamped the rows of [watches]
    that carry its id, and those only, with the time at which it ended, which
    is not before the time it began: every other column and every other row
    is as before. *)
Theorem returning_scan_stamps_its_watch (wt : watch) (s : settings)
    (w w' : world) :
  check_watch wt s w = Ok tt w' ->
  watches (store w') =
    map (fun a => if w_id a =? w_id wt then set_last_checked (clock w') a
                  else a)
        (watches (store w)) /\
  clock w <= clock w'.
Proof.
  unfold check_watch, bind, lift.
  destruct (fromisoformat (w_date_start wt)) as [?|start]; [discriminate|].
  destruct (fromisoformat (effective_date_end wt)) as [?|end_];
    [discriminate|].
  pose proof (watches_kept_days wt s (seqZ start (end_ - start + 1)) w) as H.
  destruct (for_each _ _ w) as [[] w1|]; [|discriminate].
  destruct H as [H1 H2]. cbn in H1, H2.
  unfold touch_last_checked, with_store. intros [= <-]. cbn.
  rewrite H1. split; [reflexivity|exact H2].
Qed.

(** *** The [find] calls of a scan *)

Lemma world_of_bind {A B} (m : M A) (k : A -> M B) (w w1 : world) (a : A) :
  m w = Ok a w1 -> world_of (bind m k w) = world_of (k a w1).
Proof. intros H. unfold bind. rewrite H. reflexivity. Qed.

Lemma filter_no_find (cs : list api_call) :
  Forall (fun c => is_find c = false) cs -> List.filter is_find cs = [].
Proof.
  induction 1 as [|c cs Hc _ IH]; [reflexivity|]. simpl. rewrite Hc. exact IH.
Qed.

Lemma finds_kept_venues (wt : watch) (s : settings) (day : string)
    (items : list json) :
  respects finds_kept (for_each items (check_venue wt s day)).
Proof.
  apply respects_venues; unfold finds_kept, find_calls.
  - reflexivity.
  - intros a b c H1 H2. congruence.
  - intros d st tv cv w. cbn. rewrite app_nil_r. reflexivity.
  - intros tok d st tv cv w _.
    destruct (try_snipe_world wt tok d st s (recorded wt d st tv cv w))
      as (events & cs & rows & -> & _ & Hcs). cbn.
    rewrite app_nil_r, List.filter_app, (filter_no_find cs Hcs).
    apply app_nil_r.
Qed.

(** An iteration of the day loop makes one [find] call, that of its day,
    whatever else it does and however it ends. *)
Lemma check_day_find_calls (wt : watch) (s : settings) (d : Z) (w : world) :
  find_calls (world_of (check_day wt s d w)) =
    find_calls w ++ [find_call_of date_isoformat wt d].
Proof.
  unfold check_day. cbv zeta.
  rewrite (world_of_bind _ _ _ _ _ (resy_find_run s _ _ _ w)).
  set (w1 := {| store := store w; calls := _; clock := clock w |}).
  assert (H1 : find_calls w1 = find_calls w ++ [find_call_of date_isoformat wt d]).
  { unfold find_calls, w1. cbn [calls]. rewrite List.filter_app. reflexivity. }
  rewrite <- H1. generalize w1. clear w1 H1.
  assert (Hrefl : forall x, finds_kept x x) by reflexivity.
  assert (Htrans : forall a b c, finds_kept a b -> finds_kept b c ->
                                 finds_kept a c)
    by (unfold finds_kept; intros; congruence).
  apply (respects_bind finds_kept); [exact Htrans|
                                     apply respects_lift; exact Hrefl|].
  intros [|].
  - apply respects_bind; [exact Htrans|apply respects_lift; exact Hrefl|].
    intros _. apply respects_ret. exact Hrefl.
  - apply respects_bind; [exact Htrans|apply respects_lift; exact Hrefl|].
    intros results.
    apply respects_bind; [exact Htrans|apply respects_lift; exact Hrefl|].
    intros venues.
    apply respects_bind; [exact Htrans|apply respects_lift; exact Hrefl|].
    intros items.
    apply respects_bind; [exact Htrans|apply finds_kept_venues|intros _].
    apply respects_bind; [exact Htrans|apply respects_lift; exact Hrefl|].
    intros _ x. reflexivity.
Qed.

Lemma days_find_calls (wt : watch) (s : settings) (days : list Z) (w : world) :
  exists k,
    (k <= length days)%nat /\
    find_calls (world_of (for_each days (check_day wt s) w)) =
      find_calls w ++ map (find_call_of date_isoformat wt) (take k days) /\
    (forall w', for_each days (check_day wt s) w = Ok tt w' ->
                k = length days).
Proof.
  revert w. induction days as [|d days IH]; intros w.
  - exists 0%nat. split; [reflexivity|]. split; [|reflexivity].
    cbn. symmetry. apply app_nil_r.
  - simpl. unfold bind.
    pose proof (check_day_find_calls wt s d w) as Hd.
    destruct (check_day wt s d w) as [[] w1|e w1]; cbn [world_of] in Hd.
    + destruct (IH w1) as (k & Hk & Hcalls & Hok).
      exists (S k). split; [cbn; lia|]. split.
      * rewrite Hcalls, Hd, <- app_assoc. reflexivity.
      * intros w' Hrun. cbn. f_equal. exact (Hok w' Hrun).
    + exists 1%nat. split; [cbn; lia|]. split; [exact Hd|discriminate].
Qed.

(** X4. A scan asks for the days of its range in ascending order, one [find]
    call per day, without gap or repetition: the [find] calls it has made
    when it ends, however it ends, are those of the first [k] days of
    [start], ..., [end], and a scan that returns has asked for them all. *)
Theorem scan_asks_each_day_once (wt : watch) (s : settings) (w : world)
    (start end_ : Z) :
  date_fromisoformat (w_date_start wt) = Some start ->
  date_fromisoformat (effective_date_end wt) = Some end_ ->
  let days := seqZ start (end_ - start + 1) in
  exists k,
    (k <= length days)%nat /\
    find_calls (world_of (check_watch wt s w)) =
      find_calls w ++ map (find_call_of date_isoformat wt) (take k days) /\
    (forall w', check_watch wt s w = Ok tt w' -> k = length days).
Proof.
  intros Hs He days. unfold check_watch, bind, lift, fromisoformat.
  rewrite Hs, He. fold days.
  destruct (days_find_calls wt s days w) as (k & Hk & Hcalls & Hok).
  exists k. split; [exact Hk|].
  destruct (for_each days (check_day wt s) w) as [[] w1|e w1].
  - split; [exact Hcalls|]. intros w' _. exact (Hok w1 eq_refl).
  - split; [exact Hcalls|discriminate].
Qed.

(** *** The last day of the calendar *)

Lemma for_each_raises {A} (body : A -> M unit) (xs : list A) (x : A) :
  In x xs ->
  (forall w, exists e w', body x w = Raise e w') ->
  forall w, exists e w', for_each xs body w = Raise e w'.
Proof.
  intros Hin Hx. induction xs as [|y xs IH]; [destruct Hin|].
  intros w. simpl. unfold bind.
  destruct (body y w) as [[] w1|e w1] eqn:E; [|eauto].
  destruct Hin as [->|Hin]; [|exact (IH Hin w1)].
  destruct (Hx w) as (e & w' & H). congruence.
Qed.

Lemma check_day_max_raises (wt : watch) (s : settings) (w : world) :
  exists e w', check_day wt s max_ordinal w = Raise e w'.
Proof.
  unfold check_day. cbv zeta. unfold bind at 1. rewrite resy_find_run.
  unfold bind, lift.
  change (date_fromordinal (max_ordinal + 1)) with (@inl exn Z ValueError).
  destruct (py_in "error" _) as [?|[|]]; [eauto|eauto|].
  destruct (py_get "results" _ _) as [?|results]; [eauto|].
  destruct (py_get "venues" _ results) as [?|venues]; [eauto|].
  destruct (py_iter venues) as [?|items]; [eauto|].
  destruct (for_each items _ _) as [[] w1|e w1]; eauto.
Qed.

(** X5. A watch whose range ends on 9999-12-31 can never be scanned to the
    end: stepping past the last day of the calendar raises, so the scan
    raises, the table [watches] is as before ([last_checked] is not set), and
    [check_all_watches] turns the exception into an [error] event of the
    watch. *)
Theorem range_to_last_day_never_completes (wt : watch) (s : settings)
    (w : world) (start : Z) :
  date_fromisoformat (w_date_start wt) = Some start ->
  date_fromisoformat (effective_date_end wt) = Some max_ordinal ->
  start <= max_ordinal ->
  exists e w1,
    check_watch wt s w = Raise e w1 /\
    watches (store w1) = watches (store w) /\
    guarded_check_watch s wt w =
      Ok tt (evolve w1 [event w1 (w_id wt) "error"
                          (MsgCheckError (w_venue_name wt) e)]
               [] (found_slots (store w1))).
Proof.
  intros Hs He Hle.
  assert (Hraise : exists e w1, check_watch wt s w = Raise e w1 /\
                                watches (store w1) = watches (store w)).
  { unfold check_watch, bind, lift, fromisoformat. rewrite Hs, He.
    pose proof (watches_kept_days wt s
                  (seqZ start (max_ordinal - start + 1)) w) as [Hk _].
    destruct (for_each_raises (check_day wt s)
                (seqZ start (max_ordinal - start + 1)) max_ordinal)
      with (w := w) as (e & w1 & Hrun).
    - apply list_elem_of_In, elem_of_seqZ. lia.
    - apply check_day_max_raises.
    - rewrite Hrun in Hk |- *. eauto. }
  destruct Hraise as (e & w1 & Hrun & Hk). exists e, w1.
  split; [exact Hrun|split; [exact Hk|]].
  unfold guarded_check_watch, try_except. rewrite Hrun.
  apply log_activity_evolve.
Qed.

(** *** A service that fails every [find] *)

Lemma failing_day (wt : watch) (s : settings) (d : Z) (w : world) :
  (forall h hd day,
     exists msg,
       remote h hd (ReqFind (w_venue_id wt) day (w_party_size wt)) = inl msg) ->
  1 <= d + 1 <= max_ordinal ->
  check_day wt s d w =
    Ok tt {| store := store w;
             calls := calls w ++ [find_call_of date_isoformat wt d];
             clock := clock w |}.
Proof.
  intros Hfail Hd. unfold check_day. cbv zeta.
  unfold bind at 1. rewrite resy_find_run. unfold reply.
  destruct (Hfail (calls w ++ [CallFind (w_venue_id wt) (date_isoformat d)
                                 (w_party_size wt)])
              (resy_headers s) (date_isoformat d)) as [msg ->].
  unfold bind, lift, ret, date_fromordinal. cbn [py_in assoc].
  rewrite String.eqb_refl. cbn [bool_decide decide_rel].
  replace ((1 <=? d + 1) && (d + 1 <=? max_ordinal)) with true
    by (symmetry; apply andb_true_iff; split; apply Z.leb_le; lia).
  reflexivity.
Qed.

Lemma failing_days (wt : watch) (s : settings) (days : list Z) (w : world) :
  (forall h hd day,
     exists msg,
       remote h hd (ReqFind (w_venue_id wt) day (w_party_size wt)) = inl msg) ->
  Forall (fun d => 1 <= d + 1 <= max_ordinal) days ->
  for_each days (check_day wt s) w =
    Ok tt {| store := store w;
             calls := calls w ++ map (find_call_of date_isoformat wt) days;
             clock := clock w |}.
Proof.
  intros Hfail Hdays. revert w.
  induction Hdays as [|d days Hd _ IH]; intros w.
  - cbn. rewrite app_nil_r. destruct w; reflexivity.
  - simpl. unfold bind. rewrite (failing_day wt s d w Hfail Hd), IH.
    cbn [store calls clock]. rewrite <- app_assoc. reflexivity.
Qed.

(** X6. When the service fails every [find] call of a watch, the scan says
    nothing of it: it returns, having asked for every day of the range, with
    the activity log and the ledger untouched and without having paused
    (the clock has not moved); only [last_checked] is set. *)
Theorem failed_days_are_silent (wt : watch) (s : settings) (w : world)
    (start end_ : Z) :
  (forall h hd day,
     exists msg,
       remote h hd (ReqFind (w_venue_id wt) day (w_party_size wt)) = inl msg) ->
  date_fromisoformat (w_date_start wt) = Some start ->
  date_fromisoformat (effective_date_end wt) = Some end_ ->
  1 <= start -> end_ < max_ordinal ->
  exists w',
    check_watch wt s w = Ok tt w' /\
    activity_log (store w') = activity_log (store w) /\
    found_slots (store w') = found_slots (store w) /\
    clock w' = clock w /\
    calls w' = calls w ++ map (find_call_of date_isoformat wt)
                            (seqZ start (end_ - start + 1)) /\
    watches (store w') =
      map (fun a => if w_id a =? w_id wt then set_last_checked (clock w) a
                    else a)
          (watches (store w)).
Proof.
  intros Hfail Hs He Hlo Hhi.
  unfold check_watch, bind, lift, fromisoformat. rewrite Hs, He.
  rewrite (failing_days wt s _ w Hfail).
  - eexists. split; [reflexivity|]. cbn. repeat split.
  - apply Forall_forall. intros d Hd. apply elem_of_seqZ in Hd. lia.
Qed.

(** *** Counting what a scan does *)

Lemma n_events_app (type_ : string) (a b : list activity) :
  n_events type_ (a ++ b) = n_events type_ a + n_events type_ b.
Proof. unfold n_events. rewrite List.filter_app, length_app. lia. Qed.

Lemma n_calls_app (kind : api_call -> bool) (a b : list api_call) :
  n_calls kind (a ++ b) = n_calls kind a + n_calls kind b.
Proof. unfold n_calls. rewrite List.filter_app, length_app. lia. Qed.

Lemma length_mark_rows (id : Z) (day : string) (t : option string)
    (rows : list found_slot) :
  length (mark_rows id day t rows) = length rows.
Proof. unfold mark_rows. apply length_map. Qed.

Ltac tally :=
  unfold tally_step, recorded, evolve, event, invoke, sleep,
    touch_last_checked, log_activity, with_store;
  cbn [store calls clock settings_tbl watches activity_log found_slots
       world_of];
  rewrite ?n_events_app, ?n_calls_app, ?length_mark_rows, ?length_app;
  unfold n_events, n_calls; cbn; lia.

Lemma tally_step_record_snipe (wt : watch) (s : settings) (tok : json)
    (day : string) (st : json) (tv cv : sqlval) (w : world) :
  tally_step w
    (world_of (try_snipe wt tok day st s (recorded wt day st tv cv w))).
Proof.
  rewrite try_snipe_run. cbv zeta.
  destruct (py_in "error" _) as [?|[|]]; [tally| |].
  - destruct (py_subscript _ _); tally.
  - destruct (extracted_book_token _) as [?|bt]; [tally|].
    destruct (py_truthy bt); cbn [negb]; [|tally].
    destruct (payment_method_id _); [tally|].
    destruct (py_in "error" _) as [?|[|]]; [tally| |].
    + destruct (py_subscript _ _); tally.
    + destruct (sql_bind st); tally.
Qed.

Lemma tally_step_guarded (wt : watch) (s : settings) :
  respects tally_step (guarded_check_watch s wt).
Proof.
  apply respects_guarded_check_watch.
  - intros w. tally.
  - intros a b c H1 H2. unfold tally_step in *. cbv zeta in *. lia.
  - intros day st tv cv w. tally.
  - intros tok day st tv cv w _. apply tally_step_record_snipe.
  - intros day w. tally.
  - intros w. tally.
  - intros w. tally.
  - intros e w. tally.
Qed.

(** *** What a booking attempt is for *)

Lemma attempts_step_refl (active : list watch) (w : world) :
  attempts_step active w w.
Proof.
  split; [apply grows_refl|]. exists []. split; [symmetry; apply app_nil_r|].
  split; intros j; intros; discriminate.
Qed.

Lemma attempts_step_trans (active : list watch) (a b c : world) :
  attempts_step active a b -> attempts_step active b c ->
  attempts_step active a c.
Proof.
  intros (Hg1 & cs1 & Hc1 & Hd1 & Hb1) (Hg2 & cs2 & Hc2 & Hd2 & Hb2).
  split; [eapply grows_trans; eassumption|].
  exists (cs1 ++ cs2). split; [rewrite Hc2, Hc1, app_assoc; reflexivity|].
  split.
  - intros j tok day party Hj. apply lookup_app_Some in Hj as [Hj|[Hle Hj]].
    + destruct (Hd1 _ _ _ _ Hj)
        as (i & r & wt & cv & Hi & Hr & Hin & Hid & Hp & Hps & Hday & Htok & Hcv).
      destruct (Hg2 _ _ Hr) as [Hr'|Hr'].
      * exists i, r, wt, cv. auto 10.
      * exists i, (set_booked r), wt, cv. auto 10.
    + destruct (Hd2 _ _ _ _ Hj)
        as (i & r & wt & cv & Hi & Hr & Hrest).
      exists i, r, wt, cv. split; [|auto].
      pose proof (grows_length _ _ Hg1). lia.
  - intros j bt Hj. apply lookup_app_Some in Hj as [Hj|[Hle Hj]].
    + destruct (Hb1 _ _ Hj) as (j' & tok & day & party & -> & Hj').
      exists j', tok, day, party. split; [reflexivity|].
      apply lookup_app_l_Some. exact Hj'.
    + destruct (Hb2 _ _ Hj) as (j' & tok & day & party & Hjj & Hj').
      exists (length cs1 + j')%nat, tok, day, party. split; [lia|].
      rewrite lookup_app_r by lia.
      replace (length cs1 + j' - length cs1)%nat with j' by lia. exact Hj'.
Qed.

(** A step that makes no details call and no book call. *)
Lemma attempts_step_evolve (active : list watch) (w : world)
    (events : list activity) (cs : list api_call) (rows : list found_slot) :
  grows (found_slots (store w)) rows ->
  Forall (fun c => is_details c = false /\ is_book c = false) cs ->
  attempts_step active w (evolve w events cs rows).
Proof.
  intros Hg Hcs. split; [exact Hg|]. exists cs. split; [reflexivity|].
  rewrite Forall_forall in Hcs.
  split; intros j; intros; match goal with
    | H : cs !! _ = Some _ |- _ =>
        apply list_elem_of_lookup_2 in H; apply Hcs in H;
        destruct H; discriminate
    end.
Qed.

(** Every way [try_snipe] can end, with the calls it made. *)
Lemma try_snipe_attempt (wt : watch) (tok : json) (day : string) (time : json)
    (s : settings) (w : world) :
  exists events cs rows,
    world_of (try_snipe wt tok day time s w) = evolve w events cs rows /\
    (rows = found_slots (store w) \/
     exists t, rows = mark_rows (w_id wt) day t (found_slots (store w))) /\
    (cs = [CallDetails tok day (w_party_size wt)] \/
     exists bt, cs = [CallDetails tok day (w_party_size wt); CallBook bt]).
Proof.
  rewrite try_snipe_run. cbv zeta.
  assert (Hend : forall events cs rows,
    (rows = found_slots (store w) \/
     exists t, rows = mark_rows (w_id wt) day t (found_slots (store w))) ->
    (cs = [CallDetails tok day (w_party_size wt)] \/
     exists bt, cs = [CallDetails tok day (w_party_size wt); CallBook bt]) ->
    forall o : outcome unit, world_of o = evolve w events cs rows ->
    exists events' cs' rows',
      world_of o = evolve w events' cs' rows' /\
      (rows' = found_slots (store w) \/
       exists t, rows' = mark_rows (w_id wt) day t (found_slots (store w))) /\
      (cs' = [CallDetails tok day (w_party_size wt)] \/
       exists bt, cs' = [CallDetails tok day (w_party_size wt); CallBook bt])).
  { intros events cs rows Hr Hc o Ho. exists events, cs, rows. auto. }
  destruct (py_in "error" _) as [?|[|]].
  1: eapply Hend; [left; reflexivity|left; reflexivity|reflexivity].
  - destruct (py_subscript _ _);
      (eapply Hend; [left; reflexivity|left; reflexivity|reflexivity]).
  - destruct (extracted_book_token _) as [?|bt].
    1: eapply Hend; [left; reflexivity|left; reflexivity|reflexivity].
    destruct (py_truthy bt); cbn [negb].
    2: eapply Hend; [left; reflexivity|left; reflexivity|reflexivity].
    destruct (payment_method_id _).
    1: eapply Hend; [left; reflexivity|right; eexists; reflexivity|reflexivity].
    destruct (py_in "error" _) as [?|[|]].
    1: eapply Hend; [left; reflexivity|right; eexists; reflexivity|reflexivity].
    + destruct (py_subscript _ _);
        (eapply Hend;
         [left; reflexivity|right; eexists; reflexivity|reflexivity]).
    + destruct (sql_bind time).
      * eapply Hend;
          [left; reflexivity|right; eexists; reflexivity|reflexivity].
      * eapply Hend;
          [right; eexists; reflexivity|right; eexists; reflexivity|reflexivity].
Qed.

Lemma attempts_step_record_snipe (active : list watch) (wt : watch)
    (s : settings) (tok : json) (day : string) (st : json) (tv cv : sqlval)
    (w : world) :
  In wt active -> sql_bind tok = inr cv ->
  attempts_step active w
    (world_of (try_snipe wt tok day st s (recorded wt day st tv cv w))).
Proof.
  intros Hin Htok.
  destruct (try_snipe_attempt wt tok day st s (recorded wt day st tv cv w))
    as (events & cs & rows & -> & Hrows & Hcs).
  set (row := found_row wt day (text_affinity tv) (text_affinity cv) (clock w)).
  assert (Hrow : exists r,
            rows !! length (found_slots (store w)) = Some r /\
            fs_watch_id r = w_id wt /\ fs_party_size r = w_party_size wt /\
            fs_date r = day /\ fs_config_token r = text_affinity cv).
  { assert (Hlast : found_slots (store (recorded wt day st tv cv w))
                      !! length (found_slots (store w)) = Some row)
      by (unfold recorded, evolve; cbn [store found_slots];
          apply list_lookup_middle; reflexivity).
    destruct Hrows as [->|[t ->]].
    - exists row. split; [exact Hlast|]. repeat split.
    - unfold mark_rows. rewrite list_lookup_fmap, Hlast. cbn [fmap option_fmap option_map].
      destruct (slot_key_matches _ _ _ row);
        eexists; (split; [reflexivity|]); repeat split. }
  assert (Hg : grows (found_slots (store w)) rows).
  { eapply grows_trans; [apply (grows_app _ [row])|].
    destruct Hrows as [->|[t ->]];
      [apply grows_refl|apply grows_mark]. }
  split; [exact Hg|]. exists cs. split.
  { unfold recorded, evolve. cbn [calls]. rewrite app_nil_r. reflexivity. }
  destruct Hrow as (r & Hr & Hid & Hps & Hday & Hcv).
  unfold evolve. cbn [store found_slots].
  split.
  - intros j tok' day' party' Hj.
    assert (Hc : CallDetails tok' day' party' =
                 CallDetails tok day (w_party_size wt)).
    { destruct Hcs as [->|[bt ->]]; destruct j as [|[|j]];
        first [cbn in Hj; congruence
              |apply lookup_lt_Some in Hj; cbn in Hj; lia]. }
    injection Hc as -> -> ->.
    exists (length (found_slots (store w))), r, wt, cv. auto 10.
  - intros j bt' Hj.
    destruct Hcs as [->|[bt ->]]; destruct j as [|[|j]];
      try (cbn in Hj; discriminate);
      try (apply lookup_lt_Some in Hj; cbn in Hj; lia).
    exists 0%nat, tok, day, (w_party_size wt). split; reflexivity.
Qed.

Lemma attempts_step_guarded (active : list watch) (wt : watch)
    (s : settings) :
  In wt active -> respects (attempts_step active) (guarded_check_watch s wt).
Proof.
  intros Hin. apply respects_guarded_check_watch.
  - apply attempts_step_refl.
  - apply attempts_step_trans.
  - intros day st tv cv w. apply attempts_step_evolve;
      [apply grows_app|constructor].
  - intros tok day st tv cv w Htok.
    apply attempts_step_record_snipe; assumption.
  - intros day w. unfold invoke. cbn [world_of].
    apply (attempts_step_evolve active w [] [_] (found_slots (store w)) (grows_refl _)).
    repeat constructor.
  - intros w. unfold sleep. cbn [world_of].
    split; [apply grows_refl|]. exists []. cbn [calls].
    split; [symmetry; apply app_nil_r|]. split; intros j; intros; discriminate.
  - intros w. unfold touch_last_checked, with_store. cbn [world_of].
    split; [apply grows_refl|]. exists []. cbn [calls].
    split; [symmetry; apply app_nil_r|]. split; intros j; intros; discriminate.
  - intros e w. rewrite log_activity_evolve. cbn [world_of].
    apply attempts_step_evolve; [apply grows_refl|constructor].
Qed.

(** X7. In a scan of all active watches, every booking attempt is for a slot
    the scan has just recorded.  Of the client calls the scan made, every
    details call carries the day and the config token of a row the scan
    inserted (it stands past the end of the former ledger) for an active
    watch, with the party size of that watch, and every book call comes
    right after a details call.  In numbers: as many rows are inserted as
    [found] events are logged, as many [snipe] events as details calls are
    made, and the [booked] events are no more than the book calls, which are
    no more than the details calls, which are no more than the rows
    inserted. *)
Theorem scan_books_only_what_it_records (w : world) :
  let active := filter (fun wt => w_active wt = SInt 1) (watches (store w)) in
  let w' := world_of (check_all_watches w) in
  let rows x := Z.of_nat (length (found_slots (store x))) in
  let events t x := n_events t (activity_log (store x)) in
  let made k x := n_calls k (calls x) in
  (rows w' - rows w = events "found" w' - events "found" w /\
   events "snipe" w' - events "snipe" w =
     made is_details w' - made is_details w /\
   0 <= events "booked" w' - events "booked" w /\
   events "booked" w' - events "booked" w <= made is_book w' - made is_book w /\
   made is_book w' - made is_book w <= made is_details w' - made is_details w /\
   made is_details w' - made is_details w <= rows w' - rows w) /\
  exists cs,
    calls w' = calls w ++ cs /\
    (forall j tok day party,
       cs !! j = Some (CallDetails tok day party) ->
       exists i r wt cv,
         (length (found_slots (store w)) <= i)%nat /\
         found_slots (store w') !! i = Some r /\
         In wt active /\ fs_watch_id r = w_id wt /\
         party = w_party_size wt /\ fs_party_size r = party /\
         fs_date r = day /\
         sql_bind tok = inr cv /\ fs_config_token r = text_affinity cv) /\
    (forall j bt,
       cs !! j = Some (CallBook bt) ->
       exists j' tok day party,
         j = S j' /\ cs !! j' = Some (CallDetails tok day party)).
Proof.
  intros active w' rows events made. split.
  - change (tally_step w (world_of (check_all_watches w))).
    unfold check_all_watches, bind, select_active_watches, get_settings.
    destruct (negb _); [tally|].
    apply respects_for_each.
    + intros x. tally.
    + intros a b c H1 H2. unfold tally_step in *. cbv zeta in *. lia.
    + intros wt _. apply tally_step_guarded.
  - assert (H : attempts_step active w w').
    { subst w'. unfold check_all_watches, bind, select_active_watches,
        get_settings. fold active.
      destruct (negb _); [apply attempts_step_refl|].
      apply respects_for_each;
        [apply attempts_step_refl|apply attempts_step_trans|].
      intros wt Hin. apply attempts_step_guarded. exact Hin. }
    exact (proj2 H).
Qed.

(** X8. A snipe that did not book is not tried again. When the iteration for
    a slot with a start timestamp returns without a new [booked] event
    (nothing was attempted, or the attempt ended in an [error] event), the
    slot was dropped by the time check or has an unbooked record, so the
    iteration for the same slot in the world it left, under whatever
    settings, does nothing at all. *)
Theorem failed_snipe_is_not_retried (wt : watch) (s s' : settings)
    (day : string) (slot st tok : json) (tv : sqlval) (w w' : world) :
  slot_fields slot = inr (st, tok) ->
  sql_bind st = inr tv -> text_affinity tv <> None ->
  check_slot wt s day slot w = Ok tt w' ->
  n_events "booked" (activity_log (store w')) =
    n_events "booked" (activity_log (store w)) ->
  check_slot wt s' day slot w' = Ok tt w'.
Proof.
  intros Hf Hb Ht Hrun Hcount.
  rewrite (check_slot_run wt s day slot st tok w Hf) in Hrun.
  rewrite (check_slot_run wt s' day slot st tok w' Hf).
  cbv zeta in Hrun |- *.
  destruct (time_in_range wt st) as [?|[|]]; [discriminate| |reflexivity].
  rewrite Hb in Hrun |- *.
  assert (Hseen : has_unbooked (w_id wt) day (text_affinity tv)
                    (found_slots (store w'))).
  { destruct (existsb _ (found_slots (store w))) eqn:Hex.
    { injection Hrun as <-. apply select_unbooked_spec. exact Hex. }
    destruct (sql_bind tok) as [?|cv]; [discriminate|].
    fold (recorded wt day st tv cv w) in Hrun.
    set (row := found_row wt day (text_affinity tv) (text_affinity cv)
                  (clock w)).
    assert (Hrow : has_unbooked (w_id wt) day (text_affinity tv)
                     (found_slots (store (recorded wt day st tv cv w)))).
    { exists row. split; [|split].
      - unfold recorded, evolve. cbn [store found_slots].
        apply in_or_app. right. left. reflexivity.
      - unfold same_slot, row, found_row. cbn.
        repeat split; [reflexivity..|].
        destruct (text_affinity tv) as [t|]; [eauto|contradiction].
      - reflexivity. }
    destruct (snipe_wanted wt tok s); [|injection Hrun as <-; exact Hrow].
    assert (Hc : n_events "booked"
                   (activity_log (store (recorded wt day st tv cv w)))
                 = n_events "booked" (activity_log (store w)))
      by (unfold recorded, evolve, event;
          cbn [store activity_log]; rewrite n_events_app;
          unfold n_events; cbn; lia).
    rewrite <- Hc in Hcount. clear Hc.
    revert Hrow Hrun Hcount. generalize (recorded wt day st tv cv w).
    intros w1 Hrow. rewrite try_snipe_run. cbv zeta.
    destruct (py_in "error" _) as [?|[|]]; [discriminate| |].
    - destruct (py_subscript _ _); [discriminate|].
      intros [= <-] _. exact Hrow.
    - destruct (extracted_book_token _) as [?|bt]; [discriminate|].
      destruct (py_truthy bt); cbn [negb]; [|intros [= <-] _; exact Hrow].
      destruct (payment_method_id _); [discriminate|].
      destruct (py_in "error" _) as [?|[|]]; [discriminate| |].
      + destruct (py_subscript _ _); [discriminate|].
        intros [= <-] _. exact Hrow.
      + destruct (sql_bind st); [discriminate|].
        intros [= <-]. unfold evolve, event. cbn [store activity_log].
        rewrite n_events_app. unfold n_events. cbn. lia. }
  apply select_unbooked_spec in Hseen. rewrite Hseen. reflexivity.
Qed.

(** *** The time of day of a start timestamp *)

Lemma str_split_nonempty (sep : ascii) (s : string) : str_split sep s <> [].
Proof.
  destruct s as [|c s]; simpl; [discriminate|].
  destruct (Ascii.eqb c sep); [discriminate|].
  destruct (str_split sep s); discriminate.
Qed.

(** [(a + sep + t).split(sep) == a.split(sep) + t.split(sep)] *)
Lemma str_split_app (sep : ascii) (a t : string) :
  str_split sep (a +:+ String sep t) = str_split sep a ++ str_split sep t.
Proof.
  induction a as [|c a IH]; simpl.
  - rewrite Ascii.eqb_refl. reflexivity.
  - rewrite IH. destruct (Ascii.eqb c sep); [reflexivity|].
    pose proof (str_split_nonempty sep a) as Hne.
    destruct (str_split sep a); [contradiction|reflexivity].
Qed.

Lemma str_split_one (s : string) :
  str_contains " " s = false -> str_split " " s = [s].
Proof.
  induction s as [|c s IH]; simpl; [reflexivity|].
  intros H. apply orb_false_iff in H as [H1 H2].
  destruct (Ascii.eqb_spec c " ") as [->|Hne].
  - destruct (ascii_dec " " " "); [|contradiction].
    destruct s; discriminate.
  - rewrite (IH H2). reflexivity.
Qed.

Lemma str_contains_app (a t : string) :
  str_contains " " (a +:+ String " " t) = true.
Proof.
  induction a as [|c a IH]; simpl.
  - destruct (ascii_dec " " " "); [|contradiction]. destruct t; reflexivity.
  - rewrite IH. apply orb_true_r.
Qed.

Lemma last_app_cons {A} (l1 l2 : list A) (x d : A) :
  List.last (l1 ++ x :: l2) d = List.last (x :: l2) d.
Proof.
  induction l1 as [|y l1 IH]; [reflexivity|].
  cbn [app]. rewrite <- IH. destruct (l1 ++ x :: l2) eqn:E; [|reflexivity].
  destruct l1; discriminate.
Qed.

(** X9. The time of day of a start timestamp is read after its last space:
    for [date time] with no space in [time] it is the first five characters
    of [time], whatever [date] is (spaces included), and a timestamp without
    any space is taken whole, so that the test [" " in start_time] of the
    source changes nothing. *)
Theorem time_of_day_after_last_space (date time : string) :
  str_contains " " time = false ->
  time_of_day (date +:+ " " +:+ time) = str_take 5 time /\
  time_of_day time = str_take 5 time /\
  List.last (str_split " " time) "" = time.
Proof.
  intros H. unfold time_of_day.
  change (" " +:+ time) with (String " " time).
  rewrite str_contains_app, str_split_app, H, (str_split_one time H).
  split; [|split; reflexivity].
  rewrite last_app_cons. reflexivity.
Qed.

(** *** The order of strings and the order of times *)

Lemma digit_compare (a b : Z) :
  0 <= a <= 9 -> 0 <= b <= 9 ->
  Ascii.compare (ascii_of_digit a) (ascii_of_digit b) = (a ?= b).
Proof.
  intros Ha Hb. unfold Ascii.compare, ascii_of_digit.
  rewrite !N_ascii_embedding by lia.
  rewrite Z2N.inj_compare by lia. apply Z.add_compare_mono_l.
Qed.

Lemma hhmm_chars (h m : Z) :
  hhmm h m =
    String (ascii_of_digit ((h / 10) mod 10))
      (String (ascii_of_digit (h mod 10))
         (String ":"
            (String (ascii_of_digit ((m / 10) mod 10))
               (String (ascii_of_digit (m mod 10)) EmptyString)))).
Proof. reflexivity. Qed.

Lemma hhmm_ltb (h1 m1 h2 m2 : Z) :
  0 <= h1 < 24 -> 0 <= m1 < 60 -> 0 <= h2 < 24 -> 0 <= m2 < 60 ->
  String.ltb (hhmm h1 m1) (hhmm h2 m2) = (h1 * 60 + m1 <? h2 * 60 + m2).
Proof.
  intros H1 M1 H2 M2. rewrite !hhmm_chars. unfold String.ltb.
  cbn [String.compare].
  rewrite !digit_compare
    by (split; first [apply Z.mod_pos_bound; lia
                     |pose proof (Z.mod_pos_bound (h1 / 10) 10);
                      pose proof (Z.mod_pos_bound (h2 / 10) 10);
                      pose proof (Z.mod_pos_bound (m1 / 10) 10);
                      pose proof (Z.mod_pos_bound (m2 / 10) 10);
                      pose proof (Z.mod_pos_bound h1 10);
                      pose proof (Z.mod_pos_bound h2 10);
                      pose proof (Z.mod_pos_bound m1 10);
                      pose proof (Z.mod_pos_bound m2 10); lia]).
  change (Ascii.compare ":" ":") with Eq.
  symmetry.
  destruct (Z.compare_spec ((h1 / 10) mod 10) ((h2 / 10) mod 10));
    [destruct (Z.compare_spec (h1 mod 10) (h2 mod 10));
       [destruct (Z.compare_spec ((m1 / 10) mod 10) ((m2 / 10) mod 10));
          [destruct (Z.compare_spec (m1 mod 10) (m2 mod 10))|..]|..]|..];
    first [apply Z.ltb_lt | apply Z.ltb_ge];
    Z.div_mod_to_equations; lia.
Qed.

Lemma leb_negb_ltb (a b : string) : String.leb a b = negb (String.ltb b a).
Proof.
  destruct (String.ltb b a) eqn:E; simpl.
  - destruct (String.leb a b) eqn:E'; [|reflexivity].
    apply ltb_false_leb in E'. congruence.
  - apply ltb_false_leb. exact E.
Qed.

(** X10. For times written [HH:MM], the comparison of strings the time
    check makes is the comparison of times: a slot whose time of day is
    [h:m] is kept under the window from [eh:em] to [lh:lm] exactly when
    [h:m] is not before [eh:em] and not after [lh:lm] on the clock. *)
Theorem window_is_chronological (wt : watch) (start : string)
    (h m eh em lh lm : Z) :
  0 <= h < 24 -> 0 <= m < 60 ->
  0 <= eh < 24 -> 0 <= em < 60 ->
  0 <= lh < 24 -> 0 <= lm < 60 ->
  w_time_earliest wt = Some (hhmm eh em) ->
  w_time_latest wt = Some (hhmm lh lm) ->
  time_of_day start = hhmm h m ->
  time_in_range wt (JStr start) =
    inr ((eh * 60 + em <=? h * 60 + m) && (h * 60 + m <=? lh * 60 + lm)).
Proof.
  intros Hh Hm Heh Hem Hlh Hlm He Hl Ht.
  rewrite (time_in_range_str wt start (hhmm eh em) (hhmm lh lm)).
  - rewrite Ht, !leb_negb_ltb, !hhmm_ltb by assumption.
    rewrite !Z.leb_antisym. reflexivity.
  - intros ->. rewrite hhmm_chars in Ht. discriminate.
  - exact He.
  - rewrite hhmm_chars. discriminate.
  - exact Hl.
  - rewrite hhmm_chars. discriminate.
Qed.

(** *** The settings as the API shows them *)

Lemma str_app_cons (c : ascii) (a b : string) :
  String c a +:+ b = String c (a +:+ b).
Proof. reflexivity. Qed.

Lemma str_take_drop (n : nat) (s : string) : str_take n s +:+ str_drop n s = s.
Proof.
  revert s. induction n as [|n IH]; intros [|c s]; simpl; try reflexivity.
  rewrite str_app_cons. f_equal. apply IH.
Qed.

Lemma str_length_app (a b : string) :
  String.length (a +:+ b) = (String.length a + String.length b)%nat.
Proof.
  induction a as [|c a IH]; [reflexivity|].
  rewrite str_app_cons. simpl. f_equal. exact IH.
Qed.

Lemma str_take_length (n : nat) (s : string) :
  (n <= String.length s)%nat -> String.length (str_take n s) = n.
Proof.
  revert s. induction n as [|n IH]; intros [|c s] H; simpl in *;
    try reflexivity; [lia|].
  f_equal. apply IH. lia.
Qed.

Lemma str_drop_length (n : nat) (s : string) :
  String.length (str_drop n s) = (String.length s - n)%nat.
Proof.
  revert s. induction n as [|n IH]; intros [|c s]; simpl; try reflexivity;
    first [apply IH | lia].
Qed.

Lemma str_drop_drop (a b : nat) (s : string) :
  str_drop a (str_drop b s) = str_drop (b + a) s.
Proof.
  revert s. induction b as [|b IH]; intros s; [reflexivity|].
  destruct s as [|c s]; simpl; [destruct a; reflexivity|apply IH].
Qed.

Lemma str_app_inv_head (a b c : string) : a +:+ b = a +:+ c -> b = c.
Proof.
  induction a as [|x a IH]; [auto|].
  rewrite !str_app_cons. intros [= H]. exact (IH H).
Qed.

Lemma mask_is_identity (v : string) :
  (12 < String.length v)%nat ->
  str_take 8 v +:+ "..." +:+ str_last 4 v = v <->
  String.length v = 15%nat /\ str_take 3 (str_drop 8 v) = "...".
Proof.
  intros Hlen. unfold str_last. split.
  - intros H.
    assert (Hl : String.length v = 15%nat).
    { apply (f_equal String.length) in H.
      rewrite !str_length_app, str_take_length, str_drop_length in H by lia.
      cbn in H. lia. }
    split; [exact Hl|].
    rewrite Hl in H. cbn [Nat.sub] in H.
    rewrite <- (str_take_drop 8 v) in H at 3.
    apply str_app_inv_head in H. rewrite <- H. reflexivity.
  - intros [Hl H3]. rewrite Hl. cbn [Nat.sub].
    rewrite <- (str_take_drop 8 v) at 3. f_equal.
    rewrite <- (str_take_drop 3 (str_drop 8 v)), H3, str_drop_drop.
    reflexivity.
Qed.

Lemma mask_value_secret (k v : string) :
  is_secret_key k = true -> v <> "" ->
  mask_value k (Some v) =
    Some (if (12 <? String.length v)%nat
          then str_take 8 v +:+ "..." +:+ str_last 4 v
          else "***").
Proof.
  intros Hk Hv. unfold mask_value, str_truthy. rewrite Hk.
  apply String.eqb_neq in Hv. rewrite Hv. reflexivity.
Qed.

(** X11. What [/api/settings] shows. Every key of the settings is shown and
    no other; a key other than [api_key] and [auth_token], and a secret that
    is NULL or empty, is shown as it is. A secret that is set is shown as a
    text of at most 15 characters: [***] when it has at most 12 characters,
    its first 8 and last 4 characters around [...] otherwise. What is shown
    is the secret itself in two cases only: the secret is [***], or it has
    15 characters of which the 9th to 11th are dots. *)
Theorem masked_settings_shown (s : settings) (k : string) :
  (masked_settings s !! k = None <-> s !! k = None) /\
  (is_secret_key k = false \/ str_truthy (setting s k) = false ->
   masked_settings s !! k = s !! k) /\
  (forall v,
     is_secret_key k = true -> s !! k = Some (Some v) -> v <> "" ->
     exists shown,
       masked_settings s !! k = Some (Some shown) /\
       (String.length shown <= 15)%nat /\
       ((String.length v <= 12)%nat -> shown = "***") /\
       ((12 < String.length v)%nat ->
        shown = str_take 8 v +:+ "..." +:+ str_last 4 v) /\
       (shown = v <->
        v = "***" \/
        (String.length v = 15%nat /\ str_take 3 (str_drop 8 v) = "..."))).
Proof.
  unfold masked_settings. rewrite map_lookup_imap.
  split; [|split].
  - destruct (s !! k); simpl; split; congruence.
  - unfold setting. intros H. destruct (s !! k) as [v|]; [|reflexivity].
    simpl. unfold mask_value.
    destruct H as [->| ->]; [reflexivity|]. rewrite andb_false_r.
    reflexivity.
  - intros v Hk Hs Hv. rewrite Hs. cbn [mbind option_bind].
    rewrite (mask_value_secret k v Hk Hv).
    eexists. split; [reflexivity|].
    destruct (12 <? String.length v)%nat eqn:E.
    + apply Nat.ltb_lt in E.
      split; [|split; [lia|split; [reflexivity|]]].
      * unfold str_last.
        rewrite !str_length_app, str_take_length, str_drop_length by lia.
        cbn. lia.
      * rewrite (mask_is_identity v E). split; [auto|].
        intros [->|H]; [cbn in E; lia|exact H].
    + apply Nat.ltb_ge in E.
      split; [cbn; lia|split; [reflexivity|split; [lia|]]].
      split; [auto|]. intros [->|[H _]]; [reflexivity|lia].
Qed.

End Further.

(** ** The further scenarios, run *)

Lemma returning_scan_stamps_its_watch_witness :
  watches (store (world_of (check_watch (env := demo_env [slot_19])
                              (demo_watch 0) demo_settings
                              (demo_world demo_settings (demo_watch 0) []))))
  = [set_last_checked 1001 (demo_watch 0)].
Proof.
  destruct (returning_scan_stamps_its_watch (env := demo_env [slot_19])
              (demo_watch 0) demo_settings
              (demo_world demo_settings (demo_watch 0) [])
              (world_of (check_watch (env := demo_env [slot_19])
                           (demo_watch 0) demo_settings
                           (demo_world demo_settings (demo_watch 0) []))))
    as [H _].
  - vm_compute. reflexivity.
  - rewrite H. vm_compute. reflexivity.
Defined.

Lemma scan_asks_each_day_once_witness :
  exists k,
    (k <= 2)%nat /\
    find_calls (world_of (check_watch (env := demo_env [slot_19]) final_watch
                            demo_settings
                            (demo_world demo_settings final_watch []))) =
      map (find_call_of iso_isoformat final_watch) (take k [3652058; 3652059]).
Proof.
  destruct (scan_asks_each_day_once (env := demo_env [slot_19]) final_watch
              demo_settings (demo_world demo_settings final_watch [])
              3652058 3652059 eq_refl eq_refl) as (k & Hk & Hcalls & _).
  exists k. split; [exact Hk|exact Hcalls].
Defined.

Lemma range_to_last_day_never_completes_witness :
  exists e w1,
    check_watch (env := demo_env [slot_19]) final_watch demo_settings
      (demo_world demo_settings final_watch []) = Raise e w1 /\
    watches (store w1) = [final_watch].
Proof.
  destruct (range_to_last_day_never_completes (env := demo_env [slot_19])
              final_watch demo_settings
              (demo_world demo_settings final_watch []) 3652058
              eq_refl eq_refl ltac:(unfold max_ordinal; lia))
    as (e & w1 & Hrun & Hk & _).
  exists e, w1. split; [exact Hrun|exact Hk].
Defined.

Lemma failed_days_are_silent_witness :
  exists w',
    check_watch (env := calendar_env down_remote) (demo_watch 1)
      demo_settings (demo_world demo_settings (demo_watch 1) []) = Ok tt w' /\
    activity_log (store w') = [] /\ found_slots (store w') = [] /\
    clock w' = 1000.
Proof.
  destruct (failed_days_are_silent (env := calendar_env down_remote)
              (demo_watch 1) demo_settings
              (demo_world demo_settings (demo_watch 1) []) 739038 739038)
    as (w' & Hrun & Hlog & Hrows & Hclock & _).
  - intros h hd day. eexists. reflexivity.
  - reflexivity.
  - reflexivity.
  - lia.
  - unfold max_ordinal. lia.
  - exists w'. split; [exact Hrun|]. split; [exact Hlog|].
    split; [exact Hrows|exact Hclock].
Defined.

Lemma failed_snipe_is_not_retried_witness :
  let w := demo_world demo_settings (demo_watch 1) [] in
  let w' := world_of (check_slot (env := calendar_env (no_details_remote []))
                        (demo_watch 1) demo_settings "2024-06-01" slot_19 w) in
  check_slot (env := calendar_env (no_details_remote [])) (demo_watch 1)
    demo_settings "2024-06-01" slot_19 w' = Ok tt w'.
Proof.
  cbv zeta.
  apply (failed_snipe_is_not_retried (env := calendar_env (no_details_remote []))
           (demo_watch 1) demo_settings demo_settings "2024-06-01" slot_19
           (JStr "2024-06-01 19:00:00") (JStr "tok1")
           (SText "2024-06-01 19:00:00")
           (demo_world demo_settings (demo_watch 1) [])).
  - reflexivity.
  - reflexivity.
  - discriminate.
  - vm_compute. reflexivity.
  - vm_compute. reflexivity.
Defined.

Lemma time_of_day_after_last_space_witness :
  time_of_day ("2024-06-01" +:+ " " +:+ "19:30:00") = str_take 5 "19:30:00".
Proof.
  destruct (time_of_day_after_last_space "2024-06-01" "19:30:00" eq_refl)
    as [H _].
  exact H.
Defined.

Lemma window_is_chronological_witness :
  time_in_range (demo_watch 0) (JStr "2024-06-01 19:30:00") =
    inr ((17 * 60 + 0 <=? 19 * 60 + 30) && (19 * 60 + 30 <=? 22 * 60 + 0)).
Proof.
  apply (window_is_chronological (demo_watch 0)
           "2024-06-01 19:30:00" 19 30 17 0 22 0);
    first [lia | reflexivity].
Defined.

(** A bound that is not zero-padded is not read as a time: under a window
    from [9:00] to [17:00] a slot at noon is discarded, since ["12:00"]
    comes before ["9:00"] in the order of strings. *)
Example unpadded_bound :
  time_in_range (window_watch (Some "9:00") (Some "17:00") 0)
    (JStr "2024-06-01 12:00:00") = inr false.
Proof. reflexivity. Qed.
